(** * LLMManager (openai_chat.py): a shallow embedding and its properties

    The Python class [LLMManager] is a facade over three hosted chat
    providers.  This development embeds its methods as functions of an
    explicit object state ([self]), a console/network trace and an outcome
    (normal return, raised exception), and proves properties of

    - the token estimator [num_tokens_from_messages],
    - the history truncation loop of [chat_with_history],
    - the request shapes built for the Claude and Gemini providers,
    - the single-shot [chat],
    - provider selection ([__init__], [set_provider]).

    Python values are modelled as JSON-like trees, dictionaries as
    association lists in insertion order (the order [dict.items()] yields),
    Python integers as [Z]. *)

From Stdlib Require Import String Ascii List ZArith Lia Bool.
Import ListNotations.
Local Open Scope string_scope.
Local Open Scope Z_scope.

(** ** Python values *)

#[warnings="-register-all"]
Inductive pyval : Type :=
| PNone
| PStr (s : string)
| PList (l : list pyval)
| PDict (d : list (string * pyval)).

(** [d[k]] / [d.get(k)] on a dictionary kept as an association list. *)
Fixpoint dict_get (k : string) (d : list (string * pyval)) : option pyval :=
  match d with
  | [] => None
  | (k', v) :: rest => if String.eqb k k' then Some v else dict_get k rest
  end.

(** [sep.join(parts)]. *)
Fixpoint join (sep : string) (parts : list string) : string :=
  match parts with
  | [] => ""
  | [p] => p
  | p :: rest => p ++ sep ++ join sep rest
  end.

(** The one-character string ['\n']. *)
Definition NL : string := String (ascii_of_nat 10) EmptyString.

(** [sub in s] for two strings. *)
Fixpoint str_contains (sub s : string) : bool :=
  if String.prefix sub s then true
  else match s with
       | EmptyString => false
       | String _ rest => str_contains sub rest
       end.

(** [len(x)] as a Python integer. *)
Definition len {A : Type} (l : list A) : Z := Z.of_nat (List.length l).
Definition str_len (s : string) : Z := Z.of_nat (String.length s).

(** [lst.pop(i)]: the list without the element at index [i], or [None]
    when the index is out of range (Python raises [IndexError]). *)
Fixpoint pop {A : Type} (i : nat) (l : list A) : option (A * list A) :=
  match i, l with
  | _, [] => None
  | O, x :: rest => Some (x, rest)
  | S j, x :: rest =>
      match pop j rest with
      | Some (y, rest') => Some (y, x :: rest')
      | None => None
      end
  end.

(** Truthiness-based [a or b] on an optional string: [None] and [""] are
    falsy. *)
Definition py_or (a : option string) (b : string) : string :=
  match a with
  | Some s => if String.eqb s "" then b else s
  | None => b
  end.

(** ** Exceptions, outcomes, console and network events *)

Inductive exn : Type :=
| ValueError (msg : string)
| NotImplementedError (model_name : string)
| IndexError
| KeyError (key : string)
| TypeError
| AttributeError
| ProviderError (msg : string)
| MarkupError (msg : string)
| OSError (msg : string).

Inductive outcome (A : Type) : Type :=
| Ret (a : A)
| Raise (e : exn)
| Diverge.
Arguments Ret {A} a.
Arguments Raise {A} e.
Arguments Diverge {A}.

(** Lines written to the console by [print]. *)
Inductive console : Type :=
| ErrClientUnavailable (name : string)
| ErrClientNotInitialized (name : string)
| NoInput
| QuestionTooLarge
| ErrImageEncode
| AskingQuestion (name : string)
| HistoryTokenLength (n : Z)
| PoppedMessage (n : Z)
| Answer (text : string).

(** Observable effects of a method call, in order. *)
Inductive event : Type :=
| Print (line : console)
| OpenAIChatCreate (model_name : string) (messages : list pyval)
| ClaudeMessagesCreate (model_name : string) (max_tokens : Z) (messages : list pyval)
| GeminiGenerateContent (model_name : string) (prompt : string)
| BackupWrite (path : string) (history : list pyval).

(** Whether an event is a request sent to a provider. *)
Definition is_dispatch (e : event) : bool :=
  match e with
  | OpenAIChatCreate _ _ | ClaudeMessagesCreate _ _ _ | GeminiGenerateContent _ _ => true
  | _ => false
  end.

(** ** External collaborators

    Everything the class reaches outside itself: the tiktoken library,
    Python's [repr], the process environment, installed packages, the file
    system and the three provider SDKs. *)

(** [encoding.encode(text)]: the token ids of a string, or [None] when
    [encode] raises (tiktoken refuses text that contains a special token
    such as ["<|endoftext|>"]). *)
Definition encoder : Type := string -> option (list Z).

Record World : Type := {
  (** [tiktoken.encoding_for_model(model)]; [None] when it raises. *)
  encoding_for_model : string -> option encoder;
  (** [repr(v)], which is [str(v)] for every value but a string. *)
  py_repr : pyval -> string;
  (** [os.environ]. *)
  environ : string -> option string;
  (** Whether [import <package>] succeeds. *)
  importable : string -> bool;
  (** The exception, if any, that the SDK of a package raises when its
      client is built (or the module configured) with an API key. *)
  sdk_error : string -> string -> option exn;
  (** [os.path.exists(path)]. *)
  path_exists : string -> bool;
  (** [json.load(open(path))]. *)
  json_load : string -> exn + list pyval;
  (** base64 of the bytes of a local image file; [None] when unreadable. *)
  read_image_base64 : string -> option string;
  (** The exception, if any, of [open(path, 'w')] and [json.dump]. *)
  backup_error : string -> list pyval -> option exn;
  (** The exception, if any, that [rich.print] raises on a markup string
      (an unmatched closing tag, for one). *)
  markup_error : string -> option exn;
  (** First choice of [client.chat.completions.create]: the role, and the
      content, a string or [None]. *)
  openai_create : string -> list pyval -> exn + (string * pyval);
  (** [client.messages.create]: the text of the first content element,
      or that element itself (the dictionary of its fields) when it has
      no [text]. *)
  claude_create : string -> Z -> list pyval -> exn + pyval;
  (** [response.text] of [GenerativeModel(model).generate_content]. *)
  gemini_generate : string -> string -> exn + string
}.

(** The SDK object held in [self.client]. *)
Inductive sdk_client : Type :=
| OpenAIClient (api_key : string)
| AnthropicClient (api_key : string)
| GenaiModule (api_key : string).

(** ** Object state *)

Record LLMManager : Type := {
  provider : string;
  model : string;
  logging : bool;
  tiktoken_encoder : option encoder;
  chat_history : list pyval;
  chat_history_backup : option string;
  client : option sdk_client
}.

Definition set_provider_field (p : string) (self : LLMManager) : LLMManager :=
  {| provider := p; model := model self; logging := logging self;
     tiktoken_encoder := tiktoken_encoder self; chat_history := chat_history self;
     chat_history_backup := chat_history_backup self; client := client self |}.

Definition set_model_field (m : string) (self : LLMManager) : LLMManager :=
  {| provider := provider self; model := m; logging := logging self;
     tiktoken_encoder := tiktoken_encoder self; chat_history := chat_history self;
     chat_history_backup := chat_history_backup self; client := client self |}.

Definition set_tiktoken_encoder (e : option encoder) (self : LLMManager) : LLMManager :=
  {| provider := provider self; model := model self; logging := logging self;
     tiktoken_encoder := e; chat_history := chat_history self;
     chat_history_backup := chat_history_backup self; client := client self |}.

Definition set_chat_history (h : list pyval) (self : LLMManager) : LLMManager :=
  {| provider := provider self; model := model self; logging := logging self;
     tiktoken_encoder := tiktoken_encoder self; chat_history := h;
     chat_history_backup := chat_history_backup self; client := client self |}.

Definition set_client (c : option sdk_client) (self : LLMManager) : LLMManager :=
  {| provider := provider self; model := model self; logging := logging self;
     tiktoken_encoder := tiktoken_encoder self; chat_history := chat_history self;
     chat_history_backup := chat_history_backup self; client := c |}.

(** ** The method monad: state of [self], trace, outcome *)

Definition M (A : Type) : Type := LLMManager -> outcome A * LLMManager * list event.

Definition ret {A : Type} (a : A) : M A := fun self => (Ret a, self, []).

Definition bind {A B : Type} (m : M A) (k : A -> M B) : M B :=
  fun self =>
    match m self with
    | (Ret a, self1, t1) =>
        match k a self1 with
        | (o, self2, t2) => (o, self2, (t1 ++ t2)%list)
        end
    | (Raise e, self1, t1) => (Raise e, self1, t1)
    | (Diverge, self1, t1) => (Diverge, self1, t1)
    end.

Definition raise {A : Type} (e : exn) : M A := fun self => (Raise e, self, []).
Definition diverge {A : Type} : M A := fun self => (Diverge, self, []).
Definition get_self : M LLMManager := fun self => (Ret self, self, []).
Definition modify (f : LLMManager -> LLMManager) : M unit := fun self => (Ret tt, f self, []).
Definition emit (e : event) : M unit := fun self => (Ret tt, self, [e]).
Definition print (line : console) : M unit := emit (Print line).

(** [self.chat_history.append(m)] *)
Definition append_message (m : pyval) : M unit :=
  modify (fun self => set_chat_history (chat_history self ++ [m])%list self).

(** Result of an SDK call: an exception of the SDK propagates. *)
Definition lift_result {A : Type} (r : exn + A) : M A :=
  match r with
  | inl e => raise e
  | inr a => ret a
  end.

Declare Scope py_scope.
Delimit Scope py_scope with py.
Notation "x <- c1 ;; c2" := (bind c1 (fun x => c2))
  (at level 100, c1 at next level, right associativity) : py_scope.
Notation "c1 ;; c2" := (bind c1 (fun _ => c2))
  (at level 100, right associativity) : py_scope.
Local Open Scope py_scope.

Definition outcome_of {A : Type} (r : outcome A * LLMManager * list event) : outcome A := fst (fst r).
Definition state_of {A : Type} (r : outcome A * LLMManager * list event) : LLMManager := snd (fst r).
Definition trace_of {A : Type} (r : outcome A * LLMManager * list event) : list event := snd r.

(** Truthiness of a Python value ([if v:]). *)
Definition py_truthy (v : pyval) : bool :=
  match v with
  | PNone => false
  | PStr s => negb (String.eqb s "")
  | PList l => match l with [] => false | _ => true end
  | PDict d => match d with [] => false | _ => true end
  end.

Definition truthy_str (s : option string) : bool :=
  match s with
  | Some s => negb (String.eqb s "")
  | None => false
  end.

(** ** Token counting for the OpenAI provider (lines 82-100)

    The body of the [try] block.  [None] stands for any exception raised
    inside it, which the [except Exception] clause turns into
    [NotImplementedError]. *)

Section Counting.
Variable enc : encoder.

(** [len(self.tiktoken_encoder.encode(value))]: [None] when [value] is
    not a string or [encode] raises. *)
Definition encoded_len (value : pyval) : option Z :=
  match value with
  | PStr s => option_map len (enc s)
  | _ => None
  end.

(** [for content_key, content_value in message_data.items()] *)
Fixpoint count_block_items (items : list (string * pyval)) (num_tokens : Z) : option Z :=
  match items with
  | [] => Some num_tokens
  | (content_key, content_value) :: rest =>
      if String.eqb content_key "type" then
        match encoded_len content_value with
        | Some n => count_block_items rest (num_tokens + n)
        | None => None
        end
      else if String.eqb content_key "text" then
        match encoded_len content_value with
        | Some n => count_block_items rest (num_tokens + n)
        | None => None
        end
      else if String.eqb content_key "image_url" then
        count_block_items rest (num_tokens + 1105)
      else count_block_items rest num_tokens
  end.

(** [for message_data in value], [value] a list. *)
Fixpoint count_content_list (value : list pyval) (num_tokens : Z) : option Z :=
  match value with
  | [] => Some num_tokens
  | message_data :: rest =>
      match message_data with
      | PDict items =>
          match count_block_items items num_tokens with
          | Some n => count_content_list rest n
          | None => None
          end
      | _ => None
      end
  end.

(** The value of the ['content'] key: a string is encoded as a whole,
    anything else is iterated.  Iterating a dictionary yields its keys,
    strings without [.items()]; [None] is not iterable. *)
Definition count_content (value : pyval) (num_tokens : Z) : option Z :=
  match value with
  | PStr s =>
      match encoded_len (PStr s) with
      | Some n => Some (num_tokens + n)
      | None => None
      end
  | PList l => count_content_list l num_tokens
  | PDict [] => Some num_tokens
  | PDict (_ :: _) => None
  | PNone => None
  end.

(** [for key, value in message.items()] *)
Fixpoint count_message_items (items : list (string * pyval)) (num_tokens : Z) : option Z :=
  match items with
  | [] => Some num_tokens
  | (key, value) :: rest =>
      if String.eqb key "role" then
        match encoded_len value with
        | Some n => count_message_items rest (num_tokens + n)
        | None => None
        end
      else if String.eqb key "content" then
        match count_content value num_tokens with
        | Some n => count_message_items rest n
        | None => None
        end
      else count_message_items rest num_tokens
  end.

(** [for message in messages] *)
Fixpoint count_messages (messages : list pyval) (num_tokens : Z) : option Z :=
  match messages with
  | [] => Some num_tokens
  | message :: rest =>
      match message with
      | PDict items =>
          match count_message_items items (num_tokens + 4) with
          | Some n => count_messages rest n
          | None => None
          end
      | _ => None
      end
  end.

(** Lines 82-101: start at 0, loop, add 2. *)
Definition count_tokens (messages : list pyval) : option Z :=
  match count_messages messages 0 with
  | Some n => Some (n + 2)
  | None => None
  end.
End Counting.

(** ** Methods of the class *)

Section Methods.
Variable W : World.

(** [str(v)] *)
Definition py_str (v : pyval) : string :=
  match v with
  | PStr s => s
  | _ => py_repr W v
  end.

Definition _default_model_for_provider (p : string) : exn + string :=
  if String.eqb p "openai" then inr "gpt-4o"
  else if String.eqb p "claude" then inr "claude-3-opus-20240229"
  else if String.eqb p "gemini" then inr "gemini-1.5-pro"
  else inl (ValueError ("Unknown provider: " ++ p)).

(** One provider's branch of [_init_client]: the import is tried first
    (an [ImportError] is caught and reported), then the API key is read
    from the environment (a missing key raises [KeyError], uncaught), then
    the client is built from it, which the SDK may refuse with an
    exception of its own (uncaught as well). *)
Definition connect (package name key_var : string)
           (mk : string -> sdk_client) : M unit :=
  if importable W package then
    match environ W key_var with
    | Some key =>
        match sdk_error W package key with
        | Some e => raise e
        | None => modify (set_client (Some (mk key)))
        end
    | None => raise (KeyError key_var)
    end
  else
    print (ErrClientUnavailable name) ;;
    modify (set_client None).

Definition _init_client : M unit :=
  self <- get_self ;;
  if String.eqb (provider self) "openai" then
    connect "openai" "OpenAI" "OPENAI_API_KEY" OpenAIClient
  else if String.eqb (provider self) "claude" then
    connect "anthropic" "Claude" "ANTHROPIC_API_KEY" AnthropicClient
  else if String.eqb (provider self) "gemini" then
    connect "google.generativeai" "Gemini" "GOOGLE_API_KEY" GenaiModule
  else raise (ValueError ("Unknown provider: " ++ provider self)).

(** [self.model = model or self._default_model_for_provider(provider)]:
    the default is looked up only when [model] is falsy. *)
Definition assign_model (p : string) (model_arg : option string) : M unit :=
  if truthy_str model_arg then modify (set_model_field (py_or model_arg ""))
  else
    m <- lift_result (_default_model_for_provider p) ;;
    modify (set_model_field m).

Definition set_provider (p : string) (model_arg : option string) : M unit :=
  modify (set_provider_field p) ;;
  assign_model p model_arg ;;
  _init_client.

(** The object before [__init__] has assigned anything. *)
Definition blank : LLMManager :=
  {| provider := ""; model := ""; logging := false; tiktoken_encoder := None;
     chat_history := []; chat_history_backup := None; client := None |}.

Definition init_body (system_prompt : option pyval) (backup : option string)
           (p : string) (model_arg : option string) : M unit :=
  modify (set_provider_field p) ;;
  assign_model p model_arg ;;
  modify (fun self =>
    {| provider := provider self; model := model self; logging := true;
       tiktoken_encoder := None; chat_history := [];
       chat_history_backup := backup; client := client self |}) ;;
  _init_client ;;
  if truthy_str backup && path_exists W (py_or backup "") then
    h <- lift_result (json_load W (py_or backup "")) ;;
    modify (set_chat_history h)
  else
    match system_prompt with
    | Some sp =>
        if py_truthy sp then append_message sp else ret tt
    | None => ret tt
    end.

(** [LLMManager(system_prompt, chat_history_backup, provider, model)]:
    the constructed object, or the exception that aborted construction. *)
Definition __init__ (system_prompt : option pyval) (backup : option string)
           (p : string) (model_arg : option string) : outcome LLMManager * list event :=
  match init_body system_prompt backup p model_arg blank with
  | (Ret _, self, t) => (Ret self, t)
  | (Raise e, _, t) => (Raise e, t)
  | (Diverge, _, t) => (Diverge, t)
  end.

(** The file is opened for writing and the history dumped into it
    ([BackupWrite]); either step may raise. *)
Definition save_chat_to_backup : M unit :=
  self <- get_self ;;
  if truthy_str (chat_history_backup self) then
    emit (BackupWrite (py_or (chat_history_backup self) "") (chat_history self)) ;;
    match backup_error W (py_or (chat_history_backup self) "") (chat_history self) with
    | Some e => raise e
    | None => ret tt
    end
  else ret tt.

(** What [rich.print] makes of a string [before ++ text ++ after] whose
    constant parts [before] and [after] are well-formed markup: without an
    opening bracket in [text] there are no tags but the constant ones, and
    nothing to complain about. *)
Definition render_error (before text after : string) : option exn :=
  if str_contains "[" text then markup_error W (before ++ text ++ after) else None.

(** [print(f"{before}{text}{after}")] *)
Definition print_markup (before text after : string) (line : console) : M unit :=
  match render_error before text after with
  | Some e => raise e
  | None => print line
  end.

(** [sum(len(str(m)) // 4 for m in messages)] *)
Fixpoint rough_estimate (messages : list pyval) : Z :=
  match messages with
  | [] => 0
  | m :: rest => str_len (py_str m) / 4 + rough_estimate rest
  end.

Definition num_tokens_from_messages (messages : list pyval)
           (model_arg : option string) : M Z :=
  self <- get_self ;;
  let model_name := py_or model_arg (model self) in
  if String.eqb (provider self) "openai" then
    loaded <- match tiktoken_encoder self with
              | Some e => ret (Some e)
              | None =>
                  match encoding_for_model W model_name with
                  | Some e => modify (set_tiktoken_encoder (Some e)) ;; ret (Some e)
                  | None => ret None
                  end
              end ;;
    match loaded with
    | None => raise (NotImplementedError model_name)
    | Some e =>
        match count_tokens e messages with
        | Some n => ret n
        | None => raise (NotImplementedError model_name)
        end
    end
  else ret (rough_estimate messages).

(** *** Calls into the provider SDKs

    A call through a client object of another SDK fails with
    [AttributeError]; otherwise the request is sent (and recorded in the
    trace) and the SDK's answer or exception comes back. *)

Definition openai_call (c : sdk_client) (model_name : string)
           (messages : list pyval) : M (string * pyval) :=
  match c with
  | OpenAIClient _ =>
      emit (OpenAIChatCreate model_name messages) ;;
      lift_result (openai_create W model_name messages)
  | _ => raise AttributeError
  end.

Definition claude_call (c : sdk_client) (model_name : string) (max_tokens : Z)
           (messages : list pyval) : M pyval :=
  match c with
  | AnthropicClient _ =>
      emit (ClaudeMessagesCreate model_name max_tokens messages) ;;
      lift_result (claude_create W model_name max_tokens messages)
  | _ => raise AttributeError
  end.

(** [self.client.GenerativeModel(self.model)] *)
Definition gemini_model (c : sdk_client) : M unit :=
  match c with
  | GenaiModule _ => ret tt
  | _ => raise AttributeError
  end.

(** [model.generate_content(text)] *)
Definition gemini_call (model_name : string) (text : string) : M string :=
  emit (GeminiGenerateContent model_name text) ;;
  lift_result (gemini_generate W model_name text).

(** *** chat (lines 108-149) *)

(** Lines 147-149: [print(f"[green]\n{answer}\n")] and [return answer]. *)
Definition finish_chat (answer : pyval) : M pyval :=
  self <- get_self ;;
  (if logging self
   then print_markup ("[green]" ++ NL) (py_str answer) NL (Answer (py_str answer))
   else ret tt) ;;
  ret answer.

(** The value returned is the answer, or [None] ([PNone]) after an early
    [return]. *)
Definition chat (prompt_arg : option string) : M pyval :=
  if negb (truthy_str prompt_arg) then
    print NoInput ;; ret PNone
  else
    let prompt := py_or prompt_arg "" in
    self <- get_self ;;
    if String.eqb (provider self) "openai" then
      match client self with
      | None => print (ErrClientNotInitialized "OpenAI") ;; ret PNone
      | Some c =>
          let chat_question := [PDict [("role", PStr "user"); ("content", PStr prompt)]] in
          n <- num_tokens_from_messages chat_question None ;;
          if n >? 128000 then
            print QuestionTooLarge ;; ret PNone
          else
            print (AskingQuestion "OpenAI") ;;
            completion <- openai_call c (model self) chat_question ;;
            finish_chat (snd completion)
      end
    else if String.eqb (provider self) "claude" then
      match client self with
      | None => print (ErrClientNotInitialized "Claude") ;; ret PNone
      | Some c =>
          print (AskingQuestion "Claude") ;;
          answer <- claude_call c (model self) 4096
                      [PDict [("role", PStr "user"); ("content", PStr prompt)]] ;;
          finish_chat answer
      end
    else if String.eqb (provider self) "gemini" then
      match client self with
      | None => print (ErrClientNotInitialized "Gemini") ;; ret PNone
      | Some c =>
          print (AskingQuestion "Gemini") ;;
          gemini_model c ;;
          answer <- gemini_call (model self) prompt ;;
          finish_chat (PStr answer)
      end
    else raise (ValueError ("Unknown provider: " ++ provider self)).

(** *** _claude_history_format (lines 278-287) *)

(** ['text' in c] followed by [c['text']], for one element [c] of a
    content list.  [inr None]: the element is skipped. *)
Definition text_of_block (c : pyval) : exn + option pyval :=
  match c with
  | PDict d => inr (dict_get "text" d)
  | PStr s => if str_contains "text" s then inl TypeError else inr None
  | PList l =>
      if existsb (fun v => match v with PStr s => String.eqb s "text" | _ => false end) l
      then inl TypeError else inr None
  | PNone => inl TypeError
  end.

(** [[c['text'] for c in content if 'text' in c]] *)
Fixpoint text_parts (content : list pyval) : exn + list pyval :=
  match content with
  | [] => inr []
  | c :: rest =>
      match text_of_block c with
      | inl e => inl e
      | inr picked =>
          match text_parts rest with
          | inl e => inl e
          | inr parts =>
              inr (match picked with Some v => v :: parts | None => parts end)
          end
      end
  end.

(** The strings of a list handed to [str.join]; a non-string element is a
    [TypeError]. *)
Fixpoint as_strings (parts : list pyval) : exn + list string :=
  match parts with
  | [] => inr []
  | PStr s :: rest =>
      match as_strings rest with
      | inl e => inl e
      | inr l => inr (s :: l)
      end
  | _ :: _ => inl TypeError
  end.

Definition claude_message (m : pyval) : exn + pyval :=
  match m with
  | PDict d =>
      match dict_get "content" d with
      | None => inl (KeyError "content")
      | Some content =>
          let text :=
            match content with
            | PList l =>
                match text_parts l with
                | inl e => inl e
                | inr parts =>
                    match as_strings parts with
                    | inl e => inl e
                    | inr strs => inr (PStr (join NL strs))
                    end
                end
            | other => inr other
            end in
          match text with
          | inl e => inl e
          | inr t =>
              match dict_get "role" d with
              | None => inl (KeyError "role")
              | Some r => inr (PDict [("role", r); ("content", t)])
              end
          end
      end
  | _ => inl TypeError
  end.

Fixpoint _claude_history_format (history : list pyval) : exn + list pyval :=
  match history with
  | [] => inr []
  | m :: rest =>
      match claude_message m with
      | inl e => inl e
      | inr cm =>
          match _claude_history_format rest with
          | inl e => inl e
          | inr l => inr (cm :: l)
          end
      end
  end.

(** *** The Gemini prompt (lines 262-266) *)

Definition get_gemini_text (m : list (string * pyval)) : exn + pyval :=
  match dict_get "content" m with
  | None => inl (KeyError "content")
  | Some content =>
      match content with
      | PList (PDict first :: _) =>
          match dict_get "text" first with
          | Some t => inr t
          | None => inr (PStr (py_str content))
          end
      | _ => inr (PStr (py_str content))
      end
  end.

(** [[get_gemini_text(m) for m in self.chat_history if m['role'] == 'user']] *)
Fixpoint gemini_user_texts (history : list pyval) : exn + list pyval :=
  match history with
  | [] => inr []
  | m :: rest =>
      match m with
      | PDict d =>
          match dict_get "role" d with
          | None => inl (KeyError "role")
          | Some r =>
              let is_user := match r with PStr s => String.eqb s "user" | _ => false end in
              match (if is_user then
                       match get_gemini_text d with
                       | inl e => inl e
                       | inr t => inr (Some t)
                       end
                     else inr None) with
              | inl e => inl e
              | inr picked =>
                  match gemini_user_texts rest with
                  | inl e => inl e
                  | inr l => inr (match picked with Some t => t :: l | None => l end)
                  end
              end
          end
      | _ => inl TypeError
      end
  end.

Definition gemini_history_text (history : list pyval) : exn + string :=
  match gemini_user_texts history with
  | inl e => inl e
  | inr parts =>
      match as_strings parts with
      | inl e => inl e
      | inr strs => inr (join NL strs)
      end
  end.

(** *** chat_with_history (lines 198-276) *)

(** Lines 199-225: build the user turn and append it.  [false] when the
    method has returned [None] because the image could not be read. *)
Definition append_user_turn (prompt_arg : option string) (image_path : string)
           (local_image : bool) : M bool :=
  if truthy_str prompt_arg then
    let prompt := py_or prompt_arg "" in
    let text_block := PDict [("type", PStr "text"); ("text", PStr prompt)] in
    let image_block url :=
      PDict [("type", PStr "image_url");
             ("image_url", PDict [("url", PStr url); ("detail", PStr "high")])] in
    let append content :=
      append_message (PDict [("role", PStr "user"); ("content", PList content)]) ;;
      ret true in
    if negb (String.eqb image_path "") then
      if local_image then
        match read_image_base64 W image_path with
        | Some base64_image =>
            append [text_block; image_block ("data:image/jpeg;base64," ++ base64_image)]
        | None => print ErrImageEncode ;; ret false
        end
      else append [text_block; image_block image_path]
    else append [text_block]
  else ret true.

(** Lines 229-232: [while num_tokens(history) > budget: history.pop(1)].
    The source has the literal 128000 for [budget].  [fuel] bounds the
    number of iterations; running out of it is [Diverge]. *)
Fixpoint truncate_loop (budget : Z) (fuel : nat) : M unit :=
  match fuel with
  | O => diverge
  | S fuel' =>
      self <- get_self ;;
      n <- num_tokens_from_messages (chat_history self) None ;;
      if n >? budget then
        self <- get_self ;;
        match pop 1 (chat_history self) with
        | None => raise IndexError
        | Some (_, remaining) =>
            modify (set_chat_history remaining) ;;
            (if logging self then
               self <- get_self ;;
               n' <- num_tokens_from_messages (chat_history self) None ;;
               print (PoppedMessage n')
             else ret tt) ;;
            truncate_loop budget fuel'
        end
      else ret tt
  end.

(** Lines 235-271: the provider branch.  [None]: the method has returned
    [None] because no client is initialised; otherwise role and content
    of the reply. *)
Definition dispatch_history : M (option (string * pyval)) :=
  self <- get_self ;;
  if String.eqb (provider self) "openai" then
    match client self with
    | None => print (ErrClientNotInitialized "OpenAI") ;; ret None
    | Some c =>
        completion <- openai_call c (model self) (chat_history self) ;;
        ret (Some completion)
    end
  else if String.eqb (provider self) "claude" then
    match client self with
    | None => print (ErrClientNotInitialized "Claude") ;; ret None
    | Some c =>
        match c with
        | AnthropicClient _ =>
            messages <- lift_result (_claude_history_format (chat_history self)) ;;
            content <- claude_call c (model self) 4096 messages ;;
            ret (Some ("assistant", content))
        | _ => raise AttributeError
        end
    end
  else if String.eqb (provider self) "gemini" then
    match client self with
    | None => print (ErrClientNotInitialized "Gemini") ;; ret None
    | Some c =>
        gemini_model c ;;
        history_text <- lift_result (gemini_history_text (chat_history self)) ;;
        content <- gemini_call (model self) history_text ;;
        ret (Some ("assistant", PStr content))
    end
  else raise (ValueError ("Unknown provider: " ++ provider self)).

(** Lines 226-276: truncate, dispatch, record the reply. *)
Definition exchange (fuel : nat) : M pyval :=
  self <- get_self ;;
  (if logging self then
     n <- num_tokens_from_messages (chat_history self) None ;;
     print (HistoryTokenLength n)
   else ret tt) ;;
  truncate_loop 128000 fuel ;;
  (if logging self
   then print_markup ("[yellow]" ++ NL ++ "Asking ") (provider self) " a question..."
                     (AskingQuestion (provider self))
   else ret tt) ;;
  reply <- dispatch_history ;;
  match reply with
  | None => ret PNone
  | Some (role, content) =>
      append_message (PDict [("role", PStr role); ("content", content)]) ;;
      save_chat_to_backup ;;
      (if logging self
       then print_markup ("[green]" ++ NL) (py_str content) NL (Answer (py_str content))
       else ret tt) ;;
      ret content
  end.

Definition chat_with_history (fuel : nat) (prompt_arg : option string)
           (image_path : string) (local_image : bool) : M pyval :=
  appended <- append_user_turn prompt_arg image_path local_image ;;
  if negb appended then ret PNone else exchange fuel.

End Methods.

(** ** Canonical messages

    The shapes of the dictionaries the class itself builds: a text block
    and an image block (lines 203 and 217-223), a user turn with a list of
    blocks (lines 200-205), a single-shot question and an assistant reply
    with a string content (lines 116 and 272). *)

Inductive ContentBlock : Type :=
| Text (text : string)
| Image (url detail : string).

Inductive Content : Type :=
| TextBlock (text : string)
| Blocks (blocks : list ContentBlock).

Record Message : Type := { role : string; content : Content }.

Definition block_to_py (b : ContentBlock) : pyval :=
  match b with
  | Text t => PDict [("type", PStr "text"); ("text", PStr t)]
  | Image u d =>
      PDict [("type", PStr "image_url");
             ("image_url", PDict [("url", PStr u); ("detail", PStr d)])]
  end.

Definition content_to_py (c : Content) : pyval :=
  match c with
  | TextBlock s => PStr s
  | Blocks bs => PList (map block_to_py bs)
  end.

Definition message_to_py (m : Message) : pyval :=
  PDict [("role", PStr (role m)); ("content", content_to_py (content m))].

Definition is_user (m : Message) : bool := String.eqb (role m) "user".

(** [sum] of a list of Python integers. *)
Definition zsum (l : list Z) : Z := fold_right Z.add 0 l.

(** ** Concrete collaborators, for running the model *)

Module Sample.

(** A tokenizer without merges: one token per character. *)
Definition char_encoder : encoder :=
  fun s => Some (map (fun c => Z.of_nat (nat_of_ascii c)) (list_ascii_of_string s)).

(** [repr] of values whose strings are printable ASCII without quotes or
    backslashes. *)
Fixpoint repr (v : pyval) : string :=
  match v with
  | PNone => "None"
  | PStr s => "'" ++ s ++ "'"
  | PList l => "[" ++ join ", " (map repr l) ++ "]"
  | PDict d =>
      "{" ++ join ", " (map (fun kv => "'" ++ fst kv ++ "': " ++ repr (snd kv)) d) ++ "}"
  end.

Definition world : World :=
  {| encoding_for_model :=
       fun m => if String.eqb m "gpt-4o" then Some char_encoder else None;
     py_repr := repr;
     environ :=
       fun k => if String.eqb k "OPENAI_API_KEY" then Some "sk-openai"
                else if String.eqb k "ANTHROPIC_API_KEY" then Some "sk-anthropic"
                else if String.eqb k "GOOGLE_API_KEY" then Some "sk-google"
                else None;
     importable := fun _ => true;
     sdk_error := fun _ _ => None;
     path_exists := fun _ => false;
     json_load := fun _ => inr [];
     read_image_base64 := fun _ => Some "AAAA";
     backup_error := fun _ _ => None;
     markup_error := fun _ => None;
     openai_create := fun _ _ => inr ("assistant", PStr "ok");
     claude_create := fun _ _ _ => inr (PStr "ok");
     gemini_generate := fun _ _ => inr "ok" |}.

(** An engine as [LLMManager(provider=p)] leaves it in [world], with the
    given history. *)
Definition engine (p m : string) (c : sdk_client) (h : list pyval) : LLMManager :=
  {| provider := p; model := m; logging := true; tiktoken_encoder := None;
     chat_history := h; chat_history_backup := None; client := Some c |}.

Definition system_message : pyval :=
  message_to_py {| role := "system"; content := Blocks [Text "Be brief."] |}.

(** A user turn carrying 116 images: at 1105 tokens each, more than
    128000 tokens by itself. *)
Definition oversized_message : pyval :=
  message_to_py {| role := "user";
                   content := Blocks (Text "look" :: repeat (Image "http://x/i.jpg" "high") 116) |}.

(** A prompt of 520000 characters. *)
Definition long_prompt : string :=
  string_of_list_ascii (repeat "a"%char (Z.to_nat 520000)).

End Sample.

(** ** Definitions used to state the properties *)

(** The encoder a call of [num_tokens_from_messages] works with: the
    cached one, or the one tiktoken has for the model. *)
Definition active_encoder (W : World) (self : LLMManager) : option encoder :=
  match tiktoken_encoder self with
  | Some e => Some e
  | None => encoding_for_model W (model self)
  end.

(** What the call returns or raises. *)
Definition estimate (W : World) (self : LLMManager) (messages : list pyval) : outcome Z :=
  if String.eqb (provider self) "openai" then
    match active_encoder W self with
    | None => Raise (NotImplementedError (model self))
    | Some e =>
        match count_tokens e messages with
        | Some n => Ret n
        | None => Raise (NotImplementedError (model self))
        end
    end
  else Ret (rough_estimate W messages).

(** The state it leaves: the encoder is cached. *)
Definition warm (W : World) (self : LLMManager) : LLMManager :=
  if String.eqb (provider self) "openai"
  then set_tiktoken_encoder (active_encoder W self) self
  else self.

(** A run preceded by the events [t]. *)
Definition after {A : Type} (t : list event) (r : outcome A * LLMManager * list event)
  : outcome A * LLMManager * list event :=
  (outcome_of r, state_of r, (t ++ trace_of r)%list).

(** A state predicate that a method preserves, whatever its outcome. *)
Definition preserves {A : Type} (P : LLMManager -> Prop) (m : M A) : Prop :=
  forall self, P self -> P (state_of (m self)).

(** The property "the history starts with [h0]". *)
Definition pinned (h0 : pyval) (self : LLMManager) : Prop :=
  exists tl, chat_history self = h0 :: tl.

(** The possible ends of the loop, given enough fuel. *)
Definition loop_end (W : World) (budget : Z) (self : LLMManager)
           (r : outcome unit * LLMManager * list event) : Prop :=
  let final := chat_history (state_of r) in
  match outcome_of r with
  | Ret _ => exists n, estimate W self final = Ret n /\ n <= budget
  | Raise IndexError =>
      (length final < 2)%nat /\ exists n, estimate W self final = Ret n /\ n > budget
  | Raise e => estimate W self final = Raise e
  | Diverge => False
  end.

(** Length of the encoding of a string the encoder accepts (0 stands in
    for the strings on which [encode] raises; see [encodable]). *)
Definition tokens (enc : encoder) (s : string) : Z :=
  match enc s with
  | Some l => len l
  | None => 0
  end.

Definition can_encode (enc : encoder) (s : string) : bool :=
  match enc s with
  | Some _ => true
  | None => false
  end.

(** The strings of canonical messages that [num_tokens_from_messages]
    passes to [encode]: roles, string contents, and in every block the
    string under ['type'] and the text. *)
Definition block_encodable (enc : encoder) (b : ContentBlock) : bool :=
  match b with
  | Text t => can_encode enc "text" && can_encode enc t
  | Image _ _ => can_encode enc "image_url"
  end.

Definition content_encodable (enc : encoder) (c : Content) : bool :=
  match c with
  | TextBlock s => can_encode enc s
  | Blocks bs => forallb (block_encodable enc) bs
  end.

Definition message_encodable (enc : encoder) (m : Message) : bool :=
  can_encode enc (role m) && content_encodable enc (content m).

Definition encodable (enc : encoder) (messages : list Message) : bool :=
  forallb (message_encodable enc) messages.

(** Token cost of canonical messages, as [num_tokens_from_messages] counts
    them for the OpenAI provider: every block pays for the string under
    its ['type'] key as well. *)
Definition block_tokens (enc : encoder) (b : ContentBlock) : Z :=
  match b with
  | Text t => tokens enc "text" + tokens enc t
  | Image _ _ => tokens enc "image_url" + 1105
  end.

Definition content_tokens (enc : encoder) (c : Content) : Z :=
  match c with
  | TextBlock s => tokens enc s
  | Blocks bs => zsum (map (block_tokens enc) bs)
  end.

Definition message_tokens (enc : encoder) (m : Message) : Z :=
  4 + tokens enc (role m) + content_tokens enc (content m).

Definition sequence_tokens (enc : encoder) (messages : list Message) : Z :=
  zsum (map (message_tokens enc) messages) + 2.

(** The formula of the documentation: 4 per message, the role, the text,
    1105 per image, and 2 for the sequence. *)
Definition documented_block_tokens (enc : encoder) (b : ContentBlock) : Z :=
  match b with
  | Text t => tokens enc t
  | Image _ _ => 1105
  end.

Definition documented_content_tokens (enc : encoder) (c : Content) : Z :=
  match c with
  | TextBlock s => tokens enc s
  | Blocks bs => zsum (map (documented_block_tokens enc) bs)
  end.

Definition documented_message_tokens (enc : encoder) (m : Message) : Z :=
  4 + tokens enc (role m) + documented_content_tokens enc (content m).

Definition documented_sequence_tokens (enc : encoder) (messages : list Message) : Z :=
  zsum (map (documented_message_tokens enc) messages) + 2.

(** Number of blocks of each kind in a sequence of messages. *)
Definition count_blocks (p : ContentBlock -> bool) (messages : list Message) : Z :=
  zsum (map (fun m => match content m with
                      | TextBlock _ => 0
                      | Blocks bs => len (filter p bs)
                      end) messages).

Definition is_text (b : ContentBlock) : bool :=
  match b with Text _ => true | Image _ _ => false end.

Definition is_image (b : ContentBlock) : bool :=
  match b with Text _ => false | Image _ _ => true end.

(** The text a user turn contributes to the Gemini prompt: a string
    content, or the text of the leading text block. *)
Definition message_text (m : Message) : string :=
  match content m with
  | TextBlock s => s
  | Blocks (Text t :: _) => t
  | Blocks _ => ""
  end.

(** The text a message contributes to the Gemini prompt, whatever its
    content (lines 263-265): a string content as it is; the text of the
    first block when that is a text block, the later blocks ignored; the
    [str] of the whole content list otherwise, so when an image comes
    first or the list is empty. *)
Definition gemini_text (W : World) (m : Message) : string :=
  match content m with
  | TextBlock s => s
  | Blocks (Text t :: _) => t
  | Blocks bs => py_repr W (PList (map block_to_py bs))
  end.

(** The content is a string or starts with a text block, as in every user
    turn [chat_with_history] builds. *)
Definition text_first (m : Message) : bool :=
  match content m with
  | TextBlock _ => true
  | Blocks (Text _ :: _) => true
  | Blocks _ => false
  end.

(** The texts of the text blocks of a content list, in order. *)
Definition block_texts (bs : list ContentBlock) : list string :=
  flat_map (fun b => match b with Text t => [t] | Image _ _ => [] end) bs.



(** A message in the shape sent to Claude: role and one string. *)
Definition flattened (m : Message) : pyval :=
  PDict [("role", PStr (role m));
         ("content", PStr (match content m with
                           | TextBlock s => s
                           | Blocks bs => join NL (block_texts bs)
                           end))].

(** The single message [chat] sends (lines 116 and 134). *)
Definition question (prompt : string) : pyval :=
  PDict [("role", PStr "user"); ("content", PStr prompt)].

(** The client [_init_client] leaves for a provider when it returns. *)
Definition expected_client (W : World) (p : string) : option sdk_client :=
  if String.eqb p "openai" then
    if importable W "openai" then option_map OpenAIClient (environ W "OPENAI_API_KEY") else None
  else if String.eqb p "claude" then
    if importable W "anthropic" then option_map AnthropicClient (environ W "ANTHROPIC_API_KEY") else None
  else if String.eqb p "gemini" then
    if importable W "google.generativeai" then option_map GenaiModule (environ W "GOOGLE_API_KEY") else None
  else None.

(** The package, the environment variable and the printed name that
    [_init_client] uses for each recognized provider. *)
Definition sdk_package (p : string) : string :=
  if String.eqb p "openai" then "openai"
  else if String.eqb p "claude" then "anthropic"
  else "google.generativeai".

Definition key_variable (p : string) : string :=
  if String.eqb p "openai" then "OPENAI_API_KEY"
  else if String.eqb p "claude" then "ANTHROPIC_API_KEY"
  else "GOOGLE_API_KEY".

Definition display_name (p : string) : string :=
  if String.eqb p "openai" then "OpenAI"
  else if String.eqb p "claude" then "Claude"
  else "Gemini".

(** How [_init_client] ends for a recognized provider: without the
    package it returns (with no client); with it, the key must be in the
    environment and the SDK must accept it. *)
Definition init_outcome (W : World) (p : string) : outcome unit :=
  if importable W (sdk_package p) then
    match environ W (key_variable p) with
    | None => Raise (KeyError (key_variable p))
    | Some key =>
        match sdk_error W (sdk_package p) key with
        | Some e => Raise e
        | None => Ret tt
        end
    end
  else Ret tt.

(** ** analyze_image (lines 151-196)

    The method assigns nothing to [self]; it reads the client, the
    provider, the model and the logging flag, prints, and calls
    [client.chat.completions.create] with [max_tokens=4096].  That call is
    the parameter [create_limited]: model, messages and token limit to the
    content of the first choice, or the exception of the SDK. *)

Inductive image_console : Type :=
| ErrImageAnalysisUnavailable
| ErrImageEncodePanic
| AskingImageAnalysis
| ImageAnswer (text : string)
| ErrImageOnlyOpenAI.

Inductive image_event : Type :=
| ImagePrint (line : image_console)
| OpenAIVisionCreate (model_name : string) (messages : list pyval) (max_tokens : Z).

Definition is_vision_request (e : image_event) : bool :=
  match e with
  | OpenAIVisionCreate _ _ _ => true
  | ImagePrint _ => false
  end.

Definition analyze_image (W : World)
           (create_limited : string -> list pyval -> Z -> exn + pyval)
           (self : LLMManager) (prompt_arg : option string) (image_path : string)
           (local_image : bool) : outcome pyval * list image_event :=
  match client self with
  | None => (Ret PNone, [ImagePrint ErrImageAnalysisUnavailable])
  | Some c =>
      if String.eqb (provider self) "openai" then
        let prompt :=
          match prompt_arg with
          | None => "Please give me a detailed description of this image."
          | Some p => p
          end in
        let encoded :=
          if local_image then
            match read_image_base64 W image_path with
            | Some base64_image => Some ("data:image/jpeg;base64," ++ base64_image)
            | None => None
            end
          else Some image_path in
        match encoded with
        | None => (Ret PNone, [ImagePrint ErrImageEncodePanic])
        | Some url =>
            let asking := if logging self then [ImagePrint AskingImageAnalysis] else [] in
            match c with
            | OpenAIClient _ =>
                let messages :=
                  [PDict [("role", PStr "user");
                          ("content",
                           PList [PDict [("type", PStr "text"); ("text", PStr prompt)];
                                  PDict [("type", PStr "image_url");
                                         ("image_url",
                                          PDict [("url", PStr url); ("detail", PStr "high")])]])]] in
                let sent := (asking ++ [OpenAIVisionCreate (model self) messages 4096])%list in
                match create_limited (model self) messages 4096 with
                | inl e => (Raise e, sent)
                | inr answer =>
                    if logging self then
                      match render_error W ("[green]" ++ NL) (py_str W answer) NL with
                      | Some e => (Raise e, sent)
                      | None =>
                          (Ret answer, (sent ++ [ImagePrint (ImageAnswer (py_str W answer))])%list)
                      end
                    else (Ret answer, sent)
                end
            | _ => (Raise AttributeError, asking)
            end
        end
      else (Ret PNone, [ImagePrint ErrImageOnlyOpenAI])
  end.

(** ** More definitions used to state properties *)

(** The estimate of the empty sequence: the 2 trailing tokens for OpenAI,
    0 for the rough estimate. *)
Definition empty_estimate (self : LLMManager) : Z :=
  if String.eqb (provider self) "openai" then 2 else 0.

(** The URL put into an image block (lines 207-216), if the image can be
    read. *)
Definition image_url (W : World) (image_path : string) (local_image : bool) : option string :=
  if local_image then
    option_map (fun b => "data:image/jpeg;base64," ++ b) (read_image_base64 W image_path)
  else Some image_path.

(** The user turn of [chat_with_history], as a canonical message. *)
Definition user_turn (prompt : string) (image : option string) : Message :=
  {| role := "user";
     content := Blocks (Text prompt :: match image with
                                       | Some url => [Image url "high"]
                                       | None => []
                                       end) |}.

(** An entry of the history as the class records it: a dictionary with a
    string role and a content of any kind (the content of a reply is what
    the SDK hands over); a user turn is a canonical message whose content
    is a string or starts with a text block. *)
Definition recorded_turn (v : pyval) : Prop :=
  exists (r : string) (c : pyval),
    v = PDict [("role", PStr r); ("content", c)]
    /\ (r = "user" -> exists m, v = message_to_py m /\ text_first m = true).

Definition well_formed_history (h : list pyval) : Prop := Forall recorded_turn h.

(** [m['role'] == r] for an entry of the history. *)
Definition has_role (r : string) (v : pyval) : bool :=
  match v with
  | PDict d =>
      match dict_get "role" d with
      | Some (PStr s) => String.eqb s r
      | _ => false
      end
  | _ => false
  end.

(** What is known of a reply: it does not carry the role of the user. *)
Definition reply_role_ok (reply : option (string * pyval)) : Prop :=
  match reply with
  | Some (r, _) => r <> "user"
  | None => True
  end.

Definition is_backup_write (e : event) : bool :=
  match e with
  | BackupWrite _ _ => true
  | _ => false
  end.

(** The events of a method all satisfy [Q]. *)
Definition emits_only {A : Type} (Q : event -> Prop) (m : M A) : Prop :=
  forall self, Forall Q (trace_of (m self)).

(** Number of requests in a trace. *)
Definition requests (t : list event) : nat := length (filter is_dispatch t).

(** A method sends at most [n] requests. *)
Definition sends_at_most {A : Type} (n : nat) (m : M A) : Prop :=
  forall self, (requests (trace_of (m self)) <= n)%nat.

(** What [chat_with_history] attaches to the user turn (lines 206-224):
    nothing for an empty [image_path], else the image URL; [None] when a
    local image cannot be read. *)
Definition attachment (W : World) (image_path : string) (local_image : bool)
  : option (option string) :=
  if String.eqb image_path "" then Some None
  else option_map Some (image_url W image_path local_image).

(** The end of a call that has obtained [answer] after the events
    [sent]: with logging on the answer is printed, unless rich refuses to
    render it, and then the exception takes the place of the answer. *)
Definition answered (W : World) (self : LLMManager) (sent : list event) (answer : pyval)
  : outcome pyval * LLMManager * list event :=
  if logging self then
    match render_error W ("[green]" ++ NL) (py_str W answer) NL with
    | Some e => (Raise e, self, sent)
    | None => (Ret answer, self, (sent ++ [Print (Answer (py_str W answer))])%list)
    end
  else (Ret answer, self, sent).

(** The events of [save_chat_to_backup] for a history. *)
Definition backup_events (self : LLMManager) (h : list pyval) : list event :=
  if truthy_str (chat_history_backup self)
  then [BackupWrite (py_or (chat_history_backup self) "") h]
  else [].

(** The exception of writing the backup of a history: none without a
    backup file, else what opening and dumping raise, if anything. *)
Definition backup_failure (W : World) (self : LLMManager) (h : list pyval) : option exn :=
  if truthy_str (chat_history_backup self)
  then backup_error W (py_or (chat_history_backup self) "") h
  else None.

(** The reply as line 272 records it. *)
Definition reply_entry (r : string) (c : pyval) : pyval :=
  PDict [("role", PStr r); ("content", c)].

(** The lines [chat_with_history] prints before the dispatch, when the
    history needs no truncation. *)
Definition preamble (self : LLMManager) (n : Z) : list event :=
  if logging self
  then [Print (HistoryTokenLength n); Print (AskingQuestion (provider self))]
  else [].

(** The history of an object is well formed. *)
Definition wf_state (self : LLMManager) : Prop := well_formed_history (chat_history self).

(** ** More concrete collaborators *)

Module Fixtures.

(** A world in which things go wrong: no Anthropic key, local images
    unreadable, OpenAI answering with an error, and a backup file
    ["backup.json"] holding a one-message history. *)
Definition degraded : World :=
  {| encoding_for_model :=
       fun m => if String.eqb m "gpt-4o" then Some Sample.char_encoder else None;
     py_repr := Sample.repr;
     environ :=
       fun k => if String.eqb k "OPENAI_API_KEY" then Some "sk-openai"
                else if String.eqb k "GOOGLE_API_KEY" then Some "sk-google"
                else None;
     importable := fun _ => true;
     sdk_error := fun _ _ => None;
     path_exists := fun path => String.eqb path "backup.json";
     json_load := fun _ => inr [Sample.system_message];
     read_image_base64 := fun _ => None;
     backup_error := fun _ _ => None;
     markup_error := fun _ => None;
     openai_create := fun _ _ => inl (ProviderError "rate limit");
     claude_create := fun _ _ _ => inr (PStr "ok");
     gemini_generate := fun _ _ => inr "ok" |}.

(** An encoder that refuses text containing the special token
    ["<|endoftext|>"], as tiktoken's [encode] does. *)
Definition strict_encoder : encoder :=
  fun s => if str_contains "<|endoftext|>" s then None else Sample.char_encoder s.

(** A world whose libraries are as particular as the real ones: the
    encoder refuses the special token, the OpenAI constructor refuses the
    empty API key (which is what the environment holds), rich refuses a
    closing tag, the directory of the backup is read-only; OpenAI answers
    with a closing tag and Claude without content. *)
Definition strict : World :=
  {| encoding_for_model := fun _ => Some strict_encoder;
     py_repr := Sample.repr;
     environ :=
       fun k => if String.eqb k "OPENAI_API_KEY" then Some "" else environ Sample.world k;
     importable := fun _ => true;
     sdk_error :=
       fun _ key => if String.eqb key ""
                    then Some (ProviderError "The api_key client option must be set")
                    else None;
     path_exists := fun _ => false;
     json_load := fun _ => inr [];
     read_image_base64 := fun _ => Some "AAAA";
     backup_error :=
       fun path _ => if String.prefix "/readonly/" path then Some (OSError path) else None;
     markup_error :=
       fun s => if str_contains "[/" s
                then Some (MarkupError "closing tag has nothing to close")
                else None;
     openai_create := fun _ _ => inr ("assistant", PStr "use [/b] here");
     claude_create := fun _ _ _ => inr PNone;
     gemini_generate := fun _ _ => inr "ok" |}.

(** The vision call answering every request the same way. *)
Definition describe : string -> list pyval -> Z -> exn + pyval :=
  fun _ _ _ => inr (PStr "a cat").

Definition hello : pyval := message_to_py (user_turn "hi" None).

End Fixtures.

(** * Properties *)

(** ** The estimator as a function of the state *)

Section Estimator.
Variable W : World.


Lemma num_tokens_run (messages : list pyval) (self : LLMManager) :
  num_tokens_from_messages W messages None self
  = (estimate W self messages, warm W self, []).
Proof.
  unfold num_tokens_from_messages, estimate, warm, active_encoder, bind, get_self.
  destruct self as [p m lg te h b c]; simpl.
  destruct (String.eqb p "openai"); [|reflexivity].
  destruct te as [e|]; simpl.
  - destruct (count_tokens e messages); reflexivity.
  - destruct (encoding_for_model W m) as [e|]; simpl; [|reflexivity].
    destruct (count_tokens e messages); reflexivity.
Qed.

Lemma warm_history self : chat_history (warm W self) = chat_history self.
Proof. unfold warm; destruct (String.eqb _ _); reflexivity. Qed.

Lemma warm_provider self : provider (warm W self) = provider self.
Proof. unfold warm; destruct (String.eqb _ _); reflexivity. Qed.

Lemma warm_model self : model (warm W self) = model self.
Proof. unfold warm; destruct (String.eqb _ _); reflexivity. Qed.

Lemma warm_logging self : logging (warm W self) = logging self.
Proof. unfold warm; destruct (String.eqb _ _); reflexivity. Qed.

Lemma active_encoder_warm self : active_encoder W (warm W self) = active_encoder W self.
Proof.
  unfold warm, active_encoder.
  destruct (String.eqb _ _); [|reflexivity]; simpl.
  destruct (tiktoken_encoder self); [reflexivity|].
  destruct (encoding_for_model W (model self)); reflexivity.
Qed.

Lemma estimate_warm self messages : estimate W (warm W self) messages = estimate W self messages.
Proof.
  unfold estimate.
  rewrite warm_provider, warm_model, active_encoder_warm; reflexivity.
Qed.

Lemma warm_idem self : warm W (warm W self) = warm W self.
Proof.
  unfold warm at 1. rewrite warm_provider, active_encoder_warm.
  destruct (String.eqb (provider self) "openai") eqn:E; [|reflexivity].
  unfold warm; rewrite E. reflexivity.
Qed.

Lemma estimate_set_history self h messages :
  estimate W (set_chat_history h self) messages = estimate W self messages.
Proof. reflexivity. Qed.

Lemma warm_set_history self h :
  warm W (set_chat_history h self) = set_chat_history h (warm W self).
Proof.
  unfold warm; simpl. destruct (String.eqb _ _); reflexivity.
Qed.

End Estimator.

(** ** One iteration of the truncation loop *)


Lemma pop_1_some {A : Type} (l : list A) (y : A) (l' : list A) :
  pop 1 l = Some (y, l') -> exists x rest, l = x :: y :: rest /\ l' = x :: rest.
Proof.
  destruct l as [|x [|z rest]]; simpl; intros H; try discriminate.
  inversion H; subst. eauto.
Qed.

Section Truncation.
Variable W : World.
Variable budget : Z.

Lemma truncate_loop_S (fuel : nat) (self : LLMManager) :
  truncate_loop W budget (S fuel) self =
  match estimate W self (chat_history self) with
  | Ret n =>
      if n >? budget then
        match pop 1 (chat_history self) with
        | None => (Raise IndexError, warm W self, [])
        | Some (_, remaining) =>
            let self' := set_chat_history remaining (warm W self) in
            if logging self then
              match estimate W self remaining with
              | Ret n' => after [Print (PoppedMessage n')] (truncate_loop W budget fuel self')
              | Raise e => (Raise e, self', [])
              | Diverge => (Diverge, self', [])
              end
            else after [] (truncate_loop W budget fuel self')
        end
      else (Ret tt, warm W self, [])
  | Raise e => (Raise e, warm W self, [])
  | Diverge => (Diverge, warm W self, [])
  end.
Proof.
  cbn [truncate_loop]. unfold bind at 1. unfold get_self at 1.
  unfold bind at 1. rewrite num_tokens_run.
  destruct (estimate W self (chat_history self)) as [n|e|]; try reflexivity.
  destruct (n >? budget); [|reflexivity].
  unfold bind at 1. unfold get_self at 1.
  rewrite warm_history.
  destruct (pop 1 (chat_history self)) as [[y remaining]|]; [|reflexivity].
  unfold bind at 1. unfold modify at 1.
  rewrite warm_logging.
  destruct (logging self).
  - unfold bind at 1. unfold bind at 1. unfold get_self at 1.
    unfold bind at 1. cbn [chat_history set_chat_history].
    rewrite num_tokens_run.
    rewrite estimate_set_history, estimate_warm.
    rewrite warm_set_history, warm_idem.
    destruct (estimate W self remaining) as [n'|e'|]; try reflexivity.
    unfold print, emit. cbn zeta.
    destruct (truncate_loop W budget fuel (set_chat_history remaining (warm W self)))
      as [[o s] t]. reflexivity.
  - unfold bind at 1. unfold ret at 1. cbn zeta.
    destruct (truncate_loop W budget fuel (set_chat_history remaining (warm W self)))
      as [[o s] t]. reflexivity.
Qed.

End Truncation.

(** ** State predicates preserved by a method *)


Section Preservation.
Context {A B : Type} (P : LLMManager -> Prop).

Lemma preserves_ret (a : A) : preserves P (ret a).
Proof. intros self H; exact H. Qed.

Lemma preserves_raise (e : exn) : preserves P (@raise A e).
Proof. intros self H; exact H. Qed.

Lemma preserves_diverge : preserves P (@diverge A).
Proof. intros self H; exact H. Qed.

Lemma preserves_get_self : preserves P get_self.
Proof. intros self H; exact H. Qed.

Lemma preserves_emit (e : event) : preserves P (emit e).
Proof. intros self H; exact H. Qed.

Lemma preserves_print (line : console) : preserves P (print line).
Proof. intros self H; exact H. Qed.

Lemma preserves_lift_result (r : exn + A) : preserves P (lift_result r).
Proof. destruct r; intros self H; exact H. Qed.

Lemma preserves_modify (f : LLMManager -> LLMManager) :
  (forall self, P self -> P (f self)) -> preserves P (modify f).
Proof. intros Hf self H; apply Hf, H. Qed.

Lemma preserves_bind (m : M A) (k : A -> M B) :
  preserves P m -> (forall a, preserves P (k a)) -> preserves P (bind m k).
Proof.
  intros Hm Hk self HP. unfold bind.
  specialize (Hm self HP).
  destruct (m self) as [[[a|e|] s1] t1]; simpl in *; auto.
  specialize (Hk a s1 Hm).
  destruct (k a s1) as [[o2 s2] t2]; exact Hk.
Qed.

Lemma preserves_bind_post (Q : A -> Prop) (m : M A) (k : A -> M B) :
  preserves P m ->
  (forall self a, outcome_of (m self) = Ret a -> Q a) ->
  (forall a, Q a -> preserves P (k a)) ->
  preserves P (bind m k).
Proof.
  intros Hm HQ Hk self HP. unfold bind.
  specialize (Hm self HP). specialize (HQ self).
  destruct (m self) as [[[a|e|] s1] t1]; simpl in *; auto.
  specialize (Hk a (HQ a eq_refl) s1 Hm).
  destruct (k a s1) as [[o2 s2] t2]; exact Hk.
Qed.
End Preservation.

Lemma bind_ret_l {A B : Type} (a : A) (k : A -> M B) (self : LLMManager) :
  bind (ret a) k self = k a self.
Proof.
  unfold bind, ret. destruct (k a self) as [[o s] t]. reflexivity.
Qed.

Lemma bind_modify {B : Type} (f : LLMManager -> LLMManager) (k : unit -> M B)
      (self : LLMManager) :
  bind (modify f) k self = k tt (f self).
Proof.
  unfold bind, modify. destruct (k tt (f self)) as [[o s] t]. reflexivity.
Qed.

Lemma bind_get_self {B : Type} (k : LLMManager -> M B) (self : LLMManager) :
  bind get_self k self = k self self.
Proof.
  unfold bind, get_self. destruct (k self self) as [[o s] t]. reflexivity.
Qed.

Lemma bind_run {A B : Type} (m : M A) (k : A -> M B) (self s1 : LLMManager)
      (a : A) (t1 : list event) :
  m self = (Ret a, s1, t1) -> bind m k self = after t1 (k a s1).
Proof.
  intros H. unfold bind, after, outcome_of, state_of, trace_of. rewrite H.
  destruct (k a s1) as [[o s] t]. reflexivity.
Qed.

Lemma bind_raises {A B : Type} (m : M A) (k : A -> M B) (self s1 : LLMManager)
      (e : exn) (t1 : list event) :
  m self = (Raise e, s1, t1) -> bind m k self = (Raise e, s1, t1).
Proof.
  intros H. unfold bind. rewrite H. reflexivity.
Qed.

Lemma after_nil {A : Type} (r : outcome A * LLMManager * list event) : after [] r = r.
Proof. destruct r as [[o s] t]. reflexivity. Qed.

Lemma after_after {A : Type} (t1 t2 : list event) (r : outcome A * LLMManager * list event) :
  after t1 (after t2 r) = after (t1 ++ t2) r.
Proof.
  destruct r as [[o s] t]. unfold after, outcome_of, state_of, trace_of. cbn [fst snd].
  rewrite app_assoc. reflexivity.
Qed.

Lemma preserves_num_tokens (W : World) (P : LLMManager -> Prop) (messages : list pyval) :
  (forall self, P self -> P (warm W self)) ->
  preserves P (num_tokens_from_messages W messages None).
Proof.
  intros Hw self H. rewrite num_tokens_run. apply Hw, H.
Qed.

Lemma preserves_print_markup (W : World) (P : LLMManager -> Prop)
      (before text after : string) (line : console) :
  preserves P (print_markup W before text after line).
Proof.
  unfold print_markup. destruct (render_error W before text after).
  - apply preserves_raise.
  - apply preserves_print.
Qed.

(** Decompose a method body along its binds and branches. *)
Ltac frame_step :=
  first
    [ apply preserves_ret
    | apply preserves_raise
    | apply preserves_diverge
    | apply preserves_get_self
    | apply preserves_print
    | apply preserves_print_markup
    | apply preserves_emit
    | apply preserves_lift_result
    | apply preserves_num_tokens
    | apply preserves_bind; [|intros ?]
    | match goal with
      | |- preserves _ (if ?b then _ else _) => destruct b
      | |- preserves _ (match ?x with _ => _ end) => destruct x
      end ].

Ltac frame := repeat frame_step.

(** ** C1: the truncation loop never removes index 0 *)

Section PinnedFirst.
Variable W : World.

Lemma truncate_loop_suffix (budget : Z) (fuel : nat) :
  forall (self : LLMManager) (h0 : pyval) (rest : list pyval),
    chat_history self = h0 :: rest ->
    exists k, chat_history (state_of (truncate_loop W budget fuel self)) = h0 :: skipn k rest.
Proof.
  induction fuel as [|fuel IH]; intros self h0 rest Hh.
  - exists 0%nat. exact Hh.
  - rewrite truncate_loop_S.
    destruct (estimate W self (chat_history self)) as [n|e|];
      try (exists 0%nat; unfold state_of; cbn [fst snd]; rewrite warm_history; exact Hh).
    destruct (n >? budget);
      [|exists 0%nat; unfold state_of; cbn [fst snd]; rewrite warm_history; exact Hh].
    destruct (pop 1 (chat_history self)) as [[y remaining]|] eqn:Hpop;
      [|exists 0%nat; unfold state_of; cbn [fst snd]; rewrite warm_history; exact Hh].
    apply pop_1_some in Hpop. destruct Hpop as (x & rest' & Hl & Hr).
    rewrite Hh in Hl. inversion Hl; subst x rest remaining.
    assert (Hnext : chat_history (set_chat_history (h0 :: rest') (warm W self)) = h0 :: rest')
      by reflexivity.
    cbn zeta.
    destruct (logging self).
    + destruct (estimate W self (h0 :: rest')) as [n'|e'|];
        try (exists 1%nat; reflexivity).
      destruct (IH _ _ _ Hnext) as [k Hk]. exists (S k). exact Hk.
    + destruct (IH _ _ _ Hnext) as [k Hk]. exists (S k). exact Hk.
Qed.


Lemma pinned_warm h0 self : pinned h0 self -> pinned h0 (warm W self).
Proof. intros [tl H]. exists tl. rewrite warm_history. exact H. Qed.

Lemma preserves_pinned_append h0 m : preserves (pinned h0) (append_message m).
Proof.
  apply preserves_modify. intros self [tl H]. exists (tl ++ [m])%list.
  simpl. rewrite H. reflexivity.
Qed.

Lemma preserves_pinned_truncate h0 budget fuel :
  preserves (pinned h0) (truncate_loop W budget fuel).
Proof.
  intros self [tl H].
  destruct (truncate_loop_suffix budget fuel self h0 tl H) as [k Hk].
  exists (skipn k tl). exact Hk.
Qed.

Lemma preserves_pinned_chat_with_history h0 fuel prompt_arg image_path local_image :
  preserves (pinned h0) (chat_with_history W fuel prompt_arg image_path local_image).
Proof.
  unfold chat_with_history, append_user_turn, exchange, dispatch_history,
    save_chat_to_backup, openai_call, claude_call, gemini_model, gemini_call.
  pose proof (pinned_warm h0) as Hw.
  pose proof (preserves_pinned_append h0) as Ha.
  pose proof (preserves_pinned_truncate h0 128000 fuel) as Ht.
  repeat first [ apply Ha | apply Ht | frame_step ]; auto.
Qed.

(** C1.  Whatever the budget, the estimator and the number of iterations,
    a history [h0 :: rest] leaves the truncation loop of
    [chat_with_history] as [h0 :: skipn k rest]: the loop has removed [k]
    times the element at index 1 and never the one at index 0, which is
    still the same message.  Stopping the loop after any number of
    iterations shows the same of every intermediate history.  And the
    history still starts with [h0] when [chat_with_history] itself is
    over. *)
Theorem truncation_keeps_first_message :
  forall (budget : Z) (fuel : nat) (self : LLMManager) (h0 : pyval) (rest : list pyval)
         (prompt_arg : option string) (image_path : string) (local_image : bool),
    let self0 := set_chat_history (h0 :: rest) self in
    (exists k, chat_history (state_of (truncate_loop W budget fuel self0))
               = h0 :: skipn k rest)
    /\ (exists tl, chat_history
                     (state_of (chat_with_history W fuel prompt_arg image_path local_image self0))
                   = h0 :: tl).
Proof.
  intros budget fuel self h0 rest prompt_arg image_path local_image self0.
  split.
  - apply truncate_loop_suffix. reflexivity.
  - apply (preserves_pinned_chat_with_history h0). exists rest. reflexivity.
Qed.

End PinnedFirst.

(** ** C2: what happens when the history cannot be brought under the budget *)

Section Exhaustion.
Variable W : World.

Lemma estimate_raises self messages e :
  estimate W self messages = Raise e -> e = NotImplementedError (model self).
Proof.
  unfold estimate.
  destruct (String.eqb _ _); [|discriminate].
  destruct (active_encoder W self) as [enc|]; [|congruence].
  destruct (count_tokens enc messages); congruence.
Qed.

Lemma estimate_returns_or_raises self messages : estimate W self messages <> Diverge.
Proof.
  unfold estimate.
  destruct (String.eqb _ _); [|discriminate].
  destruct (active_encoder W self) as [enc|]; [|discriminate].
  destruct (count_tokens enc messages); discriminate.
Qed.

Lemma truncate_loop_ends (budget : Z) (fuel : nat) :
  forall self : LLMManager,
    (length (chat_history self) < fuel)%nat ->
    loop_end W budget self (truncate_loop W budget fuel self).
Proof.
  induction fuel as [|fuel IH]; intros self Hlen; [lia|].
  rewrite truncate_loop_S.
  destruct (estimate W self (chat_history self)) as [n|e|] eqn:Hest.
  - destruct (n >? budget) eqn:Hcmp.
    + destruct (pop 1 (chat_history self)) as [[y remaining]|] eqn:Hpop.
      * apply pop_1_some in Hpop. destruct Hpop as (x & rest & Hl & Hr).
        assert (Hfuel : (length (chat_history (set_chat_history remaining (warm W self))) < fuel)%nat).
        { cbn [chat_history set_chat_history]. rewrite Hl in Hlen. subst remaining.
          simpl in *. lia. }
        specialize (IH _ Hfuel).
        unfold loop_end in IH.
        rewrite !estimate_set_history in IH.
        cbn zeta.
        destruct (logging self).
        -- destruct (estimate W self remaining) as [n'|e'|] eqn:Hest'.
           ++ unfold loop_end, after, outcome_of, state_of in *. cbn [fst snd] in *.
              rewrite estimate_warm in IH. exact IH.
           ++ pose proof (estimate_raises _ _ _ Hest') as He. subst e'.
              unfold loop_end, outcome_of, state_of. cbn [fst snd chat_history set_chat_history].
              exact Hest'.
           ++ exfalso. exact (estimate_returns_or_raises _ _ Hest').
        -- unfold loop_end, after, outcome_of, state_of in *. cbn [fst snd] in *.
           rewrite estimate_warm in IH. exact IH.
      * unfold loop_end, outcome_of, state_of. cbn [fst snd]. rewrite warm_history.
        split.
        -- destruct (chat_history self) as [|x [|z rest]]; simpl in *; try lia. discriminate.
        -- exists n. split; [exact Hest|]. apply Z.gtb_lt in Hcmp. lia.
    + unfold loop_end, outcome_of, state_of. cbn [fst snd]. rewrite warm_history.
      exists n. split; [exact Hest|].
      destruct (Z.gtb_spec n budget); [discriminate|lia].
  - pose proof (estimate_raises _ _ _ Hest) as He. subst e.
    unfold loop_end, outcome_of, state_of. cbn [fst snd]. rewrite warm_history. exact Hest.
  - exfalso. exact (estimate_returns_or_raises _ _ Hest).
Qed.

End Exhaustion.

Section ExhaustedExchange.
Variable W : World.

Lemma chat_with_history_no_prompt fuel image_path local_image self :
  chat_with_history W fuel None image_path local_image self = exchange W fuel self.
Proof.
  unfold chat_with_history.
  change (append_user_turn W None image_path local_image) with (@ret bool true).
  rewrite bind_ret_l. reflexivity.
Qed.

Lemma exchange_exhausted fuel self m n :
  chat_history self = [m] ->
  estimate W self [m] = Ret n ->
  n > 128000 ->
  (0 < fuel)%nat ->
  exchange W fuel self
  = (Raise IndexError, warm W self,
     if logging self then [Print (HistoryTokenLength n)] else []).
Proof.
  intros Hh Hest Hn Hfuel.
  destruct fuel as [|fuel]; [lia|].
  assert (Hcmp : (n >? 128000) = true) by (apply Z.gtb_lt; lia).
  unfold exchange. unfold bind at 1. unfold get_self at 1.
  unfold bind at 1.
  destruct (logging self) eqn:Hlog.
  - unfold bind at 1. rewrite num_tokens_run, Hh, Hest.
    unfold print, emit. unfold bind at 1.
    rewrite truncate_loop_S.
    rewrite warm_history, estimate_warm, Hh, Hest, Hcmp, warm_idem. reflexivity.
  - unfold ret at 1. unfold bind at 1.
    rewrite truncate_loop_S.
    rewrite Hh, Hest, Hcmp. reflexivity.
Qed.

End ExhaustedExchange.

(** ** C3, C4: the token count of the OpenAI provider *)

Section TokenCount.
Variable enc : encoder.

Lemma len_nonneg {A : Type} (l : list A) : 0 <= len l.
Proof. unfold len. lia. Qed.

Lemma tokens_nonneg (s : string) : 0 <= tokens enc s.
Proof. unfold tokens. destruct (enc s); [apply len_nonneg|lia]. Qed.

Lemma encoded_len_nonneg (v : pyval) (n : Z) : encoded_len enc v = Some n -> 0 <= n.
Proof.
  destruct v as [|s|l|d]; cbn [encoded_len]; try discriminate.
  destruct (enc s) as [l|]; cbn [option_map]; [|discriminate].
  intros H; inversion H. apply len_nonneg.
Qed.

Lemma encoded_len_str (s : string) :
  encoded_len enc (PStr s) = if can_encode enc s then Some (tokens enc s) else None.
Proof. unfold encoded_len, can_encode, tokens. destruct (enc s); reflexivity. Qed.

Lemma count_block_items_block (b : ContentBlock) (acc : Z) :
  match block_to_py b with
  | PDict items =>
      count_block_items enc items acc
      = if block_encodable enc b then Some (acc + block_tokens enc b) else None
  | _ => False
  end.
Proof.
  destruct b as [t|u d];
    cbn [block_to_py count_block_items String.eqb Ascii.eqb Bool.eqb
         block_encodable block_tokens].
  - rewrite !encoded_len_str.
    destruct (can_encode enc "text"); cbn [andb]; [|reflexivity].
    destruct (can_encode enc t); [|reflexivity]. f_equal. lia.
  - rewrite encoded_len_str.
    destruct (can_encode enc "image_url"); [|reflexivity]. f_equal. lia.
Qed.

Lemma count_content_list_blocks (bs : list ContentBlock) :
  forall acc, count_content_list enc (map block_to_py bs) acc
              = if forallb (block_encodable enc) bs
                then Some (acc + zsum (map (block_tokens enc) bs))
                else None.
Proof.
  induction bs as [|b bs IH]; intros acc.
  - cbn. f_equal. lia.
  - cbn [map count_content_list forallb].
    pose proof (count_block_items_block b acc) as Hb.
    destruct (block_to_py b) as [| | |items]; try contradiction.
    rewrite Hb. destruct (block_encodable enc b); cbn [andb]; [|reflexivity].
    rewrite IH. destruct (forallb (block_encodable enc) bs); [|reflexivity].
    f_equal. unfold zsum. cbn [map fold_right]. lia.
Qed.

Lemma count_message_items_message (m : Message) (acc : Z) :
  match message_to_py m with
  | PDict items =>
      count_message_items enc items acc
      = if message_encodable enc m
        then Some (acc + tokens enc (role m) + content_tokens enc (content m))
        else None
  | _ => False
  end.
Proof.
  destruct m as [r c]. cbn [message_to_py role content count_message_items].
  cbn [String.eqb Ascii.eqb Bool.eqb].
  unfold message_encodable. cbn [role content].
  rewrite encoded_len_str. destruct (can_encode enc r); cbn [andb]; [|reflexivity].
  destruct c as [s|bs]; cbn [content_to_py count_content content_tokens content_encodable].
  - rewrite encoded_len_str. destruct (can_encode enc s); reflexivity.
  - rewrite count_content_list_blocks.
    destruct (forallb (block_encodable enc) bs); reflexivity.
Qed.

Lemma count_messages_canonical (messages : list Message) :
  forall acc, count_messages enc (map message_to_py messages) acc
              = if encodable enc messages
                then Some (acc + zsum (map (message_tokens enc) messages))
                else None.
Proof.
  unfold encodable.
  induction messages as [|m ms IH]; intros acc.
  - cbn. f_equal. lia.
  - cbn [map count_messages forallb].
    pose proof (count_message_items_message m (acc + 4)) as Hm.
    destruct (message_to_py m) as [| | |items]; try contradiction.
    rewrite Hm. destruct (message_encodable enc m); cbn [andb]; [|reflexivity].
    rewrite IH. destruct (forallb (message_encodable enc) ms); [|reflexivity].
    f_equal. unfold message_tokens, zsum. cbn [map fold_right]. lia.
Qed.

Lemma count_tokens_canonical (messages : list Message) :
  count_tokens enc (map message_to_py messages)
  = if encodable enc messages then Some (sequence_tokens enc messages) else None.
Proof.
  unfold count_tokens, sequence_tokens. rewrite count_messages_canonical.
  destruct (encodable enc messages); reflexivity.
Qed.

(** *** The count never decreases along the loops *)

Lemma count_block_items_ge (items : list (string * pyval)) :
  forall acc n, count_block_items enc items acc = Some n -> acc <= n.
Proof.
  induction items as [|[k v] rest IH]; intros acc n H; cbn [count_block_items] in H.
  - inversion H. lia.
  - destruct (String.eqb k "type").
    { destruct (encoded_len enc v) as [x|] eqn:Hx; [|discriminate].
      apply IH in H. apply encoded_len_nonneg in Hx. lia. }
    destruct (String.eqb k "text").
    { destruct (encoded_len enc v) as [x|] eqn:Hx; [|discriminate].
      apply IH in H. apply encoded_len_nonneg in Hx. lia. }
    destruct (String.eqb k "image_url").
    { apply IH in H. lia. }
    apply IH in H. exact H.
Qed.

Lemma count_content_list_ge (value : list pyval) :
  forall acc n, count_content_list enc value acc = Some n -> acc <= n.
Proof.
  induction value as [|v rest IH]; intros acc n H; cbn [count_content_list] in H.
  - inversion H. lia.
  - destruct v as [| | |items]; try discriminate.
    destruct (count_block_items enc items acc) as [k|] eqn:Hk; [|discriminate].
    apply count_block_items_ge in Hk. apply IH in H. lia.
Qed.

Lemma count_content_ge (value : pyval) (acc n : Z) :
  count_content enc value acc = Some n -> acc <= n.
Proof.
  destruct value as [|s|l|d]; cbn [count_content]; intros H; try discriminate.
  - destruct (encoded_len enc (PStr s)) as [x|] eqn:Hx; [|discriminate].
    inversion H. apply encoded_len_nonneg in Hx. lia.
  - apply count_content_list_ge in H. exact H.
  - destruct d; [inversion H; lia|discriminate].
Qed.

Lemma count_message_items_ge (items : list (string * pyval)) :
  forall acc n, count_message_items enc items acc = Some n -> acc <= n.
Proof.
  induction items as [|[k v] rest IH]; intros acc n H; cbn [count_message_items] in H.
  - inversion H. lia.
  - destruct (String.eqb k "role").
    { destruct (encoded_len enc v) as [x|] eqn:Hx; [|discriminate].
      apply IH in H. apply encoded_len_nonneg in Hx. lia. }
    destruct (String.eqb k "content").
    { destruct (count_content enc v acc) as [c|] eqn:Hc; [|discriminate].
      apply count_content_ge in Hc. apply IH in H. lia. }
    apply IH in H. exact H.
Qed.

Lemma count_messages_ge (messages : list pyval) :
  forall acc n, count_messages enc messages acc = Some n -> acc <= n.
Proof.
  induction messages as [|m rest IH]; intros acc n H; cbn [count_messages] in H.
  - inversion H. lia.
  - destruct m as [| | |items]; try discriminate.
    destruct (count_message_items enc items (acc + 4)) as [k|] eqn:Hk; [|discriminate].
    apply count_message_items_ge in Hk. apply IH in H. lia.
Qed.

Lemma count_messages_app (H1 H2 : list pyval) :
  forall acc, count_messages enc (H1 ++ H2) acc
              = match count_messages enc H1 acc with
                | Some n => count_messages enc H2 n
                | None => None
                end.
Proof.
  induction H1 as [|m rest IH]; intros acc; cbn [app count_messages].
  - reflexivity.
  - destruct m as [| | |items]; try reflexivity.
    destruct (count_message_items enc items (acc + 4)); [apply IH|reflexivity].
Qed.

Lemma count_tokens_append (H : list pyval) (m : pyval) (n' : Z) :
  count_tokens enc (H ++ [m]) = Some n' ->
  exists n, count_tokens enc H = Some n /\ n <= n'.
Proof.
  unfold count_tokens. rewrite count_messages_app.
  destruct (count_messages enc H 0) as [k|]; [|discriminate].
  destruct (count_messages enc [m] k) as [k'|] eqn:Hk'; [|discriminate].
  intros Heq. inversion Heq; subst n'.
  apply count_messages_ge in Hk'.
  exists (k + 2). split; [reflexivity|lia].
Qed.

Lemma message_tokens_nonneg (m : Message) : 0 <= message_tokens enc m.
Proof.
  unfold message_tokens. pose proof (tokens_nonneg (role m)).
  assert (0 <= content_tokens enc (content m)); [|lia].
  destruct (content m) as [t|bs]; cbn [content_tokens]; [apply tokens_nonneg|].
  unfold zsum. induction bs as [|b bs IH]; cbn [map fold_right]; [lia|].
  assert (0 <= block_tokens enc b); [|lia].
  destruct b as [t|u d]; cbn [block_tokens];
    pose proof (tokens_nonneg "text"); pose proof (tokens_nonneg "image_url");
    try pose proof (tokens_nonneg t); lia.
Qed.

Lemma sequence_tokens_append (Hc : list Message) (mc : Message) :
  sequence_tokens enc Hc <= sequence_tokens enc (Hc ++ [mc]).
Proof.
  unfold sequence_tokens, zsum. rewrite map_app, fold_right_app.
  cbn [map fold_right].
  pose proof (message_tokens_nonneg mc) as Hm.
  assert (Hfold : forall (l : list Z) (a : Z),
             fold_right Z.add a l = fold_right Z.add 0 l + a).
  { induction l as [|x l IHl]; intros a; cbn [fold_right]; [lia|]. rewrite IHl. lia. }
  rewrite (Hfold _ (message_tokens enc mc + 0)). lia.
Qed.

Lemma encodable_prefix (Hc : list Message) (mc : Message) :
  encodable enc (Hc ++ [mc]) = true -> encodable enc Hc = true.
Proof.
  unfold encodable. rewrite forallb_app. intros H.
  apply andb_true_iff in H. exact (proj1 H).
Qed.

End TokenCount.

Lemma len_cons {A : Type} (x : A) (l : list A) : len (x :: l) = len l + 1.
Proof. unfold len. cbn [length]. lia. Qed.

Lemma block_tokens_documented (enc : encoder) (bs : list ContentBlock) :
  zsum (map (block_tokens enc) bs)
  = zsum (map (documented_block_tokens enc) bs)
    + tokens enc "text" * len (filter is_text bs)
    + tokens enc "image_url" * len (filter is_image bs).
Proof.
  unfold zsum.
  induction bs as [|b bs IH].
  - unfold len. cbn [map fold_right filter length]. lia.
  - cbn [map fold_right filter]. rewrite IH.
    destruct b as [t|u d]; cbn [block_tokens documented_block_tokens is_text is_image];
      rewrite len_cons; lia.
Qed.

Lemma sequence_tokens_documented (enc : encoder) (messages : list Message) :
  sequence_tokens enc messages
  = documented_sequence_tokens enc messages
    + tokens enc "text" * count_blocks is_text messages
    + tokens enc "image_url" * count_blocks is_image messages.
Proof.
  unfold sequence_tokens, documented_sequence_tokens, count_blocks.
  induction messages as [|m ms IH].
  - unfold zsum. cbn [map fold_right]. lia.
  - unfold zsum in *. cbn [map fold_right].
    unfold message_tokens at 1, documented_message_tokens at 1.
    destruct (content m) as [s|bs]; cbn [content_tokens documented_content_tokens].
    + lia.
    + pose proof (block_tokens_documented enc bs) as Hb. unfold zsum in *. lia.
Qed.

Lemma estimate_canonical (W : World) (self : LLMManager) (enc : encoder)
      (messages : list Message) :
  provider self = "openai" ->
  active_encoder W self = Some enc ->
  estimate W self (map message_to_py messages)
  = if encodable enc messages
    then Ret (sequence_tokens enc messages)
    else Raise (NotImplementedError (model self)).
Proof.
  intros Hp He. unfold estimate. rewrite Hp, He. cbn [String.eqb Ascii.eqb Bool.eqb].
  rewrite count_tokens_canonical. destruct (encodable enc messages); reflexivity.
Qed.

(** C3, as the code has it.  For the OpenAI provider, with an encoder at
    hand that accepts every string it is given (the roles, the string
    contents, the texts and the type strings of the blocks), the estimate
    of a sequence of canonical messages is the sum over the messages of 4,
    the encoding length of the role and the cost of the content, plus 2; a
    string content costs its encoding length, a list of blocks costs, for
    each block, the encoding length of the string under its ['type'] key
    (["text"] or ["image_url"]) plus the encoding length of the text, or
    plus 1105 for an image whatever its URL and detail.  When [encode]
    raises on one of those strings, the call raises [NotImplementedError]
    instead.  The sum is the documented formula plus the encoding lengths
    of the type strings, once per block. *)
Theorem openai_token_count :
  forall (W : World) (self : LLMManager) (enc : encoder) (messages : list Message),
    provider self = "openai" ->
    active_encoder W self = Some enc ->
    (encodable enc messages = true ->
     outcome_of (num_tokens_from_messages W (map message_to_py messages) None self)
     = Ret (sequence_tokens enc messages))
    /\ (encodable enc messages = false ->
        outcome_of (num_tokens_from_messages W (map message_to_py messages) None self)
        = Raise (NotImplementedError (model self)))
    /\ sequence_tokens enc messages
       = documented_sequence_tokens enc messages
         + tokens enc "text" * count_blocks is_text messages
         + tokens enc "image_url" * count_blocks is_image messages.
Proof.
  intros W self enc messages Hp He.
  rewrite num_tokens_run. unfold outcome_of; cbn [fst].
  rewrite (estimate_canonical W self enc messages Hp He).
  split; [|split].
  - intros Hok. rewrite Hok. reflexivity.
  - intros Hno. rewrite Hno. reflexivity.
  - apply sequence_tokens_documented.
Qed.

Lemma openai_token_count_witness :
  let self := Sample.engine "openai" "gpt-4o" (OpenAIClient "sk-openai") [] in
  let messages := [ {| role := "user";
                       content := Blocks [Text "hi"; Image "http://x/i.jpg" "high"] |};
                    {| role := "assistant"; content := TextBlock "hello" |} ] in
  provider self = "openai"
  /\ active_encoder Sample.world self = Some Sample.char_encoder
  /\ outcome_of (num_tokens_from_messages Sample.world (map message_to_py messages) None self)
     = Ret 1148.
Proof.
  intros self messages.
  assert (Hp : provider self = "openai") by reflexivity.
  assert (He : active_encoder Sample.world self = Some Sample.char_encoder) by reflexivity.
  split; [exact Hp|]. split; [exact He|].
  destruct (openai_token_count Sample.world self Sample.char_encoder messages Hp He) as [Hrun _].
  rewrite (Hrun eq_refl). vm_compute. reflexivity.
Defined.

(** C3 as stated fails on a message whose content is a list of blocks: for
    the user turn [[Text "hi"]] and the one-token-per-character encoder the
    code returns 16, the documented formula 12; the difference is the 4
    tokens of the string ["text"]. *)
Lemma documented_count_misses_block_types :
  let self := Sample.engine "openai" "gpt-4o" (OpenAIClient "sk-openai") [] in
  let messages := [ {| role := "user"; content := Blocks [Text "hi"] |} ] in
  outcome_of (num_tokens_from_messages Sample.world (map message_to_py messages) None self)
  = Ret 16
  /\ documented_sequence_tokens Sample.char_encoder messages = 12.
Proof.
  vm_compute. split; reflexivity.
Qed.

(** The same for every encoder that gives the string ["text"] at least one
    token. *)
Lemma documented_count_differs (enc : encoder) (r t : string) :
  0 < tokens enc "text" ->
  sequence_tokens enc [ {| role := r; content := Blocks [Text t] |} ]
  <> documented_sequence_tokens enc [ {| role := r; content := Blocks [Text t] |} ].
Proof.
  intros Hne. rewrite sequence_tokens_documented.
  cbn [count_blocks map content filter is_text is_image zsum fold_right].
  unfold len in *. cbn [length] in *. lia.
Qed.

(** With an encoder that refuses the special token, as tiktoken's does, a
    user turn that quotes it has no estimate: the call raises. *)
Lemma special_token_has_no_estimate :
  let self := Sample.engine "openai" "gpt-4o" (OpenAIClient "sk-openai") [] in
  outcome_of (num_tokens_from_messages Fixtures.strict
                [message_to_py (user_turn "<|endoftext|>" None)] None self)
  = Raise (NotImplementedError "gpt-4o").
Proof.
  vm_compute. reflexivity.
Qed.

(** C4.  For the OpenAI provider, appending a message never lowers the
    estimate: when the estimate of [H ++ [m]] is [n'], the estimate of [H]
    is some [n <= n'].  And the estimate is a function of the messages:
    asking again, in the state the first call has left, gives the same
    answer and leaves the same state.  For canonical messages all of whose
    strings the encoder at hand accepts, both estimates exist. *)
Theorem estimate_monotone_under_append :
  forall (W : World) (self : LLMManager) (H : list pyval) (m : pyval) (n' : Z),
    provider self = "openai" ->
    outcome_of (num_tokens_from_messages W (H ++ [m]) None self) = Ret n' ->
    (exists n, outcome_of (num_tokens_from_messages W H None self) = Ret n /\ n <= n')
    /\ num_tokens_from_messages W (H ++ [m]) None
         (state_of (num_tokens_from_messages W (H ++ [m]) None self))
       = num_tokens_from_messages W (H ++ [m]) None self
    /\ (forall (enc : encoder) (Hc : list Message) (mc : Message),
          active_encoder W self = Some enc ->
          encodable enc (Hc ++ [mc]) = true ->
          exists n1 n2,
            outcome_of (num_tokens_from_messages W (map message_to_py Hc) None self) = Ret n1
            /\ outcome_of (num_tokens_from_messages W (map message_to_py (Hc ++ [mc])) None self)
               = Ret n2
            /\ n1 <= n2).
Proof.
  intros W self H m n' Hp Hrun. rewrite !num_tokens_run in *.
  unfold outcome_of, state_of in *; cbn [fst snd] in *.
  split; [|split].
  - unfold estimate in *. rewrite Hp in *. cbn [String.eqb Ascii.eqb Bool.eqb] in *.
    destruct (active_encoder W self) as [enc|]; [|discriminate].
    destruct (count_tokens enc (H ++ [m])) as [k'|] eqn:Hk'; [|discriminate].
    inversion Hrun; subst k'.
    destruct (count_tokens_append enc H m n' Hk') as (n & Hn & Hle).
    exists n. rewrite Hn. split; [reflexivity|exact Hle].
  - rewrite estimate_warm, warm_idem. reflexivity.
  - intros enc Hc mc He Hok.
    exists (sequence_tokens enc Hc), (sequence_tokens enc (Hc ++ [mc])).
    rewrite !num_tokens_run. cbn [fst snd].
    rewrite !(estimate_canonical W self enc _ Hp He).
    rewrite Hok, (encodable_prefix enc Hc mc Hok).
    split; [reflexivity|]. split; [reflexivity|].
    apply sequence_tokens_append.
Qed.

Lemma estimate_monotone_under_append_witness :
  let self := Sample.engine "openai" "gpt-4o" (OpenAIClient "sk-openai") [] in
  let m := message_to_py {| role := "user"; content := Blocks [Text "hi"] |} in
  provider self = "openai"
  /\ outcome_of (num_tokens_from_messages Sample.world ([Sample.system_message] ++ [m]) None self)
     = Ret 39
  /\ exists n, outcome_of (num_tokens_from_messages Sample.world [Sample.system_message] None self)
               = Ret n /\ n <= 39.
Proof.
  intros self m.
  assert (Hp : provider self = "openai") by reflexivity.
  assert (Hrun : outcome_of (num_tokens_from_messages Sample.world
                               ([Sample.system_message] ++ [m]) None self) = Ret 39)
    by (vm_compute; reflexivity).
  split; [exact Hp|]. split; [exact Hrun|].
  exact (proj1 (estimate_monotone_under_append Sample.world self
                  [Sample.system_message] m 39 Hp Hrun)).
Defined.

(** ** C5: the prompt sent to Gemini *)

Section GeminiPrompt.
Variable W : World.

Lemma as_strings_strs (l : list string) : as_strings (map PStr l) = inr l.
Proof.
  induction l as [|s l IH]; cbn [map as_strings]; [reflexivity|].
  rewrite IH. reflexivity.
Qed.

Lemma gemini_user_texts_canonical (history : list Message) :
  Forall (fun m => is_user m = true -> text_first m = true) history ->
  gemini_user_texts W (map message_to_py history)
  = inr (map PStr (map message_text (filter is_user history))).
Proof.
  induction 1 as [|m ms Hm Hms IH]; [reflexivity|].
  destruct m as [r c]. unfold is_user, text_first in Hm. cbn [role content] in Hm.
  cbn [map gemini_user_texts filter]. unfold message_to_py at 1.
  unfold is_user at 1. cbn [role content].
  cbn [dict_get String.eqb Ascii.eqb Bool.eqb].
  destruct (String.eqb r "user") eqn:Hu.
  - specialize (Hm eq_refl).
    unfold get_gemini_text. cbn [dict_get String.eqb Ascii.eqb Bool.eqb].
    cbn [map]. unfold message_text at 1. cbn [content].
    destruct c as [s|[|[t|u d] bs]]; try discriminate;
      cbn [content_to_py map block_to_py dict_get String.eqb Ascii.eqb Bool.eqb py_str];
      rewrite IH; reflexivity.
  - rewrite IH. reflexivity.
Qed.

Lemma gemini_history_text_canonical (history : list Message) :
  Forall (fun m => is_user m = true -> text_first m = true) history ->
  gemini_history_text W (map message_to_py history)
  = inr (join NL (map message_text (filter is_user history))).
Proof.
  intros H. unfold gemini_history_text.
  rewrite (gemini_user_texts_canonical history H), as_strings_strs. reflexivity.
Qed.

Lemma gemini_user_texts_general (history : list Message) :
  gemini_user_texts W (map message_to_py history)
  = inr (map PStr (map (gemini_text W) (filter is_user history))).
Proof.
  induction history as [|m ms IH]; [reflexivity|].
  destruct m as [r c].
  cbn [map gemini_user_texts filter]. unfold message_to_py at 1.
  unfold is_user at 1. cbn [role content].
  cbn [dict_get String.eqb Ascii.eqb Bool.eqb].
  destruct (String.eqb r "user") eqn:Hu.
  - unfold get_gemini_text. cbn [dict_get String.eqb Ascii.eqb Bool.eqb].
    cbn [map]. unfold gemini_text at 1. cbn [content].
    destruct c as [s|[|[t|u d] bs]];
      cbn [content_to_py map block_to_py dict_get String.eqb Ascii.eqb Bool.eqb py_str];
      rewrite IH; reflexivity.
  - rewrite IH. reflexivity.
Qed.

Lemma gemini_history_text_general (history : list Message) :
  gemini_history_text W (map message_to_py history)
  = inr (join NL (map (gemini_text W) (filter is_user history))).
Proof.
  unfold gemini_history_text.
  rewrite (gemini_user_texts_general history), as_strings_strs. reflexivity.
Qed.



Lemma dispatch_history_gemini_trace (history : list Message) (self : LLMManager)
      (key : string) :
  provider self = "gemini" ->
  client self = Some (GenaiModule key) ->
  chat_history self = map message_to_py history ->
  trace_of (dispatch_history W self)
  = [GeminiGenerateContent (model self)
       (join NL (map (gemini_text W) (filter is_user history)))].
Proof.
  intros Hp Hc Hh.
  unfold dispatch_history. unfold bind at 1. unfold get_self at 1.
  rewrite Hp, Hc, Hh. cbn [String.eqb Ascii.eqb Bool.eqb gemini_model].
  rewrite bind_ret_l.
  rewrite (gemini_history_text_general history). cbn [lift_result].
  rewrite bind_ret_l.
  unfold gemini_call, bind, emit, lift_result, trace_of.
  destruct (gemini_generate W (model self) _); reflexivity.
Qed.


End GeminiPrompt.



(** ** C6: the messages sent to Claude *)

Section ClaudeFormat.
Variable W : World.

Lemma text_parts_blocks (bs : list ContentBlock) :
  text_parts (map block_to_py bs) = inr (map PStr (block_texts bs)).
Proof.
  induction bs as [|b bs IH]; [reflexivity|].
  cbn [map text_parts]. rewrite IH.
  destruct b as [t|u d]; reflexivity.
Qed.

Lemma claude_message_canonical (m : Message) :
  claude_message (message_to_py m) = inr (flattened m).
Proof.
  destruct m as [r c]. unfold claude_message, message_to_py, flattened.
  cbn [role content dict_get String.eqb Ascii.eqb Bool.eqb].
  destruct c as [s|bs]; cbn [content_to_py]; [reflexivity|].
  rewrite text_parts_blocks, as_strings_strs. reflexivity.
Qed.

Lemma claude_history_format_canonical (history : list Message) :
  _claude_history_format (map message_to_py history) = inr (map flattened history).
Proof.
  induction history as [|m ms IH]; [reflexivity|].
  cbn [map _claude_history_format]. rewrite claude_message_canonical, IH. reflexivity.
Qed.

Lemma dispatch_history_claude (history : list Message) (self : LLMManager) (key : string) :
  provider self = "claude" ->
  client self = Some (AnthropicClient key) ->
  chat_history self = map message_to_py history ->
  dispatch_history W self
  = (match claude_create W (model self) 4096 (map flattened history) with
     | inl e => Raise e
     | inr content => Ret (Some ("assistant", content))
     end,
     self,
     [ClaudeMessagesCreate (model self) 4096 (map flattened history)]).
Proof.
  intros Hp Hc Hh.
  unfold dispatch_history. unfold bind at 1. unfold get_self at 1.
  rewrite Hp, Hc, Hh. cbn [String.eqb Ascii.eqb Bool.eqb].
  rewrite claude_history_format_canonical. cbn [lift_result].
  rewrite bind_ret_l.
  unfold claude_call, bind, emit, lift_result.
  destruct (claude_create W (model self) 4096 _); reflexivity.
Qed.


End ClaudeFormat.



(** ** C7, C8: the single-shot chat *)

Section SingleShot.
Variable W : World.

Lemma truthy_nonempty (prompt : string) :
  prompt <> "" -> truthy_str (Some prompt) = true /\ py_or (Some prompt) "" = prompt.
Proof.
  intros H. unfold truthy_str, py_or.
  destruct (String.eqb_spec prompt ""); [contradiction|]. split; reflexivity.
Qed.

(** The OpenAI branch does check the size of the question. *)
Lemma chat_openai_rejects_large (self : LLMManager) (c : sdk_client) (prompt : string) (n : Z) :
  prompt <> "" ->
  provider self = "openai" ->
  client self = Some c ->
  estimate W self [question prompt] = Ret n ->
  n > 128000 ->
  chat W (Some prompt) self = (Ret PNone, warm W self, [Print QuestionTooLarge]).
Proof.
  intros Hne Hp Hc Hest Hn.
  destruct (truthy_nonempty prompt Hne) as [Ht Hor].
  unfold chat. rewrite Ht, Hor. cbn [negb].
  unfold bind at 1. unfold get_self at 1.
  rewrite Hp, Hc. cbn [String.eqb Ascii.eqb Bool.eqb].
  unfold bind at 1. rewrite num_tokens_run. fold (question prompt). rewrite Hest.
  assert (Hcmp : (n >? 128000) = true) by (apply Z.gtb_lt; lia).
  rewrite Hcmp. reflexivity.
Qed.

(** The Claude branch sends every non-empty prompt. *)
Lemma chat_claude_run (self : LLMManager) (key prompt : string) :
  prompt <> "" ->
  provider self = "claude" ->
  client self = Some (AnthropicClient key) ->
  chat W (Some prompt) self
  = let sent := [Print (AskingQuestion "Claude");
                 ClaudeMessagesCreate (model self) 4096 [question prompt]] in
    match claude_create W (model self) 4096 [question prompt] with
    | inl e => (Raise e, self, sent)
    | inr answer => answered W self sent answer
    end.
Proof.
  intros Hne Hp Hc.
  destruct (truthy_nonempty prompt Hne) as [Ht Hor].
  unfold chat. rewrite Ht, Hor. cbn [negb].
  unfold bind at 1. unfold get_self at 1.
  rewrite Hp, Hc. cbn [String.eqb Ascii.eqb Bool.eqb].
  fold (question prompt).
  unfold answered, claude_call, finish_chat, print_markup, print, emit, bind, lift_result,
    get_self, ret, raise.
  destruct (claude_create W (model self) 4096 [question prompt]) as [e|answer];
    [reflexivity|].
  destruct (logging self); [|reflexivity].
  destruct (render_error W ("[green]" ++ NL) (py_str W answer) NL); reflexivity.
Qed.

(** The Gemini branch sends every non-empty prompt. *)
Lemma chat_gemini_run (self : LLMManager) (key prompt : string) :
  prompt <> "" ->
  provider self = "gemini" ->
  client self = Some (GenaiModule key) ->
  chat W (Some prompt) self
  = let sent := [Print (AskingQuestion "Gemini");
                 GeminiGenerateContent (model self) prompt] in
    match gemini_generate W (model self) prompt with
    | inl e => (Raise e, self, sent)
    | inr answer => answered W self sent (PStr answer)
    end.
Proof.
  intros Hne Hp Hc.
  destruct (truthy_nonempty prompt Hne) as [Ht Hor].
  unfold chat. rewrite Ht, Hor. cbn [negb].
  unfold bind at 1. unfold get_self at 1.
  rewrite Hp, Hc. cbn [String.eqb Ascii.eqb Bool.eqb].
  unfold answered, gemini_model, gemini_call, finish_chat, print_markup, print, emit, bind,
    lift_result, get_self, ret, raise.
  destruct (gemini_generate W (model self) prompt) as [e|answer]; [reflexivity|].
  destruct (logging self); [|reflexivity].
  destruct (render_error W ("[green]" ++ NL) (py_str W (PStr answer)) NL); reflexivity.
Qed.

Lemma preserves_history_chat (h : list pyval) (prompt_arg : option string) :
  preserves (fun self => chat_history self = h) (chat W prompt_arg).
Proof.
  unfold chat, finish_chat, openai_call, claude_call, gemini_model, gemini_call.
  cbv zeta.
  frame; intros self Hs; rewrite warm_history; exact Hs.
Qed.

(** C8.  [chat] leaves [self.chat_history] as it was, whatever the prompt,
    the provider and the outcome; and with no prompt ([None]) or an empty
    one it prints one line and returns [None]: no exception, no request,
    no change of state. *)
Theorem chat_has_no_history_effect :
  forall (prompt_arg : option string) (self : LLMManager),
    chat_history (state_of (chat W prompt_arg self)) = chat_history self
    /\ chat W None self = (Ret PNone, self, [Print NoInput])
    /\ chat W (Some "") self = (Ret PNone, self, [Print NoInput]).
Proof.
  intros prompt_arg self. split; [|split].
  - apply (preserves_history_chat (chat_history self) prompt_arg self). reflexivity.
  - reflexivity.
  - reflexivity.
Qed.

End SingleShot.

(** C7 fails for Claude.  The question built from a prompt of 520000
    characters has an estimate of 130007 tokens, above 128000; [chat] sends
    it all the same and returns the answer.  The OpenAI branch of the same
    method turns the same prompt down without a request. *)
Theorem chat_claude_skips_size_check :
  let claude := Sample.engine "claude" "claude-3-opus-20240229" (AnthropicClient "sk-anthropic") [] in
  let openai := Sample.engine "openai" "gpt-4o" (OpenAIClient "sk-openai") [] in
  outcome_of (num_tokens_from_messages Sample.world [question Sample.long_prompt] None claude)
  = Ret 130007
  /\ outcome_of (chat Sample.world (Some Sample.long_prompt) claude) = Ret (PStr "ok")
  /\ trace_of (chat Sample.world (Some Sample.long_prompt) claude)
     = [Print (AskingQuestion "Claude");
        ClaudeMessagesCreate "claude-3-opus-20240229" 4096 [question Sample.long_prompt];
        Print (Answer "ok")]
  /\ outcome_of (chat Sample.world (Some Sample.long_prompt) openai) = Ret PNone
  /\ trace_of (chat Sample.world (Some Sample.long_prompt) openai) = [Print QuestionTooLarge].
Proof.
  intros claude openai.
  assert (Hne : Sample.long_prompt <> "").
  { intros H.
    assert (Hl : str_len Sample.long_prompt = 520000) by (vm_compute; reflexivity).
    rewrite H in Hl. discriminate Hl. }
  assert (Hc : estimate Sample.world claude [question Sample.long_prompt] = Ret 130007)
    by (vm_compute; reflexivity).
  assert (Ho : estimate Sample.world openai [question Sample.long_prompt] = Ret 520010)
    by (vm_compute; reflexivity).
  rewrite num_tokens_run.
  rewrite (chat_claude_run Sample.world claude "sk-anthropic" Sample.long_prompt Hne eq_refl eq_refl).
  rewrite (chat_openai_rejects_large Sample.world openai (OpenAIClient "sk-openai")
             Sample.long_prompt 520010 Hne eq_refl eq_refl Ho) by lia.
  split; [exact Hc|]. repeat split.
Qed.

(** ** C9, C10: choosing the provider *)

Section ProviderSwitch.
Variable W : World.

Lemma connect_run (package name key_var : string) (mk : string -> sdk_client)
      (self : LLMManager) :
  connect W package name key_var mk self
  = if importable W package then
      match environ W key_var with
      | Some key =>
          match sdk_error W package key with
          | Some e => (Raise e, self, [])
          | None => (Ret tt, set_client (Some (mk key)) self, [])
          end
      | None => (Raise (KeyError key_var), self, [])
      end
    else (Ret tt, set_client None self, [Print (ErrClientUnavailable name)]).
Proof.
  unfold connect.
  destruct (importable W package); [|reflexivity].
  destruct (environ W key_var) as [key|]; [|reflexivity].
  destruct (sdk_error W package key); reflexivity.
Qed.

Lemma assign_model_run (p d : string) (model_arg : option string) (self : LLMManager) :
  _default_model_for_provider p = inr d ->
  assign_model p model_arg self = (Ret tt, set_model_field (py_or model_arg d) self, []).
Proof.
  intros Hd. unfold assign_model, truthy_str, py_or.
  destruct model_arg as [s|]; [destruct (String.eqb s "")|]; cbn [negb];
    try reflexivity; rewrite Hd; reflexivity.
Qed.

Lemma assign_model_unknown (p : string) (model_arg : option string) (self : LLMManager) :
  _default_model_for_provider p = inl (ValueError ("Unknown provider: " ++ p)) ->
  assign_model p model_arg self
  = if truthy_str model_arg
    then (Ret tt, set_model_field (py_or model_arg "") self, [])
    else (Raise (ValueError ("Unknown provider: " ++ p)), self, []).
Proof.
  intros Hd. unfold assign_model.
  destruct (truthy_str model_arg); [reflexivity|].
  rewrite Hd. reflexivity.
Qed.

Lemma default_model_unknown (p : string) :
  p <> "openai" -> p <> "claude" -> p <> "gemini" ->
  _default_model_for_provider p = inl (ValueError ("Unknown provider: " ++ p)).
Proof.
  intros H1 H2 H3. unfold _default_model_for_provider.
  apply String.eqb_neq in H1, H2, H3. rewrite H1, H2, H3. reflexivity.
Qed.

Lemma init_client_unknown (self : LLMManager) :
  provider self <> "openai" -> provider self <> "claude" -> provider self <> "gemini" ->
  _init_client W self
  = (Raise (ValueError ("Unknown provider: " ++ provider self)), self, []).
Proof.
  intros H1 H2 H3. unfold _init_client, bind, get_self.
  apply String.eqb_neq in H1, H2, H3. rewrite H1, H2, H3. reflexivity.
Qed.

(** The run of [_init_client] for a recognized provider. *)
Lemma init_client_recognized (self : LLMManager) :
  In (provider self) ["openai"; "claude"; "gemini"] ->
  exists c,
    _init_client W self
    = (init_outcome W (provider self), set_client c self,
       if importable W (sdk_package (provider self)) then []
       else [Print (ErrClientUnavailable (display_name (provider self)))])
    /\ c = match init_outcome W (provider self) with
           | Ret _ => expected_client W (provider self)
           | _ => client self
           end.
Proof.
  intros Hin. unfold _init_client. rewrite bind_get_self.
  unfold init_outcome, expected_client, sdk_package, key_variable, display_name.
  cbn [In] in Hin.
  destruct Hin as [Hp|[Hp|[Hp|[]]]]; rewrite <- Hp;
    cbn [String.eqb Ascii.eqb Bool.eqb]; rewrite connect_run;
    match goal with |- context [importable W ?pkg] => destruct (importable W pkg) end;
    try (eexists; split; reflexivity);
    match goal with |- context [environ W ?k] => destruct (environ W k) as [key|] end;
    try (exists (client self); split; [destruct self; reflexivity|reflexivity]);
    match goal with |- context [sdk_error W ?pkg ?k] => destruct (sdk_error W pkg k) end;
    try (exists (client self); split; [destruct self; reflexivity|reflexivity]);
    eexists; split; reflexivity.
Qed.

Lemma default_model_recognized (p : string) :
  In p ["openai"; "claude"; "gemini"] ->
  _default_model_for_provider p
  = inr (if String.eqb p "openai" then "gpt-4o"
         else if String.eqb p "claude" then "claude-3-opus-20240229"
         else "gemini-1.5-pro").
Proof.
  cbn [In]. intros [<-|[<-|[<-|[]]]]; reflexivity.
Qed.

(** The run of [set_provider] for a recognized provider. *)
Lemma set_provider_recognized (p : string) (model_arg : option string) (self : LLMManager) :
  In p ["openai"; "claude"; "gemini"] ->
  exists d c,
    _default_model_for_provider p = inr d
    /\ set_provider W p model_arg self
       = (init_outcome W p,
          set_client c (set_model_field (py_or model_arg d) (set_provider_field p self)),
          if importable W (sdk_package p) then []
          else [Print (ErrClientUnavailable (display_name p))])
    /\ c = match init_outcome W p with
           | Ret _ => expected_client W p
           | _ => client self
           end.
Proof.
  intros Hin.
  pose proof (default_model_recognized p Hin) as Hd.
  eexists. 
  destruct (init_client_recognized
              (set_model_field (py_or model_arg
                 (if String.eqb p "openai" then "gpt-4o"
                  else if String.eqb p "claude" then "claude-3-opus-20240229"
                  else "gemini-1.5-pro")) (set_provider_field p self)) Hin)
    as (c & Hrun & Hc).
  exists c. split; [exact Hd|]. split; [|exact Hc].
  unfold set_provider. rewrite bind_modify.
  rewrite (bind_run _ _ _ _ _ _ (assign_model_run p _ model_arg _ Hd)).
  rewrite after_nil. exact Hrun.
Qed.

Lemma set_provider_unknown_run (p : string) (model_arg : option string) (self : LLMManager) :
  p <> "openai" -> p <> "claude" -> p <> "gemini" ->
  set_provider W p model_arg self
  = (Raise (ValueError ("Unknown provider: " ++ p)),
     (if truthy_str model_arg
      then set_model_field (py_or model_arg "") (set_provider_field p self)
      else set_provider_field p self),
     []).
Proof.
  intros H1 H2 H3.
  pose proof (default_model_unknown p H1 H2 H3) as Hd.
  unfold set_provider. unfold bind at 1. unfold modify at 1.
  unfold bind at 1. rewrite (assign_model_unknown p model_arg _ Hd).
  destruct (truthy_str model_arg); [|reflexivity].
  rewrite init_client_unknown by (cbn [provider]; assumption).
  reflexivity.
Qed.

End ProviderSwitch.

Lemma dispatch_history_openai_trace (W : World) (self : LLMManager) (key : string) :
  provider self = "openai" ->
  client self = Some (OpenAIClient key) ->
  trace_of (dispatch_history W self) = [OpenAIChatCreate (model self) (chat_history self)].
Proof.
  intros Hp Hc. unfold dispatch_history. rewrite bind_get_self.
  rewrite Hp, Hc. cbn [String.eqb Ascii.eqb Bool.eqb].
  unfold openai_call, bind, emit, lift_result, ret, trace_of.
  destruct (openai_create W (model self) (chat_history self)); reflexivity.
Qed.

(** C9, as the code has it.  For a recognized provider, [set_provider]
    leaves the history as it was, sets the provider, and sets the model to
    the one given or else to the provider's default: gpt-4o,
    claude-3-opus-20240229 or gemini-1.5-pro.  It returns unless the
    package is there and the API key is missing from the environment
    ([KeyError]) or refused by the SDK's constructor (the SDK's
    exception).  When it returns, the client is the one of the new
    provider (none if the package is missing); when it raises, the old
    client stays in place next to the new provider name.  After a switch
    that has left a client, the next dispatch sends the same history in
    the new provider's shape: as it is to OpenAI, flattened to one string
    per message to Claude, and as the one prompt made of the user turns to
    Gemini. *)
Theorem set_provider_preserves_history :
  forall (W : World) (p : string) (model_arg : option string) (self : LLMManager),
    In p ["openai"; "claude"; "gemini"] ->
    let r := set_provider W p model_arg self in
    chat_history (state_of r) = chat_history self
    /\ provider (state_of r) = p
    /\ (p = "openai" -> model (state_of r) = py_or model_arg "gpt-4o")
    /\ (p = "claude" -> model (state_of r) = py_or model_arg "claude-3-opus-20240229")
    /\ (p = "gemini" -> model (state_of r) = py_or model_arg "gemini-1.5-pro")
    /\ outcome_of r = init_outcome W p
    /\ (outcome_of r = Ret tt -> client (state_of r) = expected_client W p)
    /\ (outcome_of r <> Ret tt -> client (state_of r) = client self)
    /\ (forall (history : list Message) (c : sdk_client),
          chat_history self = map message_to_py history ->
          outcome_of r = Ret tt ->
          client (state_of r) = Some c ->
          let m := model (state_of r) in
          (p = "openai" ->
           trace_of (dispatch_history W (state_of r))
           = [OpenAIChatCreate m (map message_to_py history)])
          /\ (p = "claude" ->
              trace_of (dispatch_history W (state_of r))
              = [ClaudeMessagesCreate m 4096 (map flattened history)])
          /\ (p = "gemini" ->
              trace_of (dispatch_history W (state_of r))
              = [GeminiGenerateContent m
                   (join NL (map (gemini_text W) (filter is_user history)))])).
Proof.
  intros W p model_arg self Hin r.
  destruct (set_provider_recognized W p model_arg self Hin)
    as (d & c & Hd & Hrun & Hc).
  rewrite (default_model_recognized p Hin) in Hd. inversion Hd as [Hd']. clear Hd.
  subst d. unfold r. rewrite Hrun. unfold state_of, outcome_of. cbn [fst snd].
  cbn [chat_history provider model client set_client set_model_field set_provider_field].
  split; [reflexivity|]. split; [reflexivity|].
  split; [intros ->; reflexivity|].
  split; [intros ->; reflexivity|].
  split; [intros ->; reflexivity|].
  split; [reflexivity|].
  split; [intros Ho; rewrite Ho in Hc; exact Hc|].
  split.
  { intros Hne. destruct (init_outcome W p) as [[]| |]; [congruence|exact Hc|exact Hc]. }
  intros history c0 Hh Ho Hcl. cbv zeta.
  rewrite Ho in Hc. subst c.
  unfold expected_client in *.
  split; [|split]; intros Hp; subst p; cbn [String.eqb Ascii.eqb Bool.eqb] in *.
  - destruct (importable W "openai"); [|discriminate].
    destruct (environ W "OPENAI_API_KEY") as [key|]; [|discriminate].
    rewrite (dispatch_history_openai_trace W _ key);
      [cbn [chat_history set_client set_model_field set_provider_field];
       rewrite Hh; reflexivity
      |reflexivity
      |reflexivity].
  - destruct (importable W "anthropic"); [|discriminate].
    destruct (environ W "ANTHROPIC_API_KEY") as [key|]; [|discriminate].
    rewrite (dispatch_history_claude W history _ key);
      [reflexivity
      |reflexivity
      |reflexivity
      |exact Hh].
  - destruct (importable W "google.generativeai"); [|discriminate].
    destruct (environ W "GOOGLE_API_KEY") as [key|]; [|discriminate].
    rewrite (dispatch_history_gemini_trace W history _ key);
      [reflexivity
      |reflexivity
      |reflexivity
      |exact Hh].
Qed.

Lemma set_provider_preserves_history_witness :
  let history := [ {| role := "system"; content := Blocks [Text "Be brief."] |};
                   {| role := "user"; content := Blocks [Text "hi"; Image "http://x/i.jpg" "high"] |};
                   {| role := "assistant"; content := TextBlock "hello" |} ] in
  let self := Sample.engine "openai" "gpt-4o" (OpenAIClient "sk-openai")
                            (map message_to_py history) in
  let r := set_provider Sample.world "claude" None self in
  In "claude" ["openai"; "claude"; "gemini"]
  /\ chat_history (state_of r) = map message_to_py history
  /\ provider (state_of r) = "claude"
  /\ model (state_of r) = "claude-3-opus-20240229"
  /\ outcome_of r = Ret tt
  /\ trace_of (dispatch_history Sample.world (state_of r))
     = [ClaudeMessagesCreate "claude-3-opus-20240229" 4096 (map flattened history)].
Proof.
  intros history self r.
  assert (Hin : In "claude" ["openai"; "claude"; "gemini"]) by (right; left; reflexivity).
  destruct (set_provider_preserves_history Sample.world "claude" None self Hin)
    as (Hh & Hp & _ & Hm & _ & Ho & _ & _ & Hd).
  split; [exact Hin|]. split; [exact Hh|]. split; [exact Hp|].
  split; [exact (Hm eq_refl)|]. split; [exact Ho|].
  exact (proj1 (proj2 (Hd history (AnthropicClient "sk-anthropic") eq_refl Ho eq_refl))
               eq_refl).
Defined.

(** The SDK's constructor at work: with an empty key in the environment
    the switch to OpenAI stops on the exception of the constructor; the
    provider and the model are switched, the old client stays. *)
Lemma refused_key_stops_the_switch :
  let self := Sample.engine "claude" "claude-3-opus-20240229" (AnthropicClient "sk-anthropic")
                            [Sample.system_message] in
  let r := set_provider Fixtures.strict "openai" None self in
  outcome_of r = Raise (ProviderError "The api_key client option must be set")
  /\ provider (state_of r) = "openai"
  /\ model (state_of r) = "gpt-4o"
  /\ client (state_of r) = Some (AnthropicClient "sk-anthropic")
  /\ chat_history (state_of r) = [Sample.system_message].
Proof.
  vm_compute. repeat split; reflexivity.
Qed.

(** C10 at work.  For a provider name outside openai, claude and gemini the
    constructor raises [ValueError] and no object exists; [set_provider]
    raises the same [ValueError], but only after [self.provider] has been
    assigned: the object is left with the unknown provider name (and with
    the model argument, if one was given) next to the old client. *)
Theorem unknown_provider_switch_is_not_undone :
  forall (W : World) (p : string) (model_arg : option string) (self : LLMManager)
         (system_prompt : option pyval) (backup : option string),
    p <> "openai" -> p <> "claude" -> p <> "gemini" ->
    fst (__init__ W system_prompt backup p model_arg)
    = Raise (ValueError ("Unknown provider: " ++ p))
    /\ outcome_of (set_provider W p model_arg self)
       = Raise (ValueError ("Unknown provider: " ++ p))
    /\ provider (state_of (set_provider W p model_arg self)) = p
    /\ model (state_of (set_provider W p model_arg self)) = py_or model_arg (model self)
    /\ client (state_of (set_provider W p model_arg self)) = client self
    /\ chat_history (state_of (set_provider W p model_arg self)) = chat_history self.
Proof.
  intros W p model_arg self system_prompt backup H1 H2 H3.
  pose proof (default_model_unknown p H1 H2 H3) as Hd.
  split.
  - unfold __init__, init_body. unfold bind at 1. unfold modify at 1.
    unfold bind at 1. rewrite (assign_model_unknown p model_arg _ Hd).
    destruct (truthy_str model_arg); [|reflexivity].
    unfold bind at 1. unfold modify at 1. unfold bind at 1.
    rewrite init_client_unknown by (cbn [provider]; assumption).
    reflexivity.
  - rewrite (set_provider_unknown_run W p model_arg self H1 H2 H3).
    unfold outcome_of, state_of. cbn [fst snd].
    unfold truthy_str, py_or.
    destruct model_arg as [s|]; [destruct (String.eqb s "")|]; cbn [negb];
      repeat split; reflexivity.
Qed.

Lemma unknown_provider_switch_is_not_undone_witness :
  let self := Sample.engine "openai" "gpt-4o" (OpenAIClient "sk-openai") [] in
  let r := set_provider Sample.world "mistral" None self in
  outcome_of r = Raise (ValueError "Unknown provider: mistral")
  /\ provider self = "openai"
  /\ provider (state_of r) = "mistral"
  /\ client (state_of r) = Some (OpenAIClient "sk-openai")
  /\ outcome_of (chat Sample.world (Some "hi") (state_of r))
     = Raise (ValueError "Unknown provider: mistral").
Proof.
  intros self r.
  assert (H1 : "mistral" <> "openai") by discriminate.
  assert (H2 : "mistral" <> "claude") by discriminate.
  assert (H3 : "mistral" <> "gemini") by discriminate.
  destruct (unknown_provider_switch_is_not_undone Sample.world "mistral" None self None None
              H1 H2 H3) as (_ & Ho & Hp & _ & Hc & _).
  split; [exact Ho|]. split; [reflexivity|]. split; [exact Hp|]. split; [exact Hc|].
  reflexivity.
Defined.

(** * Further properties of the code *)

(** ** The estimate of a concatenation *)

Section Additivity.
Variable enc : encoder.

Lemma count_block_items_shift (items : list (string * pyval)) :
  forall acc d, count_block_items enc items (acc + d)
                = option_map (fun n => n + d) (count_block_items enc items acc).
Proof.
  induction items as [|[k v] rest IH]; intros acc d; cbn [count_block_items].
  - reflexivity.
  - destruct (String.eqb k "type").
    { destruct (encoded_len enc v); [|reflexivity]. rewrite <- IH. f_equal. lia. }
    destruct (String.eqb k "text").
    { destruct (encoded_len enc v); [|reflexivity]. rewrite <- IH. f_equal. lia. }
    destruct (String.eqb k "image_url").
    { rewrite <- IH. f_equal. lia. }
    apply IH.
Qed.

Lemma count_content_list_shift (value : list pyval) :
  forall acc d, count_content_list enc value (acc + d)
                = option_map (fun n => n + d) (count_content_list enc value acc).
Proof.
  induction value as [|v rest IH]; intros acc d; cbn [count_content_list].
  - reflexivity.
  - destruct v as [| | |items]; try reflexivity.
    rewrite count_block_items_shift.
    destruct (count_block_items enc items acc) as [k|]; cbn [option_map]; [apply IH|reflexivity].
Qed.

Lemma count_content_shift (value : pyval) (acc d : Z) :
  count_content enc value (acc + d)
  = option_map (fun n => n + d) (count_content enc value acc).
Proof.
  destruct value as [|s|l|dct]; cbn [count_content option_map]; try reflexivity.
  - destruct (encoded_len enc (PStr s)); cbn [option_map]; [f_equal; lia|reflexivity].
  - apply count_content_list_shift.
  - destruct dct; reflexivity.
Qed.

Lemma count_message_items_shift (items : list (string * pyval)) :
  forall acc d, count_message_items enc items (acc + d)
                = option_map (fun n => n + d) (count_message_items enc items acc).
Proof.
  induction items as [|[k v] rest IH]; intros acc d; cbn [count_message_items].
  - reflexivity.
  - destruct (String.eqb k "role").
    { destruct (encoded_len enc v); [|reflexivity]. rewrite <- IH. f_equal. lia. }
    destruct (String.eqb k "content").
    { rewrite count_content_shift.
      destruct (count_content enc v acc) as [c|]; cbn [option_map]; [apply IH|reflexivity]. }
    apply IH.
Qed.

Lemma count_messages_shift (messages : list pyval) :
  forall acc d, count_messages enc messages (acc + d)
                = option_map (fun n => n + d) (count_messages enc messages acc).
Proof.
  induction messages as [|m rest IH]; intros acc d; cbn [count_messages].
  - reflexivity.
  - destruct m as [| | |items]; try reflexivity.
    replace (acc + d + 4) with (acc + 4 + d) by lia.
    rewrite count_message_items_shift.
    destruct (count_message_items enc items (acc + 4)) as [k|]; cbn [option_map];
      [apply IH|reflexivity].
Qed.

Lemma count_tokens_app (a b : list pyval) :
  count_tokens enc (a ++ b)
  = match count_tokens enc a, count_tokens enc b with
    | Some na, Some nb => Some (na + nb - 2)
    | _, _ => None
    end.
Proof.
  unfold count_tokens. rewrite count_messages_app.
  destruct (count_messages enc a 0) as [na|]; [|reflexivity].
  replace na with (0 + na) at 1 by lia. rewrite count_messages_shift.
  destruct (count_messages enc b 0) as [nb|]; cbn [option_map]; [|reflexivity].
  f_equal. lia.
Qed.

Lemma count_tokens_ge_2 (messages : list pyval) (n : Z) :
  count_tokens enc messages = Some n -> 2 <= n.
Proof.
  unfold count_tokens.
  destruct (count_messages enc messages 0) as [k|] eqn:Hk; [|discriminate].
  intros H. inversion H. apply count_messages_ge in Hk. lia.
Qed.

End Additivity.

Section EstimateAlgebra.
Variable W : World.

Lemma rough_estimate_app (a b : list pyval) :
  rough_estimate W (a ++ b) = rough_estimate W a + rough_estimate W b.
Proof.
  induction a as [|m a IH]; cbn [app rough_estimate]; [lia|]. rewrite IH. lia.
Qed.

Lemma rough_estimate_nonneg (a : list pyval) : 0 <= rough_estimate W a.
Proof.
  induction a as [|m a IH]; cbn [rough_estimate]; [lia|].
  assert (0 <= str_len (py_str W m) / 4); [|lia].
  apply Z.div_pos; [unfold str_len; lia|lia].
Qed.

Lemma estimate_app (self : LLMManager) (a b : list pyval) :
  estimate W self (a ++ b)
  = match estimate W self a with
    | Ret na =>
        match estimate W self b with
        | Ret nb => Ret (na + nb - empty_estimate self)
        | other => other
        end
    | other => other
    end.
Proof.
  unfold estimate, empty_estimate.
  destruct (String.eqb (provider self) "openai").
  - destruct (active_encoder W self) as [enc|]; [|reflexivity].
    rewrite count_tokens_app.
    destruct (count_tokens enc a); [|reflexivity].
    destruct (count_tokens enc b); reflexivity.
  - rewrite rough_estimate_app. f_equal. lia.
Qed.

Lemma estimate_at_least_empty (self : LLMManager) (a : list pyval) (n : Z) :
  estimate W self a = Ret n -> empty_estimate self <= n.
Proof.
  unfold estimate, empty_estimate.
  destruct (String.eqb (provider self) "openai").
  - destruct (active_encoder W self) as [enc|]; [|discriminate].
    destruct (count_tokens enc a) as [k|] eqn:Hk; [|discriminate].
    intros H; inversion H; subst. apply (count_tokens_ge_2 enc a), Hk.
  - intros H; inversion H. apply rough_estimate_nonneg.
Qed.

(** X1.  The estimate of a concatenation is the sum of the estimates of
    the parts, less the estimate of the empty sequence (2 for OpenAI, 0
    otherwise); it exists exactly when both parts have one. *)
Theorem estimate_of_concatenation :
  forall (self : LLMManager) (a b : list pyval) (n : Z),
    outcome_of (num_tokens_from_messages W (a ++ b) None self) = Ret n
    <-> exists na nb,
          outcome_of (num_tokens_from_messages W a None self) = Ret na
          /\ outcome_of (num_tokens_from_messages W b None self) = Ret nb
          /\ n = na + nb - empty_estimate self.
Proof.
  intros self a b n. rewrite !num_tokens_run. unfold outcome_of; cbn [fst].
  rewrite estimate_app. split.
  - destruct (estimate W self a) as [na|e|]; try discriminate.
    destruct (estimate W self b) as [nb|e|]; try discriminate.
    intros H; inversion H. exists na, nb. repeat split.
  - intros (na & nb & Ha & Hb & Hn). rewrite Ha, Hb, Hn. reflexivity.
Qed.

End EstimateAlgebra.

(** ** What the truncation loop keeps *)

Section Eviction.
Variable W : World.
Variable budget : Z.

Lemma truncate_loop_minimal (fuel : nat) :
  forall (self : LLMManager) (h0 : pyval) (rest : list pyval),
    chat_history self = h0 :: rest ->
    outcome_of (truncate_loop W budget fuel self) = Ret tt ->
    exists k,
      chat_history (state_of (truncate_loop W budget fuel self)) = h0 :: skipn k rest
      /\ (exists n, estimate W self (h0 :: skipn k rest) = Ret n /\ n <= budget)
      /\ (forall j, (j < k)%nat ->
                    exists nj, estimate W self (h0 :: skipn j rest) = Ret nj /\ nj > budget).
Proof.
  induction fuel as [|fuel IH]; intros self h0 rest Hh Hret; [discriminate|].
  rewrite truncate_loop_S in *.
  destruct (estimate W self (chat_history self)) as [n|e|] eqn:Hest; try discriminate.
  destruct (n >? budget) eqn:Hcmp.
  - destruct (pop 1 (chat_history self)) as [[y remaining]|] eqn:Hpop; [|discriminate].
    apply pop_1_some in Hpop. destruct Hpop as (x & rest' & Hl & Hr).
    rewrite Hh in Hl. inversion Hl; subst x rest remaining.
    assert (Hnext : chat_history (set_chat_history (h0 :: rest') (warm W self)) = h0 :: rest')
      by reflexivity.
    cbn zeta in *.
    assert (Hstep : forall r : outcome unit * LLMManager * list event,
               r = truncate_loop W budget fuel (set_chat_history (h0 :: rest') (warm W self)) ->
               outcome_of r = Ret tt ->
               exists k,
                 chat_history (state_of r) = h0 :: skipn k (y :: rest')
                 /\ (exists n0, estimate W self (h0 :: skipn k (y :: rest')) = Ret n0 /\ n0 <= budget)
                 /\ (forall j, (j < k)%nat ->
                       exists nj, estimate W self (h0 :: skipn j (y :: rest')) = Ret nj
                                  /\ nj > budget)).
    { intros r Hr Ho. subst r.
      destruct (IH _ _ _ Hnext Ho) as (k & Hk & Hfit & Hmin).
      rewrite !estimate_set_history in *.
      exists (S k). split; [exact Hk|]. split.
      - destruct Hfit as (n0 & Hn0 & Hle). exists n0. rewrite estimate_warm in Hn0.
        split; assumption.
      - intros [|j] Hj.
        + exists n. rewrite Hh in Hest. split; [exact Hest|]. apply Z.gtb_lt in Hcmp. lia.
        + destruct (Hmin j) as (nj & Hnj & Hgt); [lia|].
          rewrite estimate_set_history, estimate_warm in Hnj. exists nj. split; assumption. }
    destruct (logging self).
    + destruct (estimate W self (h0 :: rest')) as [n'|e'|]; try discriminate.
      apply (Hstep _ eq_refl). exact Hret.
    + apply (Hstep _ eq_refl). exact Hret.
  - exists 0%nat. unfold state_of; cbn [fst snd skipn]. rewrite warm_history.
    split; [exact Hh|]. split.
    + exists n. rewrite Hh in Hest. split; [exact Hest|].
      destruct (Z.gtb_spec n budget); [discriminate|lia].
    + intros j Hj. lia.
Qed.

(** X2.  When the truncation loop returns, it has evicted the shortest
    run of messages after the first that brings the estimate within the
    budget: the history is [h0 :: skipn k rest], its estimate is at most
    the budget, and for every [j < k] the estimate of [h0 :: skipn j rest]
    exceeds it.  A history already within the budget is left as it is. *)
Theorem truncation_evicts_no_more_than_needed :
  forall (fuel : nat) (self : LLMManager) (h0 : pyval) (rest : list pyval),
    chat_history self = h0 :: rest ->
    outcome_of (truncate_loop W budget fuel self) = Ret tt ->
    (exists k,
        chat_history (state_of (truncate_loop W budget fuel self)) = h0 :: skipn k rest
        /\ (exists n, estimate W self (h0 :: skipn k rest) = Ret n /\ n <= budget)
        /\ (forall j, (j < k)%nat ->
              exists nj, estimate W self (h0 :: skipn j rest) = Ret nj /\ nj > budget))
    /\ (forall n, estimate W self (h0 :: rest) = Ret n -> n <= budget ->
                  chat_history (state_of (truncate_loop W budget fuel self)) = h0 :: rest).
Proof.
  intros fuel self h0 rest Hh Hret.
  destruct (truncate_loop_minimal fuel self h0 rest Hh Hret) as (k & Hk & Hfit & Hmin).
  split.
  - exists k. repeat split; assumption.
  - intros n Hn Hle. destruct k as [|k]; [exact Hk|].
    destruct (Hmin 0%nat) as (n0 & Hn0 & Hgt); [lia|].
    cbn [skipn] in Hn0. rewrite Hn in Hn0. inversion Hn0. lia.
Qed.

Lemma truncate_loop_outcome (fuel : nat) (self : LLMManager) (h0 : pyval)
      (rest : list pyval) (n : Z) :
  chat_history self = h0 :: rest ->
  estimate W self (h0 :: rest) = Ret n ->
  (length (h0 :: rest) < fuel)%nat ->
  exists n0 k nf,
    estimate W self [h0] = Ret n0
    /\ chat_history (state_of (truncate_loop W budget fuel self)) = h0 :: skipn k rest
    /\ estimate W self (h0 :: skipn k rest) = Ret nf
    /\ n0 <= nf
    /\ ((n0 > budget /\ outcome_of (truncate_loop W budget fuel self) = Raise IndexError)
        \/ (n0 <= budget /\ outcome_of (truncate_loop W budget fuel self) = Ret tt
            /\ nf <= budget)).
Proof.
  intros Hh Hest Hfuel.
  change (h0 :: rest) with ([h0] ++ rest)%list in Hest.
  rewrite estimate_app in Hest.
  destruct (estimate W self [h0]) as [n0|e|] eqn:E0; try discriminate.
  destruct (estimate W self rest) as [nr|e|] eqn:Er; try discriminate.
  assert (Hsub : forall k, exists nf,
             estimate W self (h0 :: skipn k rest) = Ret nf /\ n0 <= nf).
  { intros k. rewrite <- (firstn_skipn k rest) in Er.
    rewrite estimate_app in Er.
    destruct (estimate W self (firstn k rest)) as [n1|e|]; try discriminate.
    destruct (estimate W self (skipn k rest)) as [nk|e|] eqn:Ek; try discriminate.
    exists (n0 + nk - empty_estimate self).
    change (h0 :: skipn k rest) with ([h0] ++ skipn k rest)%list.
    rewrite estimate_app, E0, Ek. split; [reflexivity|].
    pose proof (estimate_at_least_empty W self _ _ Ek). lia. }
  assert (Hlen : (length (chat_history self) < fuel)%nat) by (rewrite Hh; exact Hfuel).
  pose proof (truncate_loop_ends W budget fuel self Hlen) as Hend.
  destruct (truncate_loop_suffix W budget fuel self h0 rest Hh) as [k Hk].
  destruct (Hsub k) as (nf & Hnf & Hle).
  exists n0, k, nf.
  split; [reflexivity|]. split; [exact Hk|]. split; [exact Hnf|]. split; [exact Hle|].
  unfold loop_end in Hend. rewrite Hk in Hend.
  destruct (outcome_of (truncate_loop W budget fuel self)) as [[]|e|].
  - destruct Hend as (n' & Hn' & Hfit). rewrite Hnf in Hn'. inversion Hn'; subst n'.
    right. repeat split; lia.
  - destruct e; try (rewrite Hnf in Hend; discriminate).
    destruct Hend as (Hshort & n' & Hn' & Hgt).
    destruct (skipn k rest) as [|z l] eqn:Hs; [|cbn [length] in Hshort; lia].
    rewrite E0 in Hn'. inversion Hn'; subst n'.
    left. split; [lia|reflexivity].
  - contradiction.
Qed.

(** X3.  For a non-empty history whose estimate exists, the loop ends in
    [IndexError] exactly when the first message alone is over the budget;
    otherwise it returns. *)
Theorem truncation_fails_iff_first_message_too_large :
  forall (fuel : nat) (self : LLMManager) (h0 : pyval) (rest : list pyval) (n : Z),
    chat_history self = h0 :: rest ->
    estimate W self (h0 :: rest) = Ret n ->
    (length (h0 :: rest) < fuel)%nat ->
    exists n0,
      estimate W self [h0] = Ret n0
      /\ (outcome_of (truncate_loop W budget fuel self) = Raise IndexError <-> n0 > budget)
      /\ (outcome_of (truncate_loop W budget fuel self) = Ret tt <-> n0 <= budget).
Proof.
  intros fuel self h0 rest n Hh Hest Hfuel.
  destruct (truncate_loop_outcome fuel self h0 rest n Hh Hest Hfuel)
    as (n0 & k & nf & E0 & _ & _ & _ & Hcase).
  exists n0. split; [exact E0|].
  destruct Hcase as [[Hgt Ho]|(Hfit & Ho & _)]; rewrite Ho;
    split; split; intros H; try discriminate; try reflexivity; lia.
Qed.

End Eviction.

(** ** C2: the end of the truncation loop *)

Section ExhaustedHistory.
Variable W : World.

(** C2, as the code has it.  With fuel for more iterations than the
    history has messages, the truncation loop of [chat_with_history] comes
    to an end; it ends in [IndexError] (raised by [pop(1)]) exactly when
    fewer than two messages are left and their estimate still exceeds
    128000.  In particular [chat_with_history], called without a new
    prompt on a history that consists of one message whose estimate
    exceeds 128000, raises [IndexError], sends no request and leaves that
    message in place.  And for a history [h0 :: rest] whose estimate
    exists, the first message decides: when [h0] alone exceeds 128000 the
    loop raises [IndexError], whatever follows; when it does not, the loop
    returns with [h0 :: skipn k rest] within the budget, so that a message
    over the budget at a later index has been evicted without an error. *)
Theorem exhausted_history_raises :
  forall (fuel : nat) (self : LLMManager),
    (length (chat_history self) < fuel)%nat ->
    let r := truncate_loop W 128000 fuel self in
    outcome_of r <> Diverge
    /\ (outcome_of r = Raise IndexError <->
        (length (chat_history (state_of r)) < 2)%nat
        /\ exists n, estimate W self (chat_history (state_of r)) = Ret n /\ n > 128000)
    /\ (forall (m : pyval) (n : Z) (image_path : string) (local_image : bool),
          chat_history self = [m] ->
          estimate W self [m] = Ret n ->
          n > 128000 ->
          let r' := chat_with_history W fuel None image_path local_image self in
          outcome_of r' = Raise IndexError
          /\ existsb is_dispatch (trace_of r') = false
          /\ chat_history (state_of r') = [m])
    /\ (forall (h0 : pyval) (rest : list pyval) (n : Z),
          chat_history self = h0 :: rest ->
          estimate W self (h0 :: rest) = Ret n ->
          exists n0,
            estimate W self [h0] = Ret n0
            /\ (n0 > 128000 -> outcome_of r = Raise IndexError)
            /\ (n0 <= 128000 ->
                outcome_of r = Ret tt
                /\ exists k nk,
                     chat_history (state_of r) = h0 :: skipn k rest
                     /\ estimate W self (h0 :: skipn k rest) = Ret nk
                     /\ nk <= 128000)).
Proof.
  intros fuel self Hlen r.
  pose proof (truncate_loop_ends W 128000 fuel self Hlen) as Hend.
  fold r in Hend. unfold loop_end in Hend.
  split; [|split; [|split]].
  - intros Hd. rewrite Hd in Hend. exact Hend.
  - split.
    + intros Hr. rewrite Hr in Hend. exact Hend.
    + intros (Hshort & n & Hn & Hgt).
      destruct (outcome_of r) as [u|e|].
      * destruct Hend as (k & Hk & Hle). rewrite Hn in Hk. inversion Hk. lia.
      * destruct e; try reflexivity; rewrite Hn in Hend; discriminate.
      * contradiction.
  - intros m n image_path local_image Hh Hest Hgt r'.
    unfold r'. rewrite chat_with_history_no_prompt.
    rewrite (exchange_exhausted W fuel self m n Hh Hest Hgt) by lia.
    unfold outcome_of, trace_of, state_of. cbn [fst snd].
    rewrite warm_history.
    repeat split; [|exact Hh].
    destruct (logging self); reflexivity.
  - intros h0 rest n Hh Hest.
    assert (Hfuel : (length (h0 :: rest) < fuel)%nat) by (rewrite <- Hh; exact Hlen).
    destruct (truncate_loop_outcome W 128000 fuel self h0 rest n Hh Hest Hfuel)
      as (n0 & k & nf & E0 & Hk & Hnf & Hle & Hcase).
    fold r in Hk, Hcase.
    exists n0. split; [exact E0|]. split.
    + intros Hgt. destruct Hcase as [[_ Ho]|[Hfit _]]; [exact Ho|lia].
    + intros Hfit. destruct Hcase as [[Hgt _]|(_ & Ho & Hnk)]; [lia|].
      split; [exact Ho|]. exists k, nf. repeat split; assumption.
Qed.

End ExhaustedHistory.


(** A history with one message over the budget at index 0 and fuel for
    two iterations. *)
Lemma exhausted_history_raises_witness :
  let self := Sample.engine "openai" "gpt-4o" (OpenAIClient "sk-openai")
                            [Sample.oversized_message] in
  (length (chat_history self) < 2)%nat
  /\ outcome_of (truncate_loop Sample.world 128000 2 self) = Raise IndexError
  /\ outcome_of (chat_with_history Sample.world 2 None "" true self) = Raise IndexError.
Proof.
  intros self.
  assert (Hlen : (length (chat_history self) < 2)%nat) by (simpl; lia).
  destruct (exhausted_history_raises Sample.world 2 self Hlen) as (_ & Hiff & Hsingle & _).
  split; [exact Hlen|]. split.
  - apply Hiff. split; [vm_compute; lia|].
    exists 129242. split; [vm_compute; reflexivity|lia].
  - apply (Hsingle Sample.oversized_message 129242 "" true);
      [reflexivity|vm_compute; reflexivity|lia].
Defined.

(** C2 as stated fails.  The history [[system; oversized]] contains a
    message whose estimate alone (129242) exceeds 128000, and removing the
    element at index 1 would leave fewer than two elements; yet
    [chat_with_history] raises nothing: the loop evicts the oversized turn
    and the request is sent with the system message only. *)
Lemma oversized_turn_is_evicted_without_error :
  let self := Sample.engine "openai" "gpt-4o" (OpenAIClient "sk-openai")
                            [Sample.system_message; Sample.oversized_message] in
  let r := chat_with_history Sample.world 3 None "" true self in
  estimate Sample.world self [Sample.oversized_message] = Ret 129242
  /\ estimate Sample.world self (chat_history self) = Ret 129265
  /\ outcome_of r = Ret (PStr "ok")
  /\ trace_of r = [Print (HistoryTokenLength 129265); Print (PoppedMessage 25);
                   Print (AskingQuestion "openai");
                   OpenAIChatCreate "gpt-4o" [Sample.system_message];
                   Print (Answer "ok")]
  /\ chat_history (state_of r)
     = [Sample.system_message; PDict [("role", PStr "assistant"); ("content", PStr "ok")]].
Proof.
  vm_compute. repeat split; reflexivity.
Qed.

(** ** Running [chat_with_history] *)


Section History.
Variable W : World.

Lemma append_user_turn_run (prompt image_path : string) (local_image : bool)
      (self : LLMManager) :
  prompt <> "" ->
  append_user_turn W (Some prompt) image_path local_image self
  = match attachment W image_path local_image with
    | Some image =>
        (Ret true,
         set_chat_history (chat_history self ++ [message_to_py (user_turn prompt image)]) self,
         [])
    | None => (Ret false, self, [Print ErrImageEncode])
    end.
Proof.
  intros Hne. destruct (truthy_nonempty prompt Hne) as [Ht Hor].
  unfold append_user_turn, attachment, image_url. rewrite Ht, Hor.
  destruct (String.eqb image_path ""); cbn [negb].
  - unfold append_message. rewrite bind_modify. reflexivity.
  - destruct local_image.
    + destruct (read_image_base64 W image_path); cbn [option_map].
      * unfold append_message. rewrite bind_modify. reflexivity.
      * reflexivity.
    + unfold append_message. rewrite bind_modify. reflexivity.
Qed.

Lemma chat_with_history_run (fuel : nat) (prompt image_path : string) (local_image : bool)
      (self : LLMManager) :
  prompt <> "" ->
  chat_with_history W fuel (Some prompt) image_path local_image self
  = match attachment W image_path local_image with
    | Some image =>
        exchange W fuel
          (set_chat_history (chat_history self ++ [message_to_py (user_turn prompt image)]) self)
    | None => (Ret PNone, self, [Print ErrImageEncode])
    end.
Proof.
  intros Hne. unfold chat_with_history.
  pose proof (append_user_turn_run prompt image_path local_image self Hne) as Hrun.
  destruct (attachment W image_path local_image) as [image|].
  - rewrite (bind_run _ _ _ _ _ _ Hrun). cbn [negb]. apply after_nil.
  - rewrite (bind_run _ _ _ _ _ _ Hrun). reflexivity.
Qed.

Lemma truncate_loop_within_budget (budget : Z) (fuel : nat) (self : LLMManager) (n : Z) :
  estimate W self (chat_history self) = Ret n ->
  n <= budget ->
  truncate_loop W budget (S fuel) self = (Ret tt, warm W self, []).
Proof.
  intros Hest Hle. rewrite truncate_loop_S, Hest.
  destruct (Z.gtb_spec n budget); [lia|reflexivity].
Qed.

Lemma render_recognized (before p after : string) :
  In p ["openai"; "claude"; "gemini"] -> render_error W before p after = None.
Proof.
  cbn [In]. intros [<-|[<-|[<-|[]]]]; reflexivity.
Qed.

(** The part of [exchange] after the dispatch. *)
Lemma exchange_within_budget (fuel : nat) (self : LLMManager) (n : Z) :
  In (provider self) ["openai"; "claude"; "gemini"] ->
  estimate W self (chat_history self) = Ret n ->
  n <= 128000 ->
  (0 < fuel)%nat ->
  exchange W fuel self
  = after (preamble self n)
      (bind (dispatch_history W)
         (fun reply =>
            match reply with
            | None => ret PNone
            | Some (r, c) =>
                append_message (PDict [("role", PStr r); ("content", c)]) ;;
                save_chat_to_backup W ;;
                (if logging self
                 then print_markup W ("[green]" ++ NL) (py_str W c) NL (Answer (py_str W c))
                 else ret tt) ;;
                ret c
            end)
         (warm W self)).
Proof.
  intros Hin Hest Hle Hfuel. destruct fuel as [|fuel]; [lia|].
  unfold exchange, preamble. rewrite bind_get_self.
  destruct (logging self) eqn:Hlog.
  - assert (Hlogrun :
              (k <- num_tokens_from_messages W (chat_history self) None ;;
               print (HistoryTokenLength k)) self
              = (Ret tt, warm W self, [Print (HistoryTokenLength n)])).
    { unfold bind. rewrite num_tokens_run, Hest. reflexivity. }
    rewrite (bind_run _ _ _ _ _ _ Hlogrun).
    assert (Hloop : truncate_loop W 128000 (S fuel) (warm W self)
                    = (Ret tt, warm W self, [])).
    { rewrite (truncate_loop_within_budget 128000 fuel (warm W self) n);
        [rewrite warm_idem; reflexivity
        |rewrite warm_history, estimate_warm; exact Hest|exact Hle]. }
    rewrite (bind_run _ _ _ _ _ _ Hloop).
    assert (Hask : print_markup W ("[yellow]" ++ NL ++ "Asking ") (provider self)
                     " a question..." (AskingQuestion (provider self)) (warm W self)
                   = (Ret tt, warm W self, [Print (AskingQuestion (provider self))])).
    { unfold print_markup. rewrite (render_recognized _ _ _ Hin). reflexivity. }
    rewrite (bind_run _ _ _ _ _ _ Hask).
    rewrite !after_after. reflexivity.
  - rewrite bind_ret_l.
    rewrite (bind_run _ _ _ _ _ _ (truncate_loop_within_budget 128000 fuel self n Hest Hle)).
    rewrite bind_ret_l. rewrite !after_nil. reflexivity.
Qed.

Lemma exchange_estimator_raises (fuel : nat) (self : LLMManager) (e : exn) :
  estimate W self (chat_history self) = Raise e ->
  (0 < fuel)%nat ->
  exchange W fuel self = (Raise e, warm W self, []).
Proof.
  intros Hest Hfuel. destruct fuel as [|fuel]; [lia|].
  unfold exchange. rewrite bind_get_self.
  destruct (logging self) eqn:Hlog.
  - assert (Hlogrun :
              (k <- num_tokens_from_messages W (chat_history self) None ;;
               print (HistoryTokenLength k)) self
              = (Raise e, warm W self, [])).
    { unfold bind. rewrite num_tokens_run, Hest. reflexivity. }
    rewrite (bind_raises _ _ _ _ _ _ Hlogrun). reflexivity.
  - rewrite bind_ret_l.
    assert (Hloop : truncate_loop W 128000 (S fuel) self = (Raise e, warm W self, []))
      by (rewrite truncate_loop_S, Hest; reflexivity).
    rewrite (bind_raises _ _ _ _ _ _ Hloop). reflexivity.
Qed.

End History.

Section Exchanges.
Variable W : World.

Lemma warm_client_eq self : client (warm W self) = client self.
Proof. unfold warm; destruct (String.eqb _ _); reflexivity. Qed.

Lemma warm_backup_eq self : chat_history_backup (warm W self) = chat_history_backup self.
Proof. unfold warm; destruct (String.eqb _ _); reflexivity. Qed.

Lemma dispatch_history_openai (self : LLMManager) (key : string) :
  provider self = "openai" ->
  client self = Some (OpenAIClient key) ->
  dispatch_history W self
  = (match openai_create W (model self) (chat_history self) with
     | inl e => Raise e
     | inr completion => Ret (Some completion)
     end,
     self,
     [OpenAIChatCreate (model self) (chat_history self)]).
Proof.
  intros Hp Hc. unfold dispatch_history. rewrite bind_get_self.
  rewrite Hp, Hc. cbn [String.eqb Ascii.eqb Bool.eqb].
  unfold openai_call, bind, emit, lift_result.
  destruct (openai_create W (model self) (chat_history self)); reflexivity.
Qed.

Lemma dispatch_history_no_client (self : LLMManager) :
  In (provider self) ["openai"; "claude"; "gemini"] ->
  client self = None ->
  exists name,
    dispatch_history W self = (Ret None, self, [Print (ErrClientNotInitialized name)])
    /\ name = display_name (provider self).
Proof.
  intros Hin Hc. unfold dispatch_history. rewrite bind_get_self. rewrite Hc.
  cbn [In] in Hin.
  destruct Hin as [<-|[<-|[<-|[]]]]; cbn [String.eqb Ascii.eqb Bool.eqb];
    eexists; split; reflexivity.
Qed.

Lemma save_chat_to_backup_run (s : LLMManager) :
  save_chat_to_backup W s
  = (match backup_failure W s (chat_history s) with
     | Some e => Raise e
     | None => Ret tt
     end, s, backup_events s (chat_history s)).
Proof.
  unfold save_chat_to_backup, backup_failure, backup_events.
  rewrite bind_get_self.
  destruct (truthy_str (chat_history_backup s)); [|reflexivity].
  unfold bind, emit, raise, ret.
  destruct (backup_error W (py_or (chat_history_backup s) "") (chat_history s));
    reflexivity.
Qed.

(** Lines 272-276 in a state with history [h]. *)
Lemma record_reply_run (logs : bool) (s : LLMManager) (r : string) (c : pyval) :
  logs = logging s ->
  (append_message (PDict [("role", PStr r); ("content", c)]) ;;
   save_chat_to_backup W ;;
   (if logs
    then print_markup W ("[green]" ++ NL) (py_str W c) NL (Answer (py_str W c))
    else ret tt) ;;
   ret c) s
  = match backup_failure W s (chat_history s ++ [reply_entry r c]) with
    | Some e =>
        (Raise e, set_chat_history (chat_history s ++ [reply_entry r c]) s,
         backup_events s (chat_history s ++ [reply_entry r c]))
    | None =>
        answered W (set_chat_history (chat_history s ++ [reply_entry r c]) s)
                 (backup_events s (chat_history s ++ [reply_entry r c])) c
    end.
Proof.
  intros ->. unfold append_message. rewrite bind_modify. fold (reply_entry r c).
  pose proof (save_chat_to_backup_run
                (set_chat_history (chat_history s ++ [reply_entry r c]) s)) as Hsave.
  cbn [chat_history set_chat_history] in Hsave.
  change (backup_failure W (set_chat_history (chat_history s ++ [reply_entry r c]) s))
    with (backup_failure W s) in Hsave.
  change (backup_events (set_chat_history (chat_history s ++ [reply_entry r c]) s))
    with (backup_events s) in Hsave.
  destruct (backup_failure W s (chat_history s ++ [reply_entry r c])) as [e|].
  - rewrite (bind_raises _ _ _ _ _ _ Hsave). reflexivity.
  - rewrite (bind_run _ _ _ _ _ _ Hsave).
    unfold answered, print_markup. cbn [logging set_chat_history].
    destruct (logging s).
    + destruct (render_error W ("[green]" ++ NL) (py_str W c) NL);
        unfold bind, raise, print, emit, ret, after, outcome_of, state_of, trace_of;
        cbn [fst snd]; rewrite ?app_nil_r; reflexivity.
    + unfold bind, raise, print, emit, ret, after, outcome_of, state_of, trace_of;
        cbn [fst snd]; rewrite ?app_nil_r; reflexivity.
Qed.

Lemma exchange_openai_run (fuel : nat) (self : LLMManager) (key prompt image_path : string)
      (local_image : bool) (image : option string) (n : Z) (r : string) (c : pyval) :
  prompt <> "" ->
  attachment W image_path local_image = Some image ->
  provider self = "openai" ->
  client self = Some (OpenAIClient key) ->
  estimate W self (chat_history self ++ [message_to_py (user_turn prompt image)]) = Ret n ->
  n <= 128000 ->
  openai_create W (model self) (chat_history self ++ [message_to_py (user_turn prompt image)])
  = inr (r, c) ->
  (0 < fuel)%nat ->
  let sent := (chat_history self ++ [message_to_py (user_turn prompt image)])%list in
  let recorded := (sent ++ [reply_entry r c])%list in
  let s' := set_chat_history recorded (warm W self) in
  let events := (preamble self n ++ [OpenAIChatCreate (model self) sent]
                 ++ backup_events self recorded)%list in
  chat_with_history W fuel (Some prompt) image_path local_image self
  = match backup_failure W self recorded with
    | Some e => (Raise e, s', events)
    | None => answered W s' events c
    end.
Proof.
  intros Hne Hatt Hp Hc Hest Hle Hreply Hfuel sent recorded s' events.
  rewrite (chat_with_history_run W fuel prompt image_path local_image self Hne), Hatt.
  fold sent in Hest, Hreply |- *.
  rewrite (exchange_within_budget W fuel (set_chat_history sent self) n);
    [|cbn [provider set_chat_history]; rewrite Hp; left; reflexivity
     |exact Hest|exact Hle|exact Hfuel].
  rewrite warm_set_history.
  assert (Hd : dispatch_history W (set_chat_history sent (warm W self))
               = (Ret (Some (r, c)), set_chat_history sent (warm W self),
                  [OpenAIChatCreate (model self) sent])).
  { rewrite (dispatch_history_openai _ key);
      [|cbn [provider set_chat_history]; rewrite warm_provider; exact Hp
       |cbn [client set_chat_history]; rewrite warm_client_eq; exact Hc].
    cbn [model chat_history set_chat_history]. rewrite warm_model, Hreply. reflexivity. }
  rewrite (bind_run _ _ _ _ _ _ Hd).
  rewrite record_reply_run
    by (cbn [logging set_chat_history]; symmetry; apply warm_logging).
  unfold backup_failure, backup_events, answered, s'.
  cbn [chat_history chat_history_backup set_chat_history logging].
  rewrite warm_backup_eq, warm_logging. fold recorded.
  unfold events, backup_events, preamble.
  cbn [chat_history chat_history_backup set_chat_history logging provider].
  destruct (truthy_str (chat_history_backup self)).
  - destruct (backup_error W (py_or (chat_history_backup self) "") recorded) as [e|].
    + unfold after, outcome_of, state_of, trace_of. cbn [fst snd].
      rewrite <- ?app_assoc. reflexivity.
    + destruct (logging self).
      * destruct (render_error W ("[green]" ++ NL) (py_str W c) NL);
          unfold after, outcome_of, state_of, trace_of; cbn [fst snd];
          rewrite <- ?app_assoc; reflexivity.
      * unfold after, outcome_of, state_of, trace_of; cbn [fst snd];
          rewrite <- ?app_assoc; reflexivity.
  - destruct (logging self).
    + destruct (render_error W ("[green]" ++ NL) (py_str W c) NL);
        unfold after, outcome_of, state_of, trace_of; cbn [fst snd];
        rewrite <- ?app_assoc; reflexivity.
    + unfold after, outcome_of, state_of, trace_of; cbn [fst snd];
        rewrite <- ?app_assoc; reflexivity.
Qed.

(** X4.  An answered exchange with OpenAI, when the history with the new
    user turn fits the budget: the request carries the whole history
    including the new turn, and the history then grows by exactly that
    turn and the reply, whatever happens next.  If the backup file (when
    one is configured) can be written and, with logging on, rich can
    render the reply, the backup is written once, after the reply, with
    the whole new history, the reply is printed and its content returned.
    If writing the backup raises, or rich refuses the reply (a
    [MarkupError], for a reply with an unbalanced tag), that exception
    reaches the caller although the reply has been recorded. *)
Theorem successful_exchange :
  forall (fuel : nat) (self : LLMManager) (key prompt image_path : string)
         (local_image : bool) (image : option string) (n : Z) (r : string) (c : pyval),
    prompt <> "" ->
    attachment W image_path local_image = Some image ->
    provider self = "openai" ->
    client self = Some (OpenAIClient key) ->
    estimate W self (chat_history self ++ [message_to_py (user_turn prompt image)]) = Ret n ->
    n <= 128000 ->
    openai_create W (model self) (chat_history self ++ [message_to_py (user_turn prompt image)])
    = inr (r, c) ->
    (0 < fuel)%nat ->
    let sent := (chat_history self ++ [message_to_py (user_turn prompt image)])%list in
    let recorded := (sent ++ [reply_entry r c])%list in
    let s' := set_chat_history recorded (warm W self) in
    let events := (preamble self n ++ [OpenAIChatCreate (model self) sent]
                   ++ backup_events self recorded)%list in
    let run := chat_with_history W fuel (Some prompt) image_path local_image self in
    state_of run = s'
    /\ (backup_failure W self recorded = None ->
        (if logging self then render_error W ("[green]" ++ NL) (py_str W c) NL else None)
        = None ->
        run = (Ret c, s',
               (events ++ if logging self then [Print (Answer (py_str W c))] else [])%list))
    /\ (forall e, backup_failure W self recorded = Some e -> run = (Raise e, s', events))
    /\ (forall e, backup_failure W self recorded = None ->
                  logging self = true ->
                  render_error W ("[green]" ++ NL) (py_str W c) NL = Some e ->
                  run = (Raise e, s', events)).
Proof.
  intros fuel self key prompt image_path local_image image n r c
         Hne Hatt Hp Hc Hest Hle Hreply Hfuel sent recorded s' events run.
  pose proof (exchange_openai_run fuel self key prompt image_path local_image image n r c
                Hne Hatt Hp Hc Hest Hle Hreply Hfuel) as Hrun.
  cbv zeta in Hrun. fold sent recorded s' events run in Hrun.
  assert (Hlog : logging s' = logging self)
    by (unfold s'; cbn [logging set_chat_history]; apply warm_logging).
  split; [|split; [|split]].
  - rewrite Hrun. unfold answered.
    destruct (backup_failure W self recorded); [reflexivity|].
    destruct (logging s'); [|reflexivity].
    destruct (render_error W ("[green]" ++ NL) (py_str W c) NL); reflexivity.
  - intros Hb Hr. rewrite Hrun, Hb. unfold answered. rewrite Hlog.
    destruct (logging self); [rewrite Hr|]; [reflexivity|].
    rewrite app_nil_r. reflexivity.
  - intros e Hb. rewrite Hrun, Hb. reflexivity.
  - intros e Hb Hl Hr. rewrite Hrun, Hb. unfold answered. rewrite Hlog, Hl, Hr. reflexivity.
Qed.

(** X5.  Without a client the turn is recorded but never answered: for a
    recognized provider whose client is [None], [chat_with_history]
    appends the user turn, prints that the client is not initialised and
    returns [None]; it sends nothing, records no reply and writes no
    backup. *)
Theorem exchange_without_client :
  forall (fuel : nat) (self : LLMManager) (prompt image_path : string)
         (local_image : bool) (image : option string) (n : Z),
    prompt <> "" ->
    attachment W image_path local_image = Some image ->
    In (provider self) ["openai"; "claude"; "gemini"] ->
    client self = None ->
    estimate W self (chat_history self ++ [message_to_py (user_turn prompt image)]) = Ret n ->
    n <= 128000 ->
    (0 < fuel)%nat ->
    exists name,
      chat_with_history W fuel (Some prompt) image_path local_image self
      = (Ret PNone,
         set_chat_history (chat_history self ++ [message_to_py (user_turn prompt image)])
                          (warm W self),
         (preamble self n ++ [Print (ErrClientNotInitialized name)])%list).
Proof.
  intros fuel self prompt image_path local_image image n Hne Hatt Hin Hc Hest Hle Hfuel.
  rewrite (chat_with_history_run W fuel prompt image_path local_image self Hne), Hatt.
  rewrite (exchange_within_budget W fuel _ n); [|exact Hin|exact Hest|exact Hle|exact Hfuel].
  rewrite warm_set_history.
  destruct (dispatch_history_no_client
              (set_chat_history (chat_history self ++ [message_to_py (user_turn prompt image)])
                                (warm W self))) as (name & Hd & _).
  { cbn [provider set_chat_history]. rewrite warm_provider. exact Hin. }
  { cbn [client set_chat_history]. rewrite warm_client_eq. exact Hc. }
  exists name. rewrite (bind_run _ _ _ _ _ _ Hd).
  unfold after, outcome_of, state_of, trace_of, ret, preamble. reflexivity.
Qed.

(** X6.  When the SDK raises, the exception reaches the caller; the user
    turn stays in the history without a reply, one request has been sent
    and no backup is written. *)
Theorem exchange_with_failing_provider :
  forall (fuel : nat) (self : LLMManager) (key prompt image_path : string)
         (local_image : bool) (image : option string) (n : Z) (e : exn),
    prompt <> "" ->
    attachment W image_path local_image = Some image ->
    provider self = "openai" ->
    client self = Some (OpenAIClient key) ->
    estimate W self (chat_history self ++ [message_to_py (user_turn prompt image)]) = Ret n ->
    n <= 128000 ->
    openai_create W (model self) (chat_history self ++ [message_to_py (user_turn prompt image)])
    = inl e ->
    (0 < fuel)%nat ->
    let sent := (chat_history self ++ [message_to_py (user_turn prompt image)])%list in
    chat_with_history W fuel (Some prompt) image_path local_image self
    = (Raise e, set_chat_history sent (warm W self),
       (preamble self n ++ [OpenAIChatCreate (model self) sent])%list).
Proof.
  intros fuel self key prompt image_path local_image image n e
         Hne Hatt Hp Hc Hest Hle Hreply Hfuel sent.
  rewrite (chat_with_history_run W fuel prompt image_path local_image self Hne), Hatt.
  fold sent in Hest, Hreply |- *.
  rewrite (exchange_within_budget W fuel (set_chat_history sent self) n);
    [|cbn [provider set_chat_history]; rewrite Hp; left; reflexivity
     |exact Hest|exact Hle|exact Hfuel].
  rewrite warm_set_history.
  assert (Hd : dispatch_history W (set_chat_history sent (warm W self))
               = (Raise e, set_chat_history sent (warm W self),
                  [OpenAIChatCreate (model self) sent])).
  { rewrite (dispatch_history_openai _ key);
      [|cbn [provider set_chat_history]; rewrite warm_provider; exact Hp
       |cbn [client set_chat_history]; rewrite warm_client_eq; exact Hc].
    cbn [model chat_history set_chat_history]. rewrite warm_model, Hreply. reflexivity. }
  rewrite (bind_raises _ _ _ _ _ _ Hd). reflexivity.
Qed.

(** X7.  When tiktoken has no encoding for the model and none is cached,
    every [chat_with_history] with a prompt on the OpenAI provider raises
    [NotImplementedError]: the user turn has already been appended, and
    nothing is printed or sent. *)
Theorem exchange_with_unknown_model :
  forall (fuel : nat) (self : LLMManager) (prompt image_path : string)
         (local_image : bool) (image : option string),
    prompt <> "" ->
    attachment W image_path local_image = Some image ->
    provider self = "openai" ->
    tiktoken_encoder self = None ->
    encoding_for_model W (model self) = None ->
    (0 < fuel)%nat ->
    chat_with_history W fuel (Some prompt) image_path local_image self
    = (Raise (NotImplementedError (model self)),
       set_chat_history (chat_history self ++ [message_to_py (user_turn prompt image)]) self,
       []).
Proof.
  intros fuel self prompt image_path local_image image Hne Hatt Hp Hte Henc Hfuel.
  rewrite (chat_with_history_run W fuel prompt image_path local_image self Hne), Hatt.
  rewrite (exchange_estimator_raises W fuel _ (NotImplementedError (model self)));
    [|unfold estimate, active_encoder;
      cbn [provider model tiktoken_encoder set_chat_history];
      rewrite Hp, Hte, Henc; reflexivity
     |exact Hfuel].
  f_equal. f_equal. unfold warm, active_encoder.
  cbn [provider model tiktoken_encoder set_chat_history]. rewrite Hp, Hte, Henc.
  cbn [String.eqb Ascii.eqb Bool.eqb].
  destruct self; cbn in *; subst; reflexivity.
Qed.

(** X8.  A local image that cannot be read stops the call at once: [None]
    is returned, one line is printed, the history is untouched and
    nothing is sent.  And without a prompt the image arguments play no
    part at all. *)
Theorem unreadable_image_stops_the_call :
  forall (fuel : nat) (self : LLMManager) (prompt image_path : string),
    prompt <> "" ->
    image_path <> "" ->
    read_image_base64 W image_path = None ->
    chat_with_history W fuel (Some prompt) image_path true self
    = (Ret PNone, self, [Print ErrImageEncode])
    /\ (forall (path : string) (local_image : bool),
          chat_with_history W fuel None path local_image self = exchange W fuel self
          /\ chat_with_history W fuel (Some "") path local_image self = exchange W fuel self).
Proof.
  intros fuel self prompt image_path Hne Hpath Hread. split.
  - rewrite (chat_with_history_run W fuel prompt image_path true self Hne).
    unfold attachment, image_url. apply String.eqb_neq in Hpath.
    rewrite Hpath, Hread. reflexivity.
  - intros path local_image. split.
    + apply chat_with_history_no_prompt.
    + unfold chat_with_history.
      change (append_user_turn W (Some "") path local_image) with (@ret bool true).
      rewrite bind_ret_l. reflexivity.
Qed.

End Exchanges.

(** ** The shape of the histories the class builds *)

Section WellFormed.
Variable W : World.

Lemma truncate_loop_empty (budget : Z) (fuel : nat) :
  forall self : LLMManager,
    chat_history self = [] ->
    chat_history (state_of (truncate_loop W budget fuel self)) = [].
Proof.
  destruct fuel as [|fuel]; intros self Hh; [exact Hh|].
  rewrite truncate_loop_S, Hh. cbn [pop].
  destruct (estimate W self []) as [n|e|];
    try destruct (n >? budget);
    unfold state_of; cbn [fst snd]; rewrite warm_history; exact Hh.
Qed.

Lemma well_formed_skipn (h0 : pyval) (rest : list pyval) (k : nat) :
  well_formed_history (h0 :: rest) -> well_formed_history (h0 :: skipn k rest).
Proof.
  unfold well_formed_history. intros H. inversion H as [|x l H0 Hrest]; subst.
  constructor; [exact H0|].
  clear - Hrest. revert rest Hrest.
  induction k as [|k IH]; intros rest Hrest; [exact Hrest|].
  destruct rest as [|m rest]; [constructor|]. cbn [skipn]. apply IH.
  inversion Hrest; assumption.
Qed.

Lemma preserves_wf_truncate (budget : Z) (fuel : nat) :
  preserves wf_state (truncate_loop W budget fuel).
Proof.
  intros self Hwf. unfold wf_state in *.
  destruct (chat_history self) as [|h0 rest] eqn:Hh.
  - rewrite (truncate_loop_empty budget fuel self Hh). exact Hwf.
  - destruct (truncate_loop_suffix W budget fuel self h0 rest Hh) as [k Hk].
    rewrite Hk. apply well_formed_skipn, Hwf.
Qed.

Lemma preserves_wf_append (v : pyval) :
  recorded_turn v -> preserves wf_state (append_message v).
Proof.
  intros Hv. apply preserves_modify.
  intros self Hall. unfold wf_state, well_formed_history in *.
  cbn [chat_history set_chat_history].
  apply Forall_app. split; [exact Hall|]. constructor; [exact Hv|constructor].
Qed.

Lemma wf_state_warm (self : LLMManager) : wf_state self -> wf_state (warm W self).
Proof. unfold wf_state. rewrite warm_history. auto. Qed.

Lemma recorded_user_turn (prompt : string) (image : option string) :
  recorded_turn (message_to_py (user_turn prompt image)).
Proof.
  eexists; eexists. split; [reflexivity|].
  intros _. exists (user_turn prompt image). split; reflexivity.
Qed.

Lemma recorded_reply (r : string) (c : pyval) :
  r <> "user" -> recorded_turn (PDict [("role", PStr r); ("content", c)]).
Proof.
  intros Hr. exists r, c. split; [reflexivity|]. intros Hu. contradiction.
Qed.

Lemma preserves_wf_append_user_turn prompt_arg image_path local_image :
  preserves wf_state (append_user_turn W prompt_arg image_path local_image).
Proof.
  unfold append_user_turn. cbv zeta.
  repeat first [ apply preserves_wf_append | frame_step ];
    first [ apply (recorded_user_turn _ None) | apply (recorded_user_turn _ (Some _)) ].
Qed.

(** The role of a reply is ["assistant"], or the one OpenAI has sent. *)
Lemma dispatch_history_reply (self : LLMManager) (r : string) (c : pyval) :
  outcome_of (dispatch_history W self) = Ret (Some (r, c)) ->
  r = "assistant"
  \/ exists model_name messages, openai_create W model_name messages = inr (r, c).
Proof.
  unfold dispatch_history. rewrite bind_get_self.
  destruct (String.eqb (provider self) "openai").
  { destruct (client self) as [[k|k|k]|]; try discriminate.
    unfold openai_call, bind, emit, lift_result, ret, outcome_of.
    destruct (openai_create W (model self) (chat_history self)) as [e|[r0 c0]] eqn:Hc;
      cbn [fst]; [discriminate|].
    intros H; inversion H; subst. right. eauto. }
  destruct (String.eqb (provider self) "claude").
  { destruct (client self) as [[k|k|k]|]; try discriminate.
    unfold claude_call, bind, emit, lift_result, ret, outcome_of.
    destruct (_claude_history_format (chat_history self)) as [e|msgs]; cbn [fst];
      [discriminate|].
    destruct (claude_create W (model self) 4096 msgs) as [e|c0]; cbn [fst]; [discriminate|].
    intros H; inversion H. left. reflexivity. }
  destruct (String.eqb (provider self) "gemini").
  { destruct (client self) as [[k|k|k]|]; try discriminate.
    unfold gemini_model, gemini_call, bind, emit, lift_result, ret, outcome_of.
    destruct (gemini_history_text W (chat_history self)) as [e|text]; cbn [fst];
      [discriminate|].
    destruct (gemini_generate W (model self) text) as [e|c0]; cbn [fst]; [discriminate|].
    intros H; inversion H. left. reflexivity. }
  discriminate.
Qed.

Lemma preserves_dispatch_history (P : LLMManager -> Prop) :
  preserves P (dispatch_history W).
Proof.
  unfold dispatch_history, openai_call, claude_call, gemini_model, gemini_call.
  frame.
Qed.

Lemma preserves_wf_chat_with_history fuel prompt_arg image_path local_image :
  (forall model_name messages r c,
      openai_create W model_name messages = inr (r, c) -> r <> "user") ->
  preserves wf_state (chat_with_history W fuel prompt_arg image_path local_image).
Proof.
  intros Hrole. unfold chat_with_history.
  apply preserves_bind; [apply preserves_wf_append_user_turn|intros appended].
  destruct (negb appended); [apply preserves_ret|].
  unfold exchange.
  apply preserves_bind; [apply preserves_get_self|intros s0].
  apply preserves_bind.
  { destruct (logging s0); [|apply preserves_ret].
    apply preserves_bind; [|intros; apply preserves_print].
    apply preserves_num_tokens, wf_state_warm. }
  intros _.
  apply preserves_bind; [apply preserves_wf_truncate|intros _].
  apply preserves_bind.
  { destruct (logging s0); [apply preserves_print_markup|apply preserves_ret]. }
  intros _.
  apply (preserves_bind_post wf_state reply_role_ok).
  - apply preserves_dispatch_history.
  - intros self [[r c]|] Ho; cbn [reply_role_ok]; [|exact I].
    destruct (dispatch_history_reply self r c Ho) as [->|(mn & msgs & Hc)];
      [discriminate|exact (Hrole mn msgs r c Hc)].
  - intros [[r c]|] Hr; cbn [reply_role_ok] in Hr; [|apply preserves_ret].
    apply preserves_bind; [apply preserves_wf_append, recorded_reply, Hr|intros _].
    unfold save_chat_to_backup. frame.
Qed.

Lemma get_gemini_text_canonical (m : Message) :
  text_first m = true ->
  get_gemini_text W [("role", PStr (role m)); ("content", content_to_py (content m))]
  = inr (PStr (message_text m)).
Proof.
  destruct m as [r c]. unfold text_first, message_text, get_gemini_text.
  cbn [role content dict_get String.eqb Ascii.eqb Bool.eqb].
  destruct c as [s|[|[t|u d] bs]]; intros H; try discriminate; reflexivity.
Qed.

Lemma gemini_user_texts_well_formed (h : list pyval) :
  well_formed_history h ->
  exists ms,
    filter (has_role "user") h = map message_to_py ms
    /\ Forall (fun m => text_first m = true) ms
    /\ gemini_user_texts W h = inr (map PStr (map message_text ms)).
Proof.
  unfold well_formed_history.
  induction 1 as [|v rest Hv Hrest IH].
  - exists []. repeat split. constructor.
  - destruct IH as (ms & Hf & Hall & Hg).
    destruct Hv as (r & c & Hv & Hu). subst v.
    cbn [filter has_role gemini_user_texts dict_get String.eqb Ascii.eqb Bool.eqb].
    destruct (String.eqb r "user") eqn:Er.
    + apply String.eqb_eq in Er. destruct (Hu Er) as (m & Hm & Htf).
      exists (m :: ms). split; [cbn [map]; rewrite Hf, Hm; reflexivity|].
      split; [constructor; assumption|].
      unfold message_to_py in Hm. inversion Hm as [[Hr Hc]].
      rewrite (get_gemini_text_canonical m Htf), Hg. reflexivity.
    + exists ms. split; [exact Hf|]. split; [exact Hall|]. rewrite Hg. reflexivity.
Qed.

(** X9.  [chat_with_history] keeps the history well formed.  If every
    entry is a dictionary with a string role and a content, and every user
    turn is a canonical message whose content is a string or starts with a
    text block, then the same holds after the call, whatever the
    arguments, the provider, the outcome and the content of the reply (a
    string, [None] or any other value the SDK hands over), provided OpenAI
    does not answer under the role ["user"].  On such a history the Gemini
    prompt can be built: it is the texts of the user turns joined by
    newlines. *)
Theorem chat_with_history_keeps_history_well_formed :
  forall (fuel : nat) (prompt_arg : option string) (image_path : string)
         (local_image : bool) (self : LLMManager),
    (forall model_name messages r c,
        openai_create W model_name messages = inr (r, c) -> r <> "user") ->
    well_formed_history (chat_history self) ->
    let h := chat_history
               (state_of (chat_with_history W fuel prompt_arg image_path local_image self)) in
    well_formed_history h
    /\ exists ms,
         filter (has_role "user") h = map message_to_py ms
         /\ Forall (fun m => text_first m = true) ms
         /\ gemini_history_text W h = inr (join NL (map message_text ms)).
Proof.
  intros fuel prompt_arg image_path local_image self Hrole Hwf h.
  pose proof (preserves_wf_chat_with_history fuel prompt_arg image_path local_image
                Hrole self Hwf) as Hwf'.
  fold h in Hwf'. unfold wf_state in Hwf'. fold h in Hwf'.
  split; [exact Hwf'|].
  destruct (gemini_user_texts_well_formed h Hwf') as (ms & Hf & Hall & Hg).
  exists ms. split; [exact Hf|]. split; [exact Hall|].
  unfold gemini_history_text. rewrite Hg, as_strings_strs. reflexivity.
Qed.

End WellFormed.

(** ** More on the Claude and Gemini request shapes *)

Lemma claude_message_fixed (m cm : pyval) :
  claude_message m = inr cm -> claude_message cm = inr cm.
Proof.
  unfold claude_message at 1.
  destruct m as [| | |d]; try discriminate.
  destruct (dict_get "content" d) as [content|]; [|discriminate].
  assert (Hfix : forall t r, (forall l, t <> PList l) ->
             claude_message (PDict [("role", r); ("content", t)])
             = inr (PDict [("role", r); ("content", t)])).
  { intros t r Ht. unfold claude_message. cbn [dict_get String.eqb Ascii.eqb Bool.eqb].
    destruct t as [| | l |]; try reflexivity. exfalso. apply (Ht l). reflexivity. }
  destruct content as [|s|l|dc].
  - destruct (dict_get "role" d) as [r|]; [|discriminate].
    intros H; inversion H. apply Hfix. discriminate.
  - destruct (dict_get "role" d) as [r|]; [|discriminate].
    intros H; inversion H. apply Hfix. discriminate.
  - destruct (text_parts l) as [e|parts]; [discriminate|].
    destruct (as_strings parts) as [e|strs]; [discriminate|].
    destruct (dict_get "role" d) as [r|]; [|discriminate].
    intros H; inversion H. apply Hfix. discriminate.
  - destruct (dict_get "role" d) as [r|]; [|discriminate].
    intros H; inversion H. apply Hfix. discriminate.
Qed.

(** X10.  [_claude_history_format] yields one message per message of the
    history, and formatting its own result changes nothing: the result
    has string (or otherwise non-list) contents already. *)
Theorem claude_format_is_idempotent :
  forall (history formatted : list pyval),
    _claude_history_format history = inr formatted ->
    _claude_history_format formatted = inr formatted
    /\ length formatted = length history.
Proof.
  induction history as [|m rest IH]; intros formatted H; cbn [_claude_history_format] in H.
  - inversion H. split; reflexivity.
  - destruct (claude_message m) as [e|cm] eqn:Hm; [discriminate|].
    destruct (_claude_history_format rest) as [e|l] eqn:Hrest; [discriminate|].
    inversion H; subst formatted.
    destruct (IH l eq_refl) as [Hfix Hlen].
    cbn [_claude_history_format length].
    rewrite (claude_message_fixed m cm Hm), Hfix. split; [reflexivity|].
    rewrite Hlen. reflexivity.
Qed.

Section GeminiRoles.
Variable W : World.

Lemma gemini_user_texts_skips (before rest : list pyval) (d : list (string * pyval))
      (r : pyval) :
  dict_get "role" d = Some r ->
  r <> PStr "user" ->
  gemini_user_texts W (before ++ PDict d :: rest) = gemini_user_texts W (before ++ rest).
Proof.
  intros Hr Hnot.
  induction before as [|m before IH]; cbn [app gemini_user_texts].
  - rewrite Hr.
    assert (Hu : match r with PStr s => String.eqb s "user" | _ => false end = false).
    { destruct r as [|s| |]; try reflexivity.
      apply String.eqb_neq. intros ->. apply Hnot. reflexivity. }
    rewrite Hu. destruct (gemini_user_texts W rest); reflexivity.
  - rewrite IH. reflexivity.
Qed.

(** X11.  A message whose role is not ["user"] has no part in the Gemini
    prompt: with or without it, whatever its content (which is not even
    looked up), the prompt is the same. *)
Theorem gemini_prompt_ignores_other_roles :
  forall (before rest : list pyval) (d : list (string * pyval)) (r : pyval),
    dict_get "role" d = Some r ->
    r <> PStr "user" ->
    gemini_history_text W (before ++ PDict d :: rest)
    = gemini_history_text W (before ++ rest).
Proof.
  intros before rest d r Hr Hnot. unfold gemini_history_text.
  rewrite (gemini_user_texts_skips before rest d r Hr Hnot). reflexivity.
Qed.

End GeminiRoles.

(** ** The cached encoder *)

Section EncoderCache.
Variable W : World.

Lemma preserves_encoder_set_provider (e : option encoder) (p : string)
      (model_arg : option string) :
  preserves (fun self => tiktoken_encoder self = e) (set_provider W p model_arg).
Proof.
  unfold set_provider, assign_model, _init_client, connect.
  repeat first [ apply preserves_modify; intros self H; exact H | frame_step ].
Qed.

(** X12.  [set_provider] never resets the cached tiktoken encoder.  Once
    an encoder is cached, the OpenAI estimate after any later switch is
    still computed with it, whatever the new model and whether or not
    tiktoken knows that model. *)
Theorem provider_switch_keeps_cached_encoder :
  forall (self : LLMManager) (e : encoder) (p : string) (model_arg : option string)
         (messages : list pyval),
    tiktoken_encoder self = Some e ->
    let switched := state_of (set_provider W p model_arg self) in
    tiktoken_encoder switched = Some e
    /\ (provider switched = "openai" ->
        outcome_of (num_tokens_from_messages W messages None switched)
        = match count_tokens e messages with
          | Some n => Ret n
          | None => Raise (NotImplementedError (model switched))
          end).
Proof.
  intros self e p model_arg messages He switched.
  assert (Hc : tiktoken_encoder switched = Some e)
    by (apply (preserves_encoder_set_provider (Some e) p model_arg self He)).
  split; [exact Hc|].
  intros Hp. rewrite num_tokens_run. unfold outcome_of; cbn [fst].
  unfold estimate, active_encoder. rewrite Hp, Hc. reflexivity.
Qed.

End EncoderCache.

(** ** analyze_image *)

(** X13.  [analyze_image] sends at most one request, and sends it exactly
    when the provider is openai, the client is an OpenAI client and the
    image can be read (a remote one always can).  The request has
    [max_tokens] 4096 and one message: the user turn [chat_with_history]
    would build for the same prompt and image, with the default prompt in
    place of [None] (an empty prompt is sent as it is). *)
Theorem analyze_image_request :
  forall (W : World) (create_limited : string -> list pyval -> Z -> exn + pyval)
         (self : LLMManager) (prompt_arg : option string) (image_path : string)
         (local_image : bool),
    filter is_vision_request
           (snd (analyze_image W create_limited self prompt_arg image_path local_image))
    = match client self, image_url W image_path local_image with
      | Some (OpenAIClient _), Some url =>
          if String.eqb (provider self) "openai" then
            [OpenAIVisionCreate (model self)
               [message_to_py
                  (user_turn (match prompt_arg with
                              | Some p => p
                              | None => "Please give me a detailed description of this image."
                              end)
                             (Some url))]
               4096]
          else []
      | _, _ => []
      end.
Proof.
  intros W create_limited self prompt_arg image_path local_image.
  unfold analyze_image, image_url.
  destruct (client self) as [c|]; [|reflexivity].
  destruct (String.eqb (provider self) "openai").
  - destruct local_image.
    + destruct (read_image_base64 W image_path) as [b|]; cbn [option_map].
      * destruct c; destruct (logging self); cbn [app];
          try destruct (create_limited _ _ _) as [e|answer];
          try destruct (render_error W ("[green]" ++ NL) (py_str W answer) NL);
          reflexivity.
      * destruct c; reflexivity.
    + destruct c; destruct (logging self); cbn [app];
        try destruct (create_limited _ _ _) as [e|answer];
        try destruct (render_error W ("[green]" ++ NL) (py_str W answer) NL);
        reflexivity.
  - destruct c; destruct local_image;
      try destruct (read_image_base64 W image_path); reflexivity.
Qed.

(** X14.  [analyze_image] returns an answer only if the SDK gave one:
    whatever it returns is either exactly the content that came back from
    the one request it sent, or [None] with no request sent; with no
    client, another provider or an unreadable local image it returns
    [None], sends nothing and raises nothing. *)
Theorem analyze_image_answer :
  forall (W : World) (create_limited : string -> list pyval -> Z -> exn + pyval)
         (self : LLMManager) (prompt_arg : option string) (image_path : string)
         (local_image : bool),
    let run := analyze_image W create_limited self prompt_arg image_path local_image in
    (forall answer, fst run = Ret answer ->
       (exists messages,
           filter is_vision_request (snd run) = [OpenAIVisionCreate (model self) messages 4096]
           /\ create_limited (model self) messages 4096 = inr answer)
       \/ (answer = PNone /\ filter is_vision_request (snd run) = []))
    /\ (client self = None \/ provider self <> "openai"
        \/ image_url W image_path local_image = None ->
        fst run = Ret PNone /\ filter is_vision_request (snd run) = []).
Proof.
  intros W create_limited self prompt_arg image_path local_image run.
  unfold run, analyze_image, image_url. split.
  - intros answer.
    assert (Hnone : forall t, filter is_vision_request t = [] ->
               @Ret pyval PNone = Ret answer ->
               (exists messages,
                   filter is_vision_request t = [OpenAIVisionCreate (model self) messages 4096]
                   /\ create_limited (model self) messages 4096 = inr answer)
               \/ (answer = PNone /\ filter is_vision_request t = [])).
    { intros t Ht H. inversion H. right. split; [reflexivity|exact Ht]. }
    destruct (client self) as [c|]; [|apply Hnone; reflexivity].
    destruct (String.eqb (provider self) "openai"); [|apply Hnone; reflexivity].
    assert (Hsent : forall url,
               let messages :=
                 [PDict [("role", PStr "user");
                         ("content",
                          PList [PDict [("type", PStr "text");
                                        ("text", PStr match prompt_arg with
                                                      | Some p => p
                                                      | None => "Please give me a detailed description of this image."
                                                      end)];
                                 PDict [("type", PStr "image_url");
                                        ("image_url",
                                         PDict [("url", PStr url); ("detail", PStr "high")])]])]] in
               let asking := if logging self then [ImagePrint AskingImageAnalysis] else [] in
               let sent := (asking ++ [OpenAIVisionCreate (model self) messages 4096])%list in
               let r := match create_limited (model self) messages 4096 with
                        | inl e => (Raise e, sent)
                        | inr a =>
                            if logging self then
                              match render_error W ("[green]" ++ NL) (py_str W a) NL with
                              | Some e => (Raise e, sent)
                              | None =>
                                  (Ret a, (sent ++ [ImagePrint (ImageAnswer (py_str W a))])%list)
                              end
                            else (Ret a, sent)
                        end in
               fst r = Ret answer ->
               (exists msgs,
                   filter is_vision_request (snd r) = [OpenAIVisionCreate (model self) msgs 4096]
                   /\ create_limited (model self) msgs 4096 = inr answer)
               \/ (answer = PNone /\ filter is_vision_request (snd r) = [])).
    { intros url messages asking sent r. unfold r.
      destruct (create_limited (model self) messages 4096) as [e|a] eqn:Hc; [discriminate|].
      unfold sent, asking.
      destruct (logging self).
      - destruct (render_error W ("[green]" ++ NL) (py_str W a) NL); [discriminate|].
        cbn [fst snd]. intros H; inversion H; subst a.
        left. exists messages. split; [reflexivity|exact Hc].
      - cbn [fst snd]. intros H; inversion H; subst a.
        left. exists messages. split; [reflexivity|exact Hc]. }
    destruct local_image.
    + destruct (read_image_base64 W image_path) as [b|]; [|apply Hnone; reflexivity].
      destruct c; try discriminate. apply Hsent.
    + destruct c; try discriminate. apply Hsent.
  - intros [Hc|[Hp|Hi]].
    + rewrite Hc. split; reflexivity.
    + apply String.eqb_neq in Hp. rewrite Hp.
      destruct (client self); split; reflexivity.
    + destruct (client self) as [c|]; [|split; reflexivity].
      destruct (String.eqb (provider self) "openai"); [|split; reflexivity].
      destruct local_image; [|discriminate].
      destruct (read_image_base64 W image_path); [discriminate|]. split; reflexivity.
Qed.

(** ** How many requests a call sends *)

Lemma requests_app (t1 t2 : list event) :
  requests (t1 ++ t2) = (requests t1 + requests t2)%nat.
Proof. unfold requests. rewrite filter_app, length_app. reflexivity. Qed.

Section Sending.
Context {A B : Type}.

Lemma sends_bind (a b : nat) (m : M A) (k : A -> M B) :
  sends_at_most a m -> (forall x, sends_at_most b (k x)) ->
  sends_at_most (a + b) (bind m k).
Proof.
  intros Hm Hk self. unfold bind. specialize (Hm self).
  destruct (m self) as [[[x|e|] s1] t1]; cbn [trace_of snd] in *; try lia.
  specialize (Hk x s1). destruct (k x s1) as [[o2 s2] t2]; cbn [trace_of snd] in *.
  rewrite requests_app. lia.
Qed.

Lemma sends_weaken (a b : nat) (m : M A) :
  (a <= b)%nat -> sends_at_most a m -> sends_at_most b m.
Proof. intros Hle Hm self. specialize (Hm self). lia. Qed.

Lemma silent_ret (x : A) : sends_at_most 0 (ret x).
Proof. intros self. cbn. lia. Qed.

Lemma silent_raise (e : exn) : sends_at_most 0 (@raise A e).
Proof. intros self. cbn. lia. Qed.

Lemma silent_diverge : sends_at_most 0 (@diverge A).
Proof. intros self. cbn. lia. Qed.

Lemma silent_lift_result (r : exn + A) : sends_at_most 0 (lift_result r).
Proof. destruct r; intros self; cbn; lia. Qed.
End Sending.

Lemma silent_get_self : sends_at_most 0 get_self.
Proof. intros self. cbn. lia. Qed.

Lemma silent_modify (f : LLMManager -> LLMManager) : sends_at_most 0 (modify f).
Proof. intros self. cbn. lia. Qed.

Lemma silent_print (line : console) : sends_at_most 0 (print line).
Proof. intros self. cbn. lia. Qed.

Lemma silent_backup (path : string) (h : list pyval) :
  sends_at_most 0 (emit (BackupWrite path h)).
Proof. intros self. cbn. lia. Qed.

Lemma silent_print_markup (W : World) (before text after : string) (line : console) :
  sends_at_most 0 (print_markup W before text after line).
Proof.
  unfold print_markup. destruct (render_error W before text after); intros self; cbn; lia.
Qed.

Lemma silent_num_tokens (W : World) (messages : list pyval) :
  sends_at_most 0 (num_tokens_from_messages W messages None).
Proof. intros self. rewrite num_tokens_run. cbn. lia. Qed.

Lemma silent_bind {A B : Type} (m : M A) (k : A -> M B) :
  sends_at_most 0 m -> (forall x, sends_at_most 0 (k x)) -> sends_at_most 0 (bind m k).
Proof. intros Hm Hk. apply (sends_bind 0 0); assumption. Qed.

Lemma silent_then {A B : Type} (n : nat) (m : M A) (k : A -> M B) :
  sends_at_most 0 m -> (forall x, sends_at_most n (k x)) -> sends_at_most n (bind m k).
Proof. intros Hm Hk. apply (sends_bind 0 n); assumption. Qed.

Lemma then_silent {A B : Type} (n : nat) (m : M A) (k : A -> M B) :
  sends_at_most n m -> (forall x, sends_at_most 0 (k x)) -> sends_at_most n (bind m k).
Proof.
  intros Hm Hk. apply (sends_weaken (n + 0) n); [lia|]. apply sends_bind; assumption.
Qed.

(** Methods and fragments that send nothing. *)
Ltac silent :=
  repeat first
    [ apply silent_ret | apply silent_raise | apply silent_diverge
    | apply silent_get_self | apply silent_modify | apply silent_print
    | apply silent_print_markup | apply silent_backup | apply silent_lift_result | apply silent_num_tokens
    | apply silent_bind; [|intros ?]
    | match goal with
      | |- sends_at_most _ (if ?b then _ else _) => destruct b
      | |- sends_at_most _ (match ?x with _ => _ end) => destruct x
      end ].

Section OneRequest.
Variable W : World.

Lemma silent_truncate_loop (budget : Z) (fuel : nat) :
  sends_at_most 0 (truncate_loop W budget fuel).
Proof.
  induction fuel as [|fuel IH]; intros self; [cbn; lia|].
  rewrite truncate_loop_S.
  destruct (estimate W self (chat_history self)) as [n|e|]; try (cbn; lia).
  destruct (n >? budget); [|cbn; lia].
  destruct (pop 1 (chat_history self)) as [[y remaining]|]; [|cbn; lia].
  cbn zeta.
  destruct (logging self).
  - destruct (estimate W self remaining) as [n'|e'|]; try (cbn; lia).
    unfold after, trace_of; cbn [snd]. rewrite requests_app.
    specialize (IH (set_chat_history remaining (warm W self))).
    unfold trace_of in IH. cbn in *. lia.
  - unfold after, trace_of; cbn [snd app].
    exact (IH (set_chat_history remaining (warm W self))).
Qed.

Lemma one_openai_call c model_name messages :
  sends_at_most 1 (openai_call W c model_name messages).
Proof.
  unfold openai_call. destruct c; try (intros self; cbn; lia).
  intros self. unfold bind, emit, lift_result.
  destruct (openai_create W model_name messages); cbn; lia.
Qed.

Lemma one_claude_call c model_name max_tokens messages :
  sends_at_most 1 (claude_call W c model_name max_tokens messages).
Proof.
  unfold claude_call. destruct c; try (intros self; cbn; lia).
  intros self. unfold bind, emit, lift_result.
  destruct (claude_create W model_name max_tokens messages); cbn; lia.
Qed.

Lemma one_gemini_call model_name text :
  sends_at_most 1 (gemini_call W model_name text).
Proof.
  intros self. unfold gemini_call, bind, emit, lift_result.
  destruct (gemini_generate W model_name text); cbn; lia.
Qed.

Lemma silent_gemini_model c : sends_at_most 0 (gemini_model c).
Proof. unfold gemini_model. destruct c; intros self; cbn; lia. Qed.

Lemma silent_finish_chat answer : sends_at_most 0 (finish_chat W answer).
Proof. unfold finish_chat. silent. Qed.

Lemma one_request_chat (prompt_arg : option string) : sends_at_most 1 (chat W prompt_arg).
Proof.
  unfold chat. cbv zeta.
  destruct (negb (truthy_str prompt_arg)).
  { apply (sends_weaken 0 1); [lia|]. silent. }
  apply silent_then; [silent|]. intros self.
  destruct (String.eqb (provider self) "openai").
  { destruct (client self) as [c|]; [|apply (sends_weaken 0 1); [lia|silent]].
    apply silent_then; [apply silent_num_tokens|]. intros n.
    destruct (n >? 128000); [apply (sends_weaken 0 1); [lia|silent]|].
    apply silent_then; [silent|]. intros _.
    apply then_silent; [apply one_openai_call|]. intros x. apply silent_finish_chat. }
  destruct (String.eqb (provider self) "claude").
  { destruct (client self) as [c|]; [|apply (sends_weaken 0 1); [lia|silent]].
    apply silent_then; [silent|]. intros _.
    apply then_silent; [apply one_claude_call|]. intros x. apply silent_finish_chat. }
  destruct (String.eqb (provider self) "gemini").
  { destruct (client self) as [c|]; [|apply (sends_weaken 0 1); [lia|silent]].
    apply silent_then; [silent|]. intros _.
    apply silent_then; [apply silent_gemini_model|]. intros _.
    apply then_silent; [apply one_gemini_call|]. intros x. apply silent_finish_chat. }
  apply (sends_weaken 0 1); [lia|silent].
Qed.

Lemma one_request_dispatch_history : sends_at_most 1 (dispatch_history W).
Proof.
  unfold dispatch_history.
  apply silent_then; [silent|]. intros self.
  destruct (String.eqb (provider self) "openai").
  { destruct (client self) as [c|]; [|apply (sends_weaken 0 1); [lia|silent]].
    apply then_silent; [apply one_openai_call|]. intros x. silent. }
  destruct (String.eqb (provider self) "claude").
  { destruct (client self) as [c|]; [|apply (sends_weaken 0 1); [lia|silent]].
    destruct c; try (apply (sends_weaken 0 1); [lia|solve [silent]]).
    apply silent_then; [silent|]. intros messages.
    apply then_silent; [apply one_claude_call|]. intros x. silent. }
  destruct (String.eqb (provider self) "gemini").
  { destruct (client self) as [c|]; [|apply (sends_weaken 0 1); [lia|silent]].
    apply silent_then; [apply silent_gemini_model|]. intros _.
    apply silent_then; [silent|]. intros text.
    apply then_silent; [apply one_gemini_call|]. intros x. silent. }
  apply (sends_weaken 0 1); [lia|silent].
Qed.

Lemma silent_append_user_turn prompt_arg image_path local_image :
  sends_at_most 0 (append_user_turn W prompt_arg image_path local_image).
Proof. unfold append_user_turn, append_message. cbv zeta. silent. Qed.

Lemma one_request_chat_with_history fuel prompt_arg image_path local_image :
  sends_at_most 1 (chat_with_history W fuel prompt_arg image_path local_image).
Proof.
  unfold chat_with_history.
  apply silent_then; [apply silent_append_user_turn|]. intros appended.
  destruct (negb appended); [apply (sends_weaken 0 1); [lia|silent]|].
  unfold exchange.
  apply silent_then; [silent|]. intros self.
  apply silent_then; [silent|]. intros _.
  apply silent_then; [apply silent_truncate_loop|]. intros _.
  apply silent_then; [silent|]. intros _.
  apply then_silent; [apply one_request_dispatch_history|]. intros reply.
  unfold save_chat_to_backup, append_message. silent.
Qed.

(** X15.  One call, at most one request: [chat] and [chat_with_history]
    never send a second request, whatever the provider, the arguments and
    the outcome (there is no retry), and the truncation loop sends none. *)
Theorem at_most_one_request_per_call :
  forall (fuel : nat) (prompt_arg : option string) (image_path : string)
         (local_image : bool) (self : LLMManager),
    (requests (trace_of (chat W prompt_arg self)) <= 1)%nat
    /\ (requests (trace_of (chat_with_history W fuel prompt_arg image_path local_image self))
        <= 1)%nat
    /\ requests (trace_of (truncate_loop W 128000 fuel self)) = 0%nat.
Proof.
  intros fuel prompt_arg image_path local_image self. split; [|split].
  - apply one_request_chat.
  - apply one_request_chat_with_history.
  - pose proof (silent_truncate_loop 128000 fuel self). lia.
Qed.

End OneRequest.

(** ** What the single-shot [chat] leaves alone *)

Section Emitting.
Context {A B : Type} (Q : event -> Prop).

Lemma emits_only_bind (m : M A) (k : A -> M B) :
  emits_only Q m -> (forall x, emits_only Q (k x)) -> emits_only Q (bind m k).
Proof.
  intros Hm Hk self. unfold bind. specialize (Hm self).
  destruct (m self) as [[[x|e|] s1] t1]; cbn [trace_of snd] in *; try exact Hm.
  specialize (Hk x s1). destruct (k x s1) as [[o2 s2] t2]; cbn [trace_of snd] in *.
  apply Forall_app. split; assumption.
Qed.

Lemma emits_only_ret (x : A) : emits_only Q (ret x).
Proof. intros self. constructor. Qed.

Lemma emits_only_raise (e : exn) : emits_only Q (@raise A e).
Proof. intros self. constructor. Qed.

Lemma emits_only_lift_result (r : exn + A) : emits_only Q (lift_result r).
Proof. destruct r; intros self; constructor. Qed.
End Emitting.

Lemma emits_only_get_self (Q : event -> Prop) : emits_only Q get_self.
Proof. intros self. constructor. Qed.

Lemma emits_only_emit (Q : event -> Prop) (e : event) : Q e -> emits_only Q (emit e).
Proof. intros H self. constructor; [exact H|constructor]. Qed.

Lemma emits_only_num_tokens (W : World) (Q : event -> Prop) (messages : list pyval) :
  emits_only Q (num_tokens_from_messages W messages None).
Proof. intros self. rewrite num_tokens_run. constructor. Qed.

Section ChatFrame.
Variable W : World.

Lemma chat_writes_no_backup (prompt_arg : option string) :
  emits_only (fun e => is_backup_write e = false) (chat W prompt_arg).
Proof.
  unfold chat, finish_chat, openai_call, claude_call, gemini_model, gemini_call,
    print_markup, print.
  cbv zeta.
  repeat first
    [ apply emits_only_ret | apply emits_only_raise | apply emits_only_get_self
    | apply emits_only_lift_result | apply emits_only_num_tokens
    | apply emits_only_emit; reflexivity
    | apply emits_only_bind; [|intros ?]
    | match goal with
      | |- emits_only _ (if ?b then _ else _) => destruct b
      | |- emits_only _ (match ?x with _ => _ end) => destruct x
      end ].
Qed.

Lemma chat_state (self0 : LLMManager) (prompt_arg : option string) :
  preserves (fun self => self = self0 \/ self = warm W self0) (chat W prompt_arg).
Proof.
  unfold chat, finish_chat, openai_call, claude_call, gemini_model, gemini_call.
  cbv zeta.
  frame; intros self [->| ->]; right; [reflexivity|apply warm_idem].
Qed.

(** X16.  [chat] has no effect on the object but the cached tiktoken
    encoder: the state after the call is the state before, with the
    encoder loaded at most, so provider, model, client, backup path and
    history are as they were; and [chat] never writes the backup. *)
Theorem chat_changes_only_the_encoder_cache :
  forall (prompt_arg : option string) (self : LLMManager),
    (state_of (chat W prompt_arg self) = self
     \/ state_of (chat W prompt_arg self) = warm W self)
    /\ filter is_backup_write (trace_of (chat W prompt_arg self)) = [].
Proof.
  intros prompt_arg self. split.
  - apply (chat_state self prompt_arg self). left. reflexivity.
  - pose proof (chat_writes_no_backup prompt_arg self) as H.
    induction H as [|e t He Ht IH]; [reflexivity|].
    cbn [filter]. rewrite He. exact IH.
Qed.

End ChatFrame.

(** ** Construction *)

Section Construction.
Variable W : World.

Lemma init_unknown (system_prompt : option pyval) (backup : option string)
      (p : string) (model_arg : option string) :
  p <> "openai" -> p <> "claude" -> p <> "gemini" ->
  fst (__init__ W system_prompt backup p model_arg)
  = Raise (ValueError ("Unknown provider: " ++ p)).
Proof.
  intros H1 H2 H3.
  pose proof (default_model_unknown p H1 H2 H3) as Hd.
  unfold __init__, init_body. rewrite bind_modify.
  unfold bind at 1. rewrite (assign_model_unknown p model_arg _ Hd).
  destruct (truthy_str model_arg); [|reflexivity].
  rewrite bind_modify.
  unfold bind at 1.
  rewrite init_client_unknown by (cbn [provider]; assumption).
  reflexivity.
Qed.

(** The loading of the history (lines 23-27), in a state with an empty
    history. *)
Lemma init_history_run (system_prompt : option pyval) (backup : option string)
      (s : LLMManager) :
  chat_history s = [] ->
  exists o h,
    (if truthy_str backup && path_exists W (py_or backup "") then
       h <- lift_result (json_load W (py_or backup "")) ;;
       modify (set_chat_history h)
     else
       match system_prompt with
       | Some sp => if py_truthy sp then append_message sp else ret tt
       | None => ret tt
       end) s
    = (o, set_chat_history h s, [])
    /\ (o = Ret tt ->
        if truthy_str backup && path_exists W (py_or backup "")
        then json_load W (py_or backup "") = inr h
        else h = match system_prompt with
                 | Some sp => if py_truthy sp then [sp] else []
                 | None => []
                 end).
Proof.
  intros Hh.
  assert (Heta : s = set_chat_history [] s) by (destruct s; cbn in *; subst; reflexivity).
  destruct (truthy_str backup && path_exists W (py_or backup "")).
  - destruct (json_load W (py_or backup "")) as [e|h] eqn:Hload.
    + exists (Raise e), []. split; [rewrite <- Heta; reflexivity|discriminate].
    + exists (Ret tt), h. split; [reflexivity|]. intros _. reflexivity.
  - destruct system_prompt as [sp|].
    + destruct (py_truthy sp).
      * exists (Ret tt), [sp]. split; [|reflexivity].
        unfold append_message, modify. rewrite Hh. reflexivity.
      * exists (Ret tt), []. split; [rewrite <- Heta; reflexivity|reflexivity].
    + exists (Ret tt), []. split; [rewrite <- Heta; reflexivity|reflexivity].
Qed.

(** X17.  What a constructed object looks like.  If [__init__] returns,
    the provider is one of the three; the model is the one given or else
    the provider's default; logging is on and no encoder is cached; the
    client is the freshly initialised one.  The history is the content of
    the backup file when a backup path is given and the file exists (the
    system prompt is then ignored); otherwise it is the system prompt
    alone, or empty when the system prompt is missing or falsy. *)
Theorem constructed_object :
  forall (system_prompt : option pyval) (backup : option string) (p : string)
         (model_arg : option string) (obj : LLMManager) (t : list event),
    __init__ W system_prompt backup p model_arg = (Ret obj, t) ->
    In p ["openai"; "claude"; "gemini"]
    /\ provider obj = p
    /\ (exists d, _default_model_for_provider p = inr d /\ model obj = py_or model_arg d)
    /\ logging obj = true
    /\ tiktoken_encoder obj = None
    /\ chat_history_backup obj = backup
    /\ client obj = expected_client W p
    /\ (if truthy_str backup && path_exists W (py_or backup "")
        then json_load W (py_or backup "") = inr (chat_history obj)
        else chat_history obj = match system_prompt with
                                | Some sp => if py_truthy sp then [sp] else []
                                | None => []
                                end).
Proof.
  intros system_prompt backup p model_arg obj t Hrun.
  assert (Hin : In p ["openai"; "claude"; "gemini"]).
  { destruct (String.eqb_spec p "openai") as [->|H1]; [left; reflexivity|].
    destruct (String.eqb_spec p "claude") as [->|H2]; [right; left; reflexivity|].
    destruct (String.eqb_spec p "gemini") as [->|H3]; [right; right; left; reflexivity|].
    pose proof (init_unknown system_prompt backup p model_arg H1 H2 H3) as Hu.
    rewrite Hrun in Hu. discriminate. }
  split; [exact Hin|].
  unfold __init__, init_body in Hrun. rewrite bind_modify in Hrun.
  assert (Hd : exists d, _default_model_for_provider p = inr d).
  { cbn [In] in Hin. destruct Hin as [<-|[<-|[<-|[]]]]; eexists; reflexivity. }
  destruct Hd as [d Hd].
  rewrite (bind_run _ _ _ _ _ _ (assign_model_run p d model_arg _ Hd)) in Hrun.
  rewrite after_nil, bind_modify in Hrun.
  cbn [provider model client set_model_field set_provider_field blank] in Hrun.
  set (s3 := {| provider := p; model := py_or model_arg d; logging := true;
                tiktoken_encoder := None; chat_history := [];
                chat_history_backup := backup; client := None |}) in *.
  destruct (init_client_recognized W s3 Hin) as (c & Hc & Hexp).
  cbn [provider s3] in Hc, Hexp.
  destruct (init_outcome W p) as [[]|e|].
  - rewrite (bind_run _ _ _ _ _ _ Hc) in Hrun.
    destruct (init_history_run system_prompt backup (set_client c s3) eq_refl)
      as (o2 & h & Hload & Hh).
    rewrite Hload in Hrun. unfold after, outcome_of, state_of, trace_of in Hrun.
    cbn [fst snd] in Hrun.
    destruct o2 as [[]|e|]; try discriminate.
    inversion Hrun; subst obj t.
    cbn [provider model logging tiktoken_encoder chat_history_backup client chat_history
         set_chat_history set_client s3].
    repeat split; try reflexivity.
    + exists d. split; [exact Hd|reflexivity].
    + exact Hexp.
    + apply Hh. reflexivity.
  - rewrite (bind_raises _ _ _ _ _ _ Hc) in Hrun. discriminate.
  - unfold bind in Hrun. rewrite Hc in Hrun. discriminate.
Qed.

End Construction.

(** ** What is sent is within the budget *)

Lemma requests_none (t : list event) : requests t = 0%nat -> filter is_dispatch t = [].
Proof. unfold requests. destruct (filter is_dispatch t); [reflexivity|discriminate]. Qed.

Lemma silent_filter {A : Type} (m : M A) (self : LLMManager) :
  sends_at_most 0 m -> filter is_dispatch (trace_of (m self)) = [].
Proof. intros H. apply requests_none. specialize (H self). lia. Qed.

Lemma filter_silent_then {A B : Type} (m : M A) (k : A -> M B) (self : LLMManager) :
  sends_at_most 0 m ->
  filter is_dispatch (trace_of (bind m k self))
  = match m self with
    | (Ret a, s1, _) => filter is_dispatch (trace_of (k a s1))
    | _ => []
    end.
Proof.
  intros Hm. pose proof (silent_filter m self Hm) as Hf. unfold bind.
  destruct (m self) as [[[a|e|] s1] t1]; cbn [trace_of snd] in *; try exact Hf.
  destruct (k a s1) as [[o2 s2] t2]; cbn [trace_of snd].
  rewrite filter_app, Hf. reflexivity.
Qed.

Lemma filter_then_silent {A B : Type} (m : M A) (k : A -> M B) (self : LLMManager) :
  (forall a, sends_at_most 0 (k a)) ->
  filter is_dispatch (trace_of (bind m k self)) = filter is_dispatch (trace_of (m self)).
Proof.
  intros Hk. unfold bind.
  destruct (m self) as [[[a|e|] s1] t1]; cbn [trace_of snd]; try reflexivity.
  pose proof (silent_filter (k a) s1 (Hk a)) as Hf.
  destruct (k a s1) as [[o2 s2] t2]; cbn [trace_of snd] in *.
  rewrite filter_app, Hf, app_nil_r. reflexivity.
Qed.

Section WithinBudget.
Variable W : World.

Lemma truncate_loop_returns (budget : Z) (fuel : nat) :
  forall (self s2 : LLMManager) (t : list event),
    truncate_loop W budget fuel self = (Ret tt, s2, t) ->
    exists h n,
      s2 = set_chat_history h (warm W self)
      /\ estimate W self h = Ret n /\ n <= budget.
Proof.
  induction fuel as [|fuel IH]; intros self s2 t Hrun; [discriminate|].
  rewrite truncate_loop_S in Hrun.
  destruct (estimate W self (chat_history self)) as [n|e|] eqn:Hest; try discriminate.
  destruct (n >? budget) eqn:Hcmp.
  - destruct (pop 1 (chat_history self)) as [[y remaining]|]; [|discriminate].
    cbn zeta in Hrun.
    assert (Hnext : forall t',
               truncate_loop W budget fuel (set_chat_history remaining (warm W self))
               = (Ret tt, s2, t') ->
               exists h n0, s2 = set_chat_history h (warm W self)
                            /\ estimate W self h = Ret n0 /\ n0 <= budget).
    { intros t' Hr. destruct (IH _ _ _ Hr) as (h & n0 & Hs & Hn0 & Hle).
      exists h, n0. rewrite warm_set_history, warm_idem in Hs.
      rewrite estimate_set_history, estimate_warm in Hn0. repeat split; assumption. }
    destruct (truncate_loop W budget fuel (set_chat_history remaining (warm W self)))
      as [[o s] t'] eqn:Hloop.
    destruct (logging self).
    + destruct (estimate W self remaining) as [n'|e'|]; try discriminate.
      unfold after, outcome_of, state_of, trace_of in Hrun. cbn [fst snd] in Hrun.
      inversion Hrun; subst o s. apply (Hnext t'). reflexivity.
    + unfold after, outcome_of, state_of, trace_of in Hrun. cbn [fst snd] in Hrun.
      inversion Hrun; subst o s. apply (Hnext t'). reflexivity.
  - inversion Hrun; subst s2 t.
    exists (chat_history self), n. split; [|split; [exact Hest|]].
    + rewrite <- (warm_history W self). destruct (warm W self); reflexivity.
    + destruct (Z.gtb_spec n budget); [discriminate|lia].
Qed.

Lemma silent_logging (self : LLMManager) :
  sends_at_most 0
    (if logging self
     then n <- num_tokens_from_messages W (chat_history self) None ;;
          print (HistoryTokenLength n)
     else ret tt).
Proof. silent. Qed.

Lemma exchange_requests (fuel : nat) (self : LLMManager) :
  filter is_dispatch (trace_of (exchange W fuel self)) = []
  \/ exists h n,
       estimate W self h = Ret n /\ n <= 128000
       /\ filter is_dispatch (trace_of (exchange W fuel self))
          = filter is_dispatch (trace_of (dispatch_history W (set_chat_history h (warm W self)))).
Proof.
  unfold exchange. rewrite bind_get_self.
  rewrite (filter_silent_then _ _ self (silent_logging self)).
  assert (Hlog : exists o s1 t1,
             (if logging self
              then n <- num_tokens_from_messages W (chat_history self) None ;;
                   print (HistoryTokenLength n)
              else ret tt) self = (o, s1, t1)
             /\ (s1 = self \/ s1 = warm W self)).
  { destruct (logging self).
    - unfold bind. rewrite num_tokens_run.
      destruct (estimate W self (chat_history self)) as [n|e|];
        [exists (Ret tt), (warm W self), [Print (HistoryTokenLength n)]
        |exists (Raise e), (warm W self), []
        |exists Diverge, (warm W self), []];
        (split; [reflexivity|right; reflexivity]).
    - exists (Ret tt), self, []. split; [reflexivity|left; reflexivity]. }
  destruct Hlog as (o & s1 & t1 & Hrun & Hs1). rewrite Hrun.
  destruct o as [[]|e|]; try (left; reflexivity).
  rewrite (filter_silent_then _ _ s1 (silent_truncate_loop W 128000 fuel)).
  destruct (truncate_loop W 128000 fuel s1) as [[o2 s2] t2] eqn:Hloop.
  destruct o2 as [[]|e|]; try (left; reflexivity).
  destruct (truncate_loop_returns 128000 fuel s1 s2 t2 Hloop) as (h & n & Hs2 & Hn & Hle).
  rewrite filter_silent_then by silent.
  assert (Hask : exists o3 t3,
             (if logging self
              then print_markup W ("[yellow]" ++ NL ++ "Asking ") (provider self)
                                " a question..." (AskingQuestion (provider self))
              else ret tt) s2
             = (o3, s2, t3) /\ (o3 = Ret tt \/ exists e, o3 = Raise e)).
  { unfold print_markup.
    destruct (logging self); [|eexists; eexists; split; [reflexivity|left; reflexivity]].
    destruct (render_error W ("[yellow]" ++ NL ++ "Asking ") (provider self)
                " a question...") as [e|];
      eexists; eexists; (split; [reflexivity|]); [right; exists e|left]; reflexivity. }
  destruct Hask as (o3 & t3 & Hask & Ho3). rewrite Hask.
  destruct Ho3 as [->|[e ->]]; [|left; reflexivity].
  rewrite filter_then_silent
    by (intros [[r c]|]; unfold save_chat_to_backup, append_message; silent).
  right. exists h, n.
  assert (Heq : s2 = set_chat_history h (warm W self) /\ estimate W self h = Ret n).
  { destruct Hs1 as [-> | ->]; [split; assumption|].
    rewrite warm_idem in Hs2. rewrite estimate_warm in Hn. split; assumption. }
  destruct Heq as [-> Hn']. repeat split; assumption.
Qed.

Lemma chat_with_history_requests (fuel : nat) (prompt_arg : option string)
      (image_path : string) (local_image : bool) (self : LLMManager) :
  filter is_dispatch
         (trace_of (chat_with_history W fuel prompt_arg image_path local_image self)) = []
  \/ exists h n,
       estimate W self h = Ret n /\ n <= 128000
       /\ filter is_dispatch
                 (trace_of (chat_with_history W fuel prompt_arg image_path local_image self))
          = filter is_dispatch (trace_of (dispatch_history W (set_chat_history h (warm W self)))).
Proof.
  unfold chat_with_history.
  rewrite (filter_silent_then _ _ self
             (silent_append_user_turn W prompt_arg image_path local_image)).
  assert (Happ : exists o s0 t0,
             append_user_turn W prompt_arg image_path local_image self = (o, s0, t0)
             /\ (o = Ret false \/ exists h0, o = Ret true /\ s0 = set_chat_history h0 self)).
  { assert (Heta : self = set_chat_history (chat_history self) self)
      by (destruct self; reflexivity).
    unfold append_user_turn, append_message. cbv zeta.
    destruct (truthy_str prompt_arg);
      [|exists (Ret true), self, []; split; [reflexivity|];
        right; exists (chat_history self); split; [reflexivity|exact Heta]].
    destruct (negb (String.eqb image_path "")).
    - destruct local_image.
      + destruct (read_image_base64 W image_path).
        * rewrite bind_modify. eexists (Ret true), _, []. split; [reflexivity|].
          right. eexists. split; reflexivity.
        * exists (Ret false), self, [Print ErrImageEncode].
          split; [reflexivity|left; reflexivity].
      + rewrite bind_modify. eexists (Ret true), _, []. split; [reflexivity|].
        right. eexists. split; reflexivity.
    - rewrite bind_modify. eexists (Ret true), _, []. split; [reflexivity|].
      right. eexists. split; reflexivity. }
  destruct Happ as (o & s0 & t0 & Hrun & Hcases). rewrite Hrun.
  destruct Hcases as [-> | (h0 & -> & ->)]; [left; reflexivity|].
  cbn [negb].
  destruct (exchange_requests fuel (set_chat_history h0 self)) as [Hnone|(h & n & Hn & Hle & Heq)].
  - left. exact Hnone.
  - right. exists h, n. rewrite estimate_set_history in Hn.
    rewrite warm_set_history in Heq. split; [exact Hn|]. split; [exact Hle|exact Heq].
Qed.

(** X18.  [chat_with_history] never sends a history that is over the
    budget: whatever it sends is the dispatch of a history whose estimate
    is at most 128000.  For the OpenAI provider: every request of
    [chat_with_history] carries messages whose estimate is at most
    128000, for the model of the object; and so does every request of the
    single-shot [chat]. *)
Theorem requests_are_within_budget :
  forall (fuel : nat) (prompt_arg : option string) (image_path : string)
         (local_image : bool) (self : LLMManager),
    (filter is_dispatch
            (trace_of (chat_with_history W fuel prompt_arg image_path local_image self)) = []
     \/ exists h n,
          estimate W self h = Ret n /\ n <= 128000
          /\ filter is_dispatch
                    (trace_of (chat_with_history W fuel prompt_arg image_path local_image self))
             = filter is_dispatch
                      (trace_of (dispatch_history W (set_chat_history h (warm W self)))))
    /\ (provider self = "openai" ->
        forall (m : string) (messages : list pyval),
          In (OpenAIChatCreate m messages)
             (trace_of (chat_with_history W fuel prompt_arg image_path local_image self))
          \/ In (OpenAIChatCreate m messages) (trace_of (chat W prompt_arg self)) ->
          m = model self
          /\ exists n, estimate W self messages = Ret n /\ n <= 128000).
Proof.
  intros fuel prompt_arg image_path local_image self.
  split; [apply chat_with_history_requests|].
  intros Hp m messages [Hin|Hin].
  - assert (Hf : In (OpenAIChatCreate m messages)
                    (filter is_dispatch
                       (trace_of (chat_with_history W fuel prompt_arg image_path
                                                    local_image self))))
      by (apply filter_In; split; [exact Hin|reflexivity]).
    destruct (chat_with_history_requests fuel prompt_arg image_path local_image self)
      as [Hnone|(h & n & Hn & Hle & Heq)].
    + rewrite Hnone in Hf. contradiction.
    + rewrite Heq in Hf. apply filter_In in Hf. destruct Hf as [Hd _].
      unfold dispatch_history in Hd. rewrite bind_get_self in Hd.
      cbn [provider client model chat_history set_chat_history] in Hd.
      rewrite warm_provider, Hp, warm_model in Hd.
      cbn [String.eqb Ascii.eqb Bool.eqb] in Hd.
      destruct (client (warm W self)) as [c|].
      * unfold openai_call, bind, emit, lift_result, trace_of in Hd.
        destruct c; cbn in Hd; try contradiction.
        destruct (openai_create W (model self) h); cbn in Hd;
          destruct Hd as [Hd|Hd]; try contradiction;
          inversion Hd; subst; split; eauto.
      * cbn in Hd. destruct Hd as [Hd|[]]. discriminate.
  - unfold chat in Hin. cbv zeta in Hin.
    destruct (truthy_str prompt_arg); cbn [negb] in Hin;
      [|cbn in Hin; destruct Hin as [Hd|[]]; discriminate].
    rewrite bind_get_self in Hin. rewrite Hp in Hin.
    cbn [String.eqb Ascii.eqb Bool.eqb] in Hin.
    destruct (client self) as [c|];
      [|cbn in Hin; destruct Hin as [Hd|[]]; discriminate].
    unfold bind at 1 in Hin. rewrite num_tokens_run in Hin.
    destruct (estimate W self [PDict [("role", PStr "user");
                                      ("content", PStr (py_or prompt_arg ""))]])
      as [n|e|] eqn:Hest; try (cbn in Hin; contradiction).
    destruct (Z.gtb_spec n 128000) as [Hgt|Hle];
      [cbn in Hin; destruct Hin as [Hd|[]]; discriminate|].
    unfold openai_call, finish_chat, print_markup, bind, print, emit, lift_result,
      get_self, ret, raise, trace_of in Hin.
    cbn [fst snd] in Hin. rewrite ?warm_model, ?warm_logging in Hin.
    destruct c;
      try (cbn in Hin; destruct Hin as [Hd|[]]; discriminate).
    destruct (openai_create W (model self) _) as [e0|reply];
      destruct (logging (warm W self));
      try destruct (render_error W ("[green]" ++ NL) (py_str W (snd reply)) NL);
      cbn in Hin;
      repeat (destruct Hin as [Hd|Hin]; [try discriminate; inversion Hd; subst;
                                           split; eauto|]);
      try contradiction.
Qed.

End WithinBudget.

(** ** A switch that fails on the API key *)

(** X19.  A switch to Claude that fails on the missing API key is not
    undone either: [set_provider] raises [KeyError] with the provider and
    the model already switched and the old client still in place, and the
    next [chat] runs the Claude branch on the OpenAI client: it raises
    [AttributeError] and sends nothing. *)
Theorem switch_with_missing_key :
  forall (W : World) (self : LLMManager) (key prompt : string) (model_arg : option string),
    importable W "anthropic" = true ->
    environ W "ANTHROPIC_API_KEY" = None ->
    client self = Some (OpenAIClient key) ->
    prompt <> "" ->
    let r := set_provider W "claude" model_arg self in
    outcome_of r = Raise (KeyError "ANTHROPIC_API_KEY")
    /\ provider (state_of r) = "claude"
    /\ model (state_of r) = py_or model_arg "claude-3-opus-20240229"
    /\ client (state_of r) = Some (OpenAIClient key)
    /\ chat_history (state_of r) = chat_history self
    /\ chat W (Some prompt) (state_of r)
       = (Raise AttributeError, state_of r, [Print (AskingQuestion "Claude")]).
Proof.
  intros W self key prompt model_arg Himp Henv Hc Hne r.
  assert (Hrun : r = (Raise (KeyError "ANTHROPIC_API_KEY"),
                      set_model_field (py_or model_arg "claude-3-opus-20240229")
                                      (set_provider_field "claude" self),
                      [])).
  { unfold r, set_provider. rewrite bind_modify.
    rewrite (bind_run _ _ _ _ _ _
               (assign_model_run "claude" "claude-3-opus-20240229" model_arg _ eq_refl)).
    rewrite after_nil. unfold _init_client. rewrite bind_get_self.
    cbn [provider set_model_field set_provider_field String.eqb Ascii.eqb Bool.eqb].
    rewrite connect_run, Himp, Henv. reflexivity. }
  rewrite Hrun. unfold outcome_of, state_of. cbn [fst snd].
  cbn [provider model client chat_history set_model_field set_provider_field].
  repeat split; try reflexivity; try exact Hc.
  destruct (truthy_nonempty prompt Hne) as [Ht Hor].
  unfold chat. rewrite Ht, Hor. cbn [negb]. rewrite bind_get_self.
  cbn [provider client set_model_field set_provider_field String.eqb Ascii.eqb Bool.eqb].
  rewrite Hc. reflexivity.
Qed.

(** ** The properties at work on concrete objects *)

Lemma truncation_evicts_no_more_than_needed_witness :
  let self := Sample.engine "openai" "gpt-4o" (OpenAIClient "sk-openai")
                [Sample.system_message; Sample.oversized_message; Fixtures.hello] in
  chat_history self = Sample.system_message :: [Sample.oversized_message; Fixtures.hello]
  /\ outcome_of (truncate_loop Sample.world 128000 4 self) = Ret tt
  /\ exists k,
       chat_history (state_of (truncate_loop Sample.world 128000 4 self))
       = Sample.system_message :: skipn k [Sample.oversized_message; Fixtures.hello]
       /\ (exists n, estimate Sample.world self
                       (Sample.system_message
                          :: skipn k [Sample.oversized_message; Fixtures.hello]) = Ret n
                     /\ n <= 128000)
       /\ (forall j, (j < k)%nat ->
             exists nj, estimate Sample.world self
                          (Sample.system_message
                             :: skipn j [Sample.oversized_message; Fixtures.hello]) = Ret nj
                        /\ nj > 128000).
Proof.
  intros self.
  assert (H1 : chat_history self
               = Sample.system_message :: [Sample.oversized_message; Fixtures.hello])
    by reflexivity.
  assert (H2 : outcome_of (truncate_loop Sample.world 128000 4 self) = Ret tt)
    by (vm_compute; reflexivity).
  split; [exact H1|]. split; [exact H2|].
  exact (proj1 (truncation_evicts_no_more_than_needed Sample.world 128000 4 self _ _ H1 H2)).
Defined.

Lemma truncation_fails_iff_first_message_too_large_witness :
  let self := Sample.engine "openai" "gpt-4o" (OpenAIClient "sk-openai")
                [Sample.oversized_message; Fixtures.hello] in
  chat_history self = Sample.oversized_message :: [Fixtures.hello]
  /\ estimate Sample.world self (Sample.oversized_message :: [Fixtures.hello]) = Ret 129256
  /\ (length (Sample.oversized_message :: [Fixtures.hello]) < 3)%nat
  /\ exists n0,
       estimate Sample.world self [Sample.oversized_message] = Ret n0
       /\ (outcome_of (truncate_loop Sample.world 128000 3 self) = Raise IndexError
           <-> n0 > 128000)
       /\ (outcome_of (truncate_loop Sample.world 128000 3 self) = Ret tt <-> n0 <= 128000).
Proof.
  intros self.
  assert (H1 : chat_history self = Sample.oversized_message :: [Fixtures.hello])
    by reflexivity.
  assert (H2 : estimate Sample.world self (Sample.oversized_message :: [Fixtures.hello])
               = Ret 129256) by (vm_compute; reflexivity).
  assert (H3 : (length (Sample.oversized_message :: [Fixtures.hello]) < 3)%nat)
    by (cbn [length]; lia).
  split; [exact H1|]. split; [exact H2|]. split; [exact H3|].
  exact (truncation_fails_iff_first_message_too_large Sample.world 128000 3 self _ _ _ H1 H2 H3).
Defined.

Lemma successful_exchange_witness :
  let self := Sample.engine "openai" "gpt-4o" (OpenAIClient "sk-openai")
                [Sample.system_message] in
  let sent := [Sample.system_message;
               message_to_py (user_turn "look" (Some "http://x/i.jpg"))] in
  "look" <> ""
  /\ attachment Sample.world "http://x/i.jpg" false = Some (Some "http://x/i.jpg")
  /\ estimate Sample.world self sent = Ret 1155
  /\ chat_with_history Sample.world 3 (Some "look") "http://x/i.jpg" false self
     = (Ret (PStr "ok"),
        set_chat_history (sent ++ [reply_entry "assistant" (PStr "ok")])
                         (warm Sample.world self),
        [Print (HistoryTokenLength 1155); Print (AskingQuestion "openai");
         OpenAIChatCreate "gpt-4o" sent; Print (Answer "ok")]).
Proof.
  intros self sent.
  assert (H1 : "look" <> "") by discriminate.
  assert (H2 : attachment Sample.world "http://x/i.jpg" false = Some (Some "http://x/i.jpg"))
    by reflexivity.
  assert (H3 : estimate Sample.world self sent = Ret 1155) by (vm_compute; reflexivity).
  split; [exact H1|]. split; [exact H2|]. split; [exact H3|].
  assert (H4 : 1155 <= 128000) by lia.
  assert (H5 : (0 < 3)%nat) by lia.
  exact (proj1 (proj2 (successful_exchange Sample.world 3 self "sk-openai" "look"
                         "http://x/i.jpg" false (Some "http://x/i.jpg") 1155 "assistant"
                         (PStr "ok") H1 H2 eq_refl eq_refl H3 H4 eq_refl H5))
               eq_refl eq_refl).
Defined.

(** A reply that rich cannot render: the request has been sent and the
    reply recorded when [MarkupError] reaches the caller.  And a backup
    that cannot be written: the exception of [open] comes after the reply
    has been recorded as well. *)
Lemma unrenderable_reply_is_recorded :
  let self := Sample.engine "openai" "gpt-4o" (OpenAIClient "sk-openai")
                [Sample.system_message] in
  let r := chat_with_history Fixtures.strict 3 (Some "hi") "" true self in
  let saving := {| provider := "openai"; model := "gpt-4o"; logging := false;
                   tiktoken_encoder := None; chat_history := [Sample.system_message];
                   chat_history_backup := Some "/readonly/backup.json";
                   client := Some (OpenAIClient "sk-openai") |} in
  let r' := chat_with_history Fixtures.strict 3 (Some "hi") "" true saving in
  let recorded := [Sample.system_message; Fixtures.hello;
                   reply_entry "assistant" (PStr "use [/b] here")] in
  outcome_of r = Raise (MarkupError "closing tag has nothing to close")
  /\ chat_history (state_of r) = recorded
  /\ trace_of r = [Print (HistoryTokenLength 39); Print (AskingQuestion "openai");
                   OpenAIChatCreate "gpt-4o" [Sample.system_message; Fixtures.hello]]
  /\ outcome_of r' = Raise (OSError "/readonly/backup.json")
  /\ chat_history (state_of r') = recorded
  /\ trace_of r' = [OpenAIChatCreate "gpt-4o" [Sample.system_message; Fixtures.hello];
                    BackupWrite "/readonly/backup.json" recorded].
Proof.
  vm_compute. repeat split; reflexivity.
Qed.

(** A reply without content (a tool call, a refusal) is recorded and
    returned as [None]; the console shows its [str]. *)
Lemma reply_without_content_is_recorded :
  let self := Sample.engine "claude" "claude-3-opus-20240229" (AnthropicClient "sk-anthropic")
                [Sample.system_message] in
  let r := chat_with_history Fixtures.strict 3 (Some "hi") "" true self in
  outcome_of r = Ret PNone
  /\ chat_history (state_of r)
     = [Sample.system_message; Fixtures.hello; reply_entry "assistant" PNone]
  /\ trace_of r
     = [Print (HistoryTokenLength 32); Print (AskingQuestion "claude");
        ClaudeMessagesCreate "claude-3-opus-20240229" 4096
          [PDict [("role", PStr "system"); ("content", PStr "Be brief.")];
           PDict [("role", PStr "user"); ("content", PStr "hi")]];
        Print (Answer "None")].
Proof.
  vm_compute. repeat split; reflexivity.
Qed.

Lemma exchange_without_client_witness :
  let self := {| provider := "claude"; model := "claude-3-opus-20240229"; logging := true;
                 tiktoken_encoder := None; chat_history := [Sample.system_message];
                 chat_history_backup := Some "backup.json"; client := None |} in
  "hi" <> ""
  /\ client self = None
  /\ estimate Sample.world self [Sample.system_message; Fixtures.hello] = Ret 32
  /\ exists name,
       chat_with_history Sample.world 3 (Some "hi") "" true self
       = (Ret PNone,
          set_chat_history [Sample.system_message; Fixtures.hello] (warm Sample.world self),
          (preamble self 32 ++ [Print (ErrClientNotInitialized name)])%list).
Proof.
  intros self.
  assert (H1 : "hi" <> "") by discriminate.
  assert (H3 : estimate Sample.world self [Sample.system_message; Fixtures.hello] = Ret 32)
    by (vm_compute; reflexivity).
  split; [exact H1|]. split; [reflexivity|]. split; [exact H3|].
  assert (Hin : In (provider self) ["openai"; "claude"; "gemini"])
    by (right; left; reflexivity).
  assert (H4 : 32 <= 128000) by lia.
  assert (H5 : (0 < 3)%nat) by lia.
  exact (exchange_without_client Sample.world 3 self "hi" "" true None 32
           H1 eq_refl Hin eq_refl H3 H4 H5).
Defined.

Lemma exchange_with_failing_provider_witness :
  let self := Sample.engine "openai" "gpt-4o" (OpenAIClient "sk-openai")
                [Sample.system_message] in
  let sent := [Sample.system_message; Fixtures.hello] in
  "hi" <> ""
  /\ estimate Fixtures.degraded self sent = Ret 39
  /\ openai_create Fixtures.degraded "gpt-4o" sent = inl (ProviderError "rate limit")
  /\ chat_with_history Fixtures.degraded 3 (Some "hi") "" true self
     = (Raise (ProviderError "rate limit"),
        set_chat_history sent (warm Fixtures.degraded self),
        (preamble self 39 ++ [OpenAIChatCreate "gpt-4o" sent])%list).
Proof.
  intros self sent.
  assert (H1 : "hi" <> "") by discriminate.
  assert (H3 : estimate Fixtures.degraded self sent = Ret 39) by (vm_compute; reflexivity).
  split; [exact H1|]. split; [exact H3|]. split; [reflexivity|].
  assert (H4 : 39 <= 128000) by lia.
  assert (H5 : (0 < 3)%nat) by lia.
  exact (exchange_with_failing_provider Fixtures.degraded 3 self "sk-openai" "hi" "" true None
           39 (ProviderError "rate limit") H1 eq_refl eq_refl eq_refl H3 H4 eq_refl H5).
Defined.

Lemma exchange_with_unknown_model_witness :
  let self := Sample.engine "openai" "gpt-5-preview" (OpenAIClient "sk-openai")
                [Sample.system_message] in
  "hi" <> ""
  /\ encoding_for_model Sample.world (model self) = None
  /\ chat_with_history Sample.world 3 (Some "hi") "" true self
     = (Raise (NotImplementedError "gpt-5-preview"),
        set_chat_history [Sample.system_message; Fixtures.hello] self, []).
Proof.
  intros self.
  assert (H1 : "hi" <> "") by discriminate.
  assert (H2 : encoding_for_model Sample.world (model self) = None) by reflexivity.
  split; [exact H1|]. split; [exact H2|].
  assert (H5 : (0 < 3)%nat) by lia.
  exact (exchange_with_unknown_model Sample.world 3 self "hi" "" true None
           H1 eq_refl eq_refl eq_refl H2 H5).
Defined.

Lemma unreadable_image_stops_the_call_witness :
  let self := Sample.engine "openai" "gpt-4o" (OpenAIClient "sk-openai")
                [Sample.system_message] in
  "look" <> "" /\ "cat.jpg" <> ""
  /\ read_image_base64 Fixtures.degraded "cat.jpg" = None
  /\ chat_with_history Fixtures.degraded 3 (Some "look") "cat.jpg" true self
     = (Ret PNone, self, [Print ErrImageEncode]).
Proof.
  intros self.
  assert (H1 : "look" <> "") by discriminate.
  assert (H2 : "cat.jpg" <> "") by discriminate.
  assert (H3 : read_image_base64 Fixtures.degraded "cat.jpg" = None) by reflexivity.
  split; [exact H1|]. split; [exact H2|]. split; [exact H3|].
  exact (proj1 (unreadable_image_stops_the_call Fixtures.degraded 3 self "look" "cat.jpg"
                  H1 H2 H3)).
Defined.

Lemma chat_with_history_keeps_history_well_formed_witness :
  let self := Sample.engine "gemini" "gemini-1.5-pro" (GenaiModule "sk-google")
                [Sample.system_message] in
  let h := chat_history (state_of (chat_with_history Sample.world 3 (Some "look")
                                                     "cat.jpg" true self)) in
  (forall model_name messages r c,
      openai_create Sample.world model_name messages = inr (r, c) -> r <> "user")
  /\ well_formed_history (chat_history self)
  /\ well_formed_history h
  /\ exists ms,
       filter (has_role "user") h = map message_to_py ms
       /\ Forall (fun m => text_first m = true) ms
       /\ gemini_history_text Sample.world h = inr (join NL (map message_text ms)).
Proof.
  intros self h.
  assert (Hrole : forall model_name messages r c,
             openai_create Sample.world model_name messages = inr (r, c) -> r <> "user").
  { intros model_name messages r c H. cbn in H. inversion H. discriminate. }
  assert (H : well_formed_history (chat_history self)).
  { constructor; [|constructor].
    exists "system", (PList [PDict [("type", PStr "text"); ("text", PStr "Be brief.")]]).
    split; [reflexivity|discriminate]. }
  split; [exact Hrole|]. split; [exact H|].
  exact (chat_with_history_keeps_history_well_formed Sample.world 3 (Some "look")
           "cat.jpg" true self Hrole H).
Defined.

Lemma claude_format_is_idempotent_witness :
  let history := [Sample.system_message;
                  message_to_py (user_turn "look" (Some "http://x/i.jpg"))] in
  let formatted := [PDict [("role", PStr "system"); ("content", PStr "Be brief.")];
                    PDict [("role", PStr "user"); ("content", PStr "look")]] in
  _claude_history_format history = inr formatted
  /\ _claude_history_format formatted = inr formatted
  /\ length formatted = length history.
Proof.
  intros history formatted.
  assert (H : _claude_history_format history = inr formatted) by reflexivity.
  split; [exact H|].
  exact (claude_format_is_idempotent history formatted H).
Defined.

Lemma gemini_prompt_ignores_other_roles_witness :
  let reply := [("role", PStr "assistant"); ("content", PNone)] in
  dict_get "role" reply = Some (PStr "assistant")
  /\ PStr "assistant" <> PStr "user"
  /\ gemini_history_text Sample.world ([Fixtures.hello] ++ PDict reply :: [Fixtures.hello])
     = gemini_history_text Sample.world ([Fixtures.hello] ++ [Fixtures.hello]).
Proof.
  intros reply.
  assert (H1 : dict_get "role" reply = Some (PStr "assistant")) by reflexivity.
  assert (H2 : PStr "assistant" <> PStr "user") by discriminate.
  split; [exact H1|]. split; [exact H2|].
  exact (gemini_prompt_ignores_other_roles Sample.world [Fixtures.hello] [Fixtures.hello]
           reply (PStr "assistant") H1 H2).
Defined.

Lemma provider_switch_keeps_cached_encoder_witness :
  let self := {| provider := "openai"; model := "gpt-4o"; logging := true;
                 tiktoken_encoder := Some Sample.char_encoder;
                 chat_history := []; chat_history_backup := None;
                 client := Some (OpenAIClient "sk-openai") |} in
  let switched := state_of (set_provider Sample.world "openai" (Some "gpt-5-preview") self) in
  tiktoken_encoder self = Some Sample.char_encoder
  /\ model switched = "gpt-5-preview"
  /\ encoding_for_model Sample.world "gpt-5-preview" = None
  /\ outcome_of (num_tokens_from_messages Sample.world [Fixtures.hello] None switched)
     = Ret 16.
Proof.
  intros self switched.
  assert (H : tiktoken_encoder self = Some Sample.char_encoder) by reflexivity.
  split; [exact H|]. split; [reflexivity|]. split; [reflexivity|].
  exact (proj2 (provider_switch_keeps_cached_encoder Sample.world self Sample.char_encoder
                  "openai" (Some "gpt-5-preview") [Fixtures.hello] H) eq_refl).
Defined.

Lemma analyze_image_answer_witness :
  let self := Sample.engine "claude" "claude-3-opus-20240229" (AnthropicClient "sk-anthropic") [] in
  provider self <> "openai"
  /\ fst (analyze_image Sample.world Fixtures.describe self None "cat.jpg" true) = Ret PNone
  /\ filter is_vision_request
            (snd (analyze_image Sample.world Fixtures.describe self None "cat.jpg" true)) = [].
Proof.
  intros self.
  assert (H : provider self <> "openai") by discriminate.
  split; [exact H|].
  exact (proj2 (analyze_image_answer Sample.world Fixtures.describe self None "cat.jpg" true)
               (or_intror (or_introl H))).
Defined.

Lemma constructed_object_witness :
  let system := Some (message_to_py (user_turn "ignored" None)) in
  let obj := {| provider := "openai"; model := "gpt-4o"; logging := true;
                tiktoken_encoder := None; chat_history := [Sample.system_message];
                chat_history_backup := Some "backup.json";
                client := Some (OpenAIClient "sk-openai") |} in
  __init__ Fixtures.degraded system (Some "backup.json") "openai" None = (Ret obj, [])
  /\ json_load Fixtures.degraded "backup.json" = inr (chat_history obj)
  /\ client obj = expected_client Fixtures.degraded "openai".
Proof.
  intros system obj.
  assert (H : __init__ Fixtures.degraded system (Some "backup.json") "openai" None
              = (Ret obj, [])) by reflexivity.
  split; [exact H|].
  destruct (constructed_object Fixtures.degraded system (Some "backup.json") "openai" None
              obj [] H) as (_ & _ & _ & _ & _ & _ & Hc & Hh).
  split; [exact Hh|exact Hc].
Defined.

Lemma requests_are_within_budget_witness :
  let self := Sample.engine "openai" "gpt-4o" (OpenAIClient "sk-openai")
                [Sample.system_message; Sample.oversized_message] in
  provider self = "openai"
  /\ In (OpenAIChatCreate "gpt-4o" [Sample.system_message; Fixtures.hello])
        (trace_of (chat_with_history Sample.world 4 (Some "hi") "" true self))
  /\ exists n, estimate Sample.world self [Sample.system_message; Fixtures.hello] = Ret n
               /\ n <= 128000.
Proof.
  intros self.
  assert (Hp : provider self = "openai") by reflexivity.
  assert (Hin : In (OpenAIChatCreate "gpt-4o" [Sample.system_message; Fixtures.hello])
                   (trace_of (chat_with_history Sample.world 4 (Some "hi") "" true self))).
  { vm_compute. do 3 right. left. reflexivity. }
  split; [exact Hp|]. split; [exact Hin|].
  exact (proj2 (proj2 (requests_are_within_budget Sample.world 4 (Some "hi") "" true self)
                      Hp "gpt-4o" [Sample.system_message; Fixtures.hello]
                      (or_introl Hin))).
Defined.

Lemma switch_with_missing_key_witness :
  let self := Sample.engine "openai" "gpt-4o" (OpenAIClient "sk-openai")
                [Sample.system_message] in
  let r := set_provider Fixtures.degraded "claude" None self in
  importable Fixtures.degraded "anthropic" = true
  /\ environ Fixtures.degraded "ANTHROPIC_API_KEY" = None
  /\ outcome_of r = Raise (KeyError "ANTHROPIC_API_KEY")
  /\ provider (state_of r) = "claude"
  /\ client (state_of r) = Some (OpenAIClient "sk-openai")
  /\ outcome_of (chat Fixtures.degraded (Some "hi") (state_of r)) = Raise AttributeError.
Proof.
  intros self r.
  assert (H1 : importable Fixtures.degraded "anthropic" = true) by reflexivity.
  assert (H2 : environ Fixtures.degraded "ANTHROPIC_API_KEY" = None) by reflexivity.
  assert (H4 : "hi" <> "") by discriminate.
  destruct (switch_with_missing_key Fixtures.degraded self "sk-openai" "hi" None
              H1 H2 eq_refl H4) as (Ho & Hp & _ & Hc & _ & Hchat).
  split; [exact H1|]. split; [exact H2|]. split; [exact Ho|]. split; [exact Hp|].
  split; [exact Hc|].
  fold r in Hchat. rewrite Hchat. reflexivity.
Defined.
